(** * SmartGuard: risk scoring engine and delegation lifecycle

    A shallow embedding of the decision logic of the SmartGuard backend:
    - [backend/services/riskScoring.js]  (module [RiskScoring]),
    - [backend/utils/constants.js], [backend/utils/helpers.js]
      (modules [Constants], [Helpers]),
    - [backend/routes/revoke.js], [backend/routes/delegation.js] and the
      delegation route of [backend/routes/wallet.js]
      (modules [RevokeRoute], [DelegationRoute], [WalletRoute]),
    - [backend/routes/risk.js], [threat.js], [automation.js] and [dca.js]
      (modules [RiskRoute], [ThreatRoute], [AutomationRoute], [DcaRoute]),
    - [backend/services/revokeLogic.js] and [scheduler.js]
      (modules [RevokeLogic], [Scheduler]).

    Conventions of the embedding.
    - JavaScript numbers that only ever hold integers (scores, second
      timestamps, lengths) are [Z], in the range below 2^53 where the
      arithmetic of doubles is exact; [Math.round] on them is the identity
      and [Math.floor (a / b)] for a positive [b] is [Z.div].
    - [bigint] values (wei amounts) are [Z].
    - Doubles that come out of [parseFloat] or [Math.random] are the rational
      [Q] they denote; the decimal literal [0.1] is the double nearest to it.
    - An [async] function that may reject is a function into [Result]; a
      [try]/[catch] is a [match] on that result.
    - Every request to the chain is a read of its own: two requests for the
      bytecode of one address may differ in outcome.  [getCode] resolves to
      [undefined], not to ["0x"], for an address without code.
    - A module-level [Map] is an association list threaded through the
      handlers, in insertion order. *)

From Stdlib Require Import ZArith QArith List String Ascii Bool Lia DecimalString.
Import ListNotations.

Open Scope string_scope.
Open Scope list_scope.
Open Scope Z_scope.

(* ===================================================================== *)
(** ** Results of fallible calls *)

Inductive Result (A : Type) : Type :=
| Ok (a : A)
| Err (message : string).

Arguments Ok {A} a.
Arguments Err {A} message.

Definition bind {A B : Type} (c : Result A) (k : A -> Result B) : Result B :=
  match c with
  | Ok a => k a
  | Err m => Err m
  end.

Notation "x <- c ;; k" := (bind c (fun x => k))
  (at level 100, c at next level, right associativity).

(** [catch (err) { throw new Error(prefix + err.message) }] *)
Definition rethrow {A : Type} (prefix : string) (c : Result A) : Result A :=
  match c with
  | Ok a => Ok a
  | Err m => Err (prefix ++ m)%string
  end.

(* ===================================================================== *)
(** ** The JavaScript primitives the sources use *)

Module JS.

(** [String.prototype.toLowerCase], on the ASCII range. *)
Definition lowerChar (c : ascii) : ascii :=
  let n := nat_of_ascii c in
  if ((65 <=? n) && (n <=? 90))%nat then ascii_of_nat (n + 32) else c.

Fixpoint toLowerCase (s : string) : string :=
  match s with
  | EmptyString => EmptyString
  | String c rest => String (lowerChar c) (toLowerCase rest)
  end.

(** [String.prototype.length] as an integer. *)
Definition length (s : string) : Z := Z.of_nat (String.length s).

(** [String.prototype.startsWith]. *)
Definition startsWith (s p : string) : bool := String.prefix p s.

(** [String.prototype.includes]. *)
Fixpoint includes (s needle : string) : bool :=
  String.prefix needle s
  || match s with
     | EmptyString => false
     | String _ rest => includes rest needle
     end.

(** [Array.prototype.includes] on an array of strings. *)
Definition arrayIncludes (l : list string) (x : string) : bool :=
  existsb (String.eqb x) l.

(** [Array.prototype.join]. *)
Definition join (sep : string) (l : list string) : string :=
  String.concat sep l.

(** Number-to-string conversion inside a template literal, for integers. *)
Definition numberToString (z : Z) : string :=
  NilZero.string_of_int (Z.to_int z).

(** Truthiness of a value that is a string or [undefined]. *)
Definition truthy (v : option string) : bool :=
  match v with
  | Some s => negb (s =? "")%string
  | None => false
  end.

(** [v || dflt] for a string or [undefined]. *)
Definition orElse (v : option string) (dflt : string) : string :=
  match v with
  | Some s => if (s =? "")%string then dflt else s
  | None => dflt
  end.

(** [v === s] and [v !== s] for a value that is a string or [undefined]. *)
Definition strictEq (v : option string) (s : string) : bool :=
  match v with
  | Some x => (x =? s)%string
  | None => false
  end.

Definition strictNe (v : option string) (s : string) : bool :=
  negb (strictEq v s).

(** The message of the [TypeError] raised by reading [length] of
    [undefined]. *)
Definition undefinedLength : string :=
  "Cannot read properties of undefined (reading 'length')".

(** A call [f(v)] of a function whose body starts by reading [v.length],
    on a value that is a string or [undefined]. *)
Definition readingLength {A : Type} (f : string -> A) (v : option string)
  : Result A :=
  match v with
  | Some x => Ok (f x)
  | None => Err undefinedLength
  end.

(** A value of a parsed JSON request body.  A field that the body does not
    have reads as [undefined]: [None] of [option Json]. *)
#[warnings="-register-all"] Inductive Json : Type :=
| JNull
| JBool (b : bool)
| JNumber (q : Q)
| JString (s : string)
| JArray (items : list Json)
| JObject (fields : list (string * Json)).

(** Truthiness of a JSON value, and of a field that may be absent. *)
Definition truthyJson (v : Json) : bool :=
  match v with
  | JNull => false
  | JBool b => b
  | JNumber q => negb (Qeq_bool q 0)
  | JString s => negb (s =? "")%string
  | JArray _ => true
  | JObject _ => true
  end.

Definition truthyField (v : option Json) : bool :=
  match v with
  | Some x => truthyJson x
  | None => false
  end.

(** [v !== s] for a JSON value and a string literal. *)
Definition jsonNe (v : Json) (s : string) : bool :=
  match v with
  | JString x => negb (x =? s)%string
  | _ => true
  end.

(** What a [for ... of] loop over a JSON value visits: the items of an
    array, the characters of a string; any other value is not iterable and
    the loop throws. *)
Definition iterate (v : Json) : option (list Json) :=
  match v with
  | JArray items => Some items
  | JString s =>
      Some (map (fun c => JString (String c EmptyString))
              (list_ascii_of_string s))
  | _ => None
  end.

(** The [length] property of a value that is iterable. *)
Definition jsonLength (v : Json) : Z :=
  match v with
  | JArray items => Z.of_nat (List.length items)
  | JString s => Z.of_nat (String.length s)
  | _ => 0
  end.

(** Strict [<] on the rationals standing for doubles. *)
Definition Qltb (a b : Q) : bool := negb (Qle_bool b a).

(** The double written [0.1]: 0x3FB999999999999A. *)
Definition double_0_1 : Q := 3602879701896397 # 36028797018963968.

(** [Math.max(0, Math.min(100, x))]. *)
Definition clamp100 (x : Z) : Z := Z.max 0 (Z.min 100 x).

(** A module-level [Map] with string keys: entries in insertion order. *)
Definition Map (V : Type) : Type := list (string * V).

Fixpoint mapGet {V : Type} (m : Map V) (k : string) : option V :=
  match m with
  | [] => None
  | (k', v) :: rest => if (k' =? k)%string then Some v else mapGet rest k
  end.

Definition mapHas {V : Type} (m : Map V) (k : string) : bool :=
  match mapGet m k with Some _ => true | None => false end.

(** [Map.prototype.set]: an existing key keeps its place, a new one goes
    to the end. *)
Fixpoint mapSet {V : Type} (m : Map V) (k : string) (v : V) : Map V :=
  match m with
  | [] => [(k, v)]
  | (k', v') :: rest =>
      if (k' =? k)%string then (k, v) :: rest else (k', v') :: mapSet rest k v
  end.

(** [Map.prototype.delete]. *)
Definition mapDelete {V : Type} (m : Map V) (k : string) : Map V :=
  filter (fun kv => negb (fst kv =? k)%string) m.

End JS.

(* ===================================================================== *)
(** ** backend/utils/constants.js *)

Module Constants.

Definition MAX_DELEGATION_DURATION : Z := 30 * 24 * 60 * 60.
Definition MIN_DELEGATION_DURATION : Z := 1 * 60 * 60.

Module RISK_THRESHOLDS.
Definition LOW : Z := 30.
Definition MEDIUM : Z := 70.
Definition HIGH : Z := 90.
End RISK_THRESHOLDS.

End Constants.

(** The level names the engine returns; ["Unknown"] is produced by
    [scoreContract] alone. *)
Inductive RiskLevel : Type := High | Medium | Low | Unknown.

Definition levelName (l : RiskLevel) : string :=
  match l with
  | High => "High"
  | Medium => "Medium"
  | Low => "Low"
  | Unknown => "Unknown"
  end.

(** The chain client ([provider], a viem public client): each read may fail
    with an error message.  [getCode] resolves to the bytecode, a hex string,
    and to [undefined] ([None]) for an address that has no code.  An
    operation issues several [getCode] requests, each answered on its own:
    [getCode provider n address] is the outcome of the request numbered [n]
    among those the operation issues, counted from 0 in the order in which
    they are issued. *)
Record Provider : Type := {
  getBalance : string -> Result Z;
  getTransactionCount : string -> Result Z;
  getCode : nat -> string -> Result (option string)
}.

(** The syntactic part of viem's [isAddress]: [/^0x[a-fA-F0-9]{40}$/].
    The sources import [isAddress] from viem; the handlers below take it as
    a parameter and the examples instantiate it with this check. *)
Definition isHexDigit (c : ascii) : bool :=
  let n := nat_of_ascii c in
  ((48 <=? n) && (n <=? 57) || (97 <=? n) && (n <=? 102)
   || (65 <=? n) && (n <=? 70))%nat.

Definition addressShape (s : string) : bool :=
  match s with
  | String "0" (String "x" rest) =>
      (String.length rest =? 40)%nat
      && forallb isHexDigit (list_ascii_of_string rest)
  | _ => false
  end.

(** [parseFloat(formatEther(x))] on amounts whose quotient by 10^18 is a
    double: the exact quotient.  The engine takes the conversion as a
    parameter; the examples use this one on such amounts. *)
Definition exactEther (wei : Z) : Q := wei # 1000000000000000000.

(* ===================================================================== *)
(** ** backend/services/riskScoring.js *)

Module RiskScoring.

Definition KNOWN_RISKY_CONTRACTS : list string :=
  [ "0x000000000000000000000000000000000000dead";
    "0xffffffffffffffffffffffffffffffffffffffff";
    "0x1234567890123456789012345678901234567890" ].

Record Reputation : Type := { risk : Z; category : string }.

Definition CONTRACT_REPUTATION : list (string * Reputation) :=
  [ ("0x742e4c4b6e7d2a27d7a5a5e5e5b5a5e5e5b5a5e5e",
     {| risk := 20; category := "DeFi" |});
    ("0x852e4c4b6e7d2a27d7a5a5e5e5b5a5e5e5b5a5e5e",
     {| risk := 60; category := "Gambling" |});
    ("0x962e4c4b6e7d2a27d7a5a5e5e5b5a5e5e5b5a5e5e",
     {| risk := 80; category := "High-Risk" |}) ].

Record CodeAnalysis : Type := {
  ca_score : Z;
  ca_factors : list string;
  ca_hasComplexLogic : bool;
  ca_potentialRisks : list string
}.

Definition analyzeContractCode (code : string) : CodeAnalysis :=
  let factors := [] in
  let score := 0 in
  let '(score, factors) :=
    if JS.length code >? 10000
    then (score + 10, factors ++ ["Large contract code"])
    else (score, factors) in
  let '(score, factors) :=
    if JS.includes code "delegatecall"
    then (score + 20, factors ++ ["Uses delegatecall - potential proxy risk"])
    else (score, factors) in
  let '(score, factors) :=
    if JS.includes code "selfdestruct"
    then (score + 25, factors ++ ["Contains selfdestruct function"])
    else (score, factors) in
  {| ca_score := score;
     ca_factors := factors;
     ca_hasComplexLogic := JS.length code >? 5000;
     ca_potentialRisks := factors |}.

Definition analyzeCodeComplexity (code : string) : string :=
  let size := JS.length code in
  if size <? 1000 then "Low"
  else if size <? 5000 then "Medium"
  else "High".

Definition getRiskLevel (score : Z) : RiskLevel :=
  if score >=? 70 then High
  else if score >=? 30 then Medium
  else Low.

Definition generateRecommendations (score : Z) (factors : list string)
  : list string :=
  let recommendations :=
    if score >=? 70 then
      [ "Consider using a hardware wallet";
        "Review all token approvals";
        "Enable transaction monitoring" ]
    else if score >=? 30 then
      [ "Monitor wallet activity regularly";
        "Review token approvals monthly";
        "Consider multi-signature for large holdings" ]
    else
      [ "Continue current security practices";
        "Keep software updated";
        "Use strong password and 2FA" ] in
  let recommendations :=
    if JS.arrayIncludes factors "No transaction history"
    then recommendations ++ ["Consider making a test transaction first"]
    else recommendations in
  let recommendations :=
    if JS.arrayIncludes factors "High balance"
    then recommendations ++ ["Diversify assets across multiple wallets"]
    else recommendations in
  recommendations.

(** [checkRiskyInteractions]: one [Math.random()] draw per known risky
    contract, in list order; [random i] is the i-th draw of the call. *)
Fixpoint riskyLoop (contracts : list string) (random : nat -> Q) (i : nat)
  : list string :=
  match contracts with
  | [] => []
  | riskyContract :: rest =>
      (if JS.Qltb (random i) JS.double_0_1 then [riskyContract] else [])
      ++ riskyLoop rest random (S i)
  end.

Definition checkRiskyInteractions (address : string) (random : nat -> Q)
  : list string :=
  riskyLoop KNOWN_RISKY_CONTRACTS random 0%nat.

Record WalletDetails : Type := {
  wd_balance : Q;
  wd_transactionCount : Z;
  wd_isContract : bool;
  wd_riskyInteractions : Z;
  wd_codeComplexity : option string
}.

Record WalletRisk : Type := {
  w_riskScore : Z;
  w_riskLevel : RiskLevel;
  w_factors : list string;
  w_warnings : list string;
  w_details : WalletDetails;
  w_recommendations : list string
}.

Record ContractAnalysis : Type := {
  an_codeSize : Z;
  an_hasComplexLogic : bool;
  an_potentialRisks : list string
}.

Record ContractRisk : Type := {
  c_contract : string;
  c_score : Z;
  c_riskLevel : RiskLevel;
  c_reasons : list string;
  c_verified : bool;
  c_analysis : option ContractAnalysis
}.

Record TxData : Type := {
  tx_from : option string;
  tx_to : string;
  tx_value : option Z;
  tx_data : option string
}.

Record TxAnalysis : Type := {
  ta_valueRisk : option string;
  ta_isContractInteraction : bool;
  ta_contractRisk : option ContractRisk;
  ta_hasCalldata : bool
}.

Record TxRisk : Type := {
  t_riskScore : Z;
  t_riskLevel : RiskLevel;
  t_warnings : list string;
  t_analysis : TxAnalysis;
  t_shouldProceed : bool;
  t_recommendations : list string
}.

Section Engine.

(** viem's [isAddress]. *)
Variable isAddress : string -> bool.
(** [parseFloat(formatEther(x))]: the double nearest to [x / 10^18]. *)
Variable parseFloatEther : Z -> Q.
(** The module-level [provider]. *)
Variable provider : Provider.

(** [isContractAddress(address)], whose [getCode] request is the one
    numbered [request]. *)
Definition isContractAddress (request : nat) (address : string) : bool :=
  match getCode provider request address with
  | Ok code => JS.strictNe code "0x"
  | Err _ => false
  end.

(** [scoreWallet(address)].  Of the two [getCode] requests that the
    [Promise.all] issues, the one of [isContractAddress] comes first.  When
    several reads of the [Promise.all] fail, the error reported here is that
    of the first in the array; in the source it is that of the first to
    fail. *)
Definition scoreWallet (address : string) (random : nat -> Q)
  : Result WalletRisk :=
  rethrow "Failed to score wallet: "
    (if negb (isAddress address) then Err "Invalid wallet address" else
     balance <- getBalance provider address ;;
     txCount <- getTransactionCount provider address ;;
     let isContract := isContractAddress 0 address in
     code <- getCode provider 1 address ;;
     let riskScore := 50 in
     let riskFactors := [] in
     let warnings := [] in
     let balanceEth := parseFloatEther balance in
     let '(riskScore, riskFactors) :=
       if Qeq_bool balanceEth 0
       then (riskScore + 10, riskFactors ++ ["Zero balance"])
       else if JS.Qltb 10 balanceEth
       then (riskScore + 15, riskFactors ++ ["High balance"])
       else (riskScore, riskFactors) in
     let '(riskScore, riskFactors, warnings) :=
       if txCount =? 0
       then (riskScore + 20, riskFactors ++ ["No transaction history"],
             warnings ++ ["Wallet appears to be new or inactive"])
       else if txCount <? 3
       then (riskScore + 10, riskFactors ++ ["Low transaction count"],
             warnings)
       else (riskScore, riskFactors, warnings) in
     let '(riskScore, riskFactors) :=
       if isContract
       then (riskScore - 10, riskFactors ++ ["Contract address"])
       else (riskScore, riskFactors) in
     codeStep <-
       (if isContract && JS.strictNe code "0x"
        then
          codeRisk <- JS.readingLength analyzeContractCode code ;;
          Ok (riskScore + ca_score codeRisk,
              riskFactors ++ ca_factors codeRisk)
        else Ok (riskScore, riskFactors)) ;;
     let '(riskScore, riskFactors) := codeStep in
     let interactions := checkRiskyInteractions address random in
     let n := Z.of_nat (List.length interactions) in
     let '(riskScore, riskFactors, warnings) :=
       if n >? 0
       then (riskScore + n * 15,
             riskFactors
               ++ [("Interacted with " ++ JS.numberToString n
                    ++ " risky contracts")%string],
             warnings
               ++ [("Found interactions with risky contracts: "
                    ++ JS.join ", " interactions)%string])
       else (riskScore, riskFactors, warnings) in
     let riskScore := JS.clamp100 riskScore in
     codeComplexity <-
       (if isContract
        then
          complexity <- JS.readingLength analyzeCodeComplexity code ;;
          Ok (Some complexity)
        else Ok None) ;;
     Ok {| w_riskScore := riskScore;
           w_riskLevel := getRiskLevel riskScore;
           w_factors := riskFactors;
           w_warnings := warnings;
           w_details :=
             {| wd_balance := balanceEth;
                wd_transactionCount := txCount;
                wd_isContract := isContract;
                wd_riskyInteractions := n;
                wd_codeComplexity := codeComplexity |};
           w_recommendations :=
             generateRecommendations riskScore riskFactors |}).

Definition lookupReputation (lowerAddress : string) : option Reputation :=
  JS.mapGet CONTRACT_REPUTATION lowerAddress.

(** [scoreContract(contractAddress)], whose first [getCode] request is the
    one numbered [request]: the direct read, followed by the read of
    [isContractAddress]. *)
Definition scoreContract (request : nat) (contractAddress : string)
  : Result ContractRisk :=
  rethrow "Failed to score contract: "
    (if negb (isAddress contractAddress)
     then Err "Invalid contract address" else
     code <- getCode provider request contractAddress ;;
     let isContract := isContractAddress (S request) contractAddress in
     if negb isContract || JS.strictEq code "0x" then
       Ok {| c_contract := contractAddress;
             c_score := 0;
             c_riskLevel := Unknown;
             c_reasons := ["Not a contract or no code"];
             c_verified := false;
             c_analysis := None |}
     else
       let riskScore := 50 in
       let reasons := [] in
       analysis <- JS.readingLength analyzeContractCode code ;;
       let riskScore := riskScore + ca_score analysis in
       let reasons := reasons ++ ca_factors analysis in
       let lowerAddress := JS.toLowerCase contractAddress in
       let '(riskScore, reasons) :=
         if JS.arrayIncludes KNOWN_RISKY_CONTRACTS lowerAddress
         then (100, reasons ++ ["Flagged as known risky contract"])
         else match lookupReputation lowerAddress with
              | Some reputation =>
                  (Z.max riskScore (risk reputation),
                   reasons
                     ++ [("Categorized as " ++ category reputation)%string])
              | None => (riskScore, reasons)
              end in
       let riskScore := JS.clamp100 riskScore in
       codeSize <- JS.readingLength JS.length code ;;
       Ok {| c_contract := contractAddress;
             c_score := riskScore;
             c_riskLevel := getRiskLevel riskScore;
             c_reasons := reasons;
             c_verified := false;
             c_analysis :=
               Some {| an_codeSize := codeSize;
                       an_hasComplexLogic := ca_hasComplexLogic analysis;
                       an_potentialRisks := ca_potentialRisks analysis |}
          |}).

(** [analyzeTransaction(txData)]: the [getCode] request of
    [isContractAddress(to)], then the two of [scoreContract(to)]. *)
Definition analyzeTransaction (txData : TxData) : Result TxRisk :=
  rethrow "Failed to analyze transaction: "
    (let to := tx_to txData in
     let value := tx_value txData in
     let data := tx_data txData in
     let riskScore := 0 in
     let warnings := [] in
     let '(riskScore, warnings, valueRisk) :=
       match value with
       | Some v =>
           if v >? 0 then
             let valueEth := parseFloatEther v in
             if JS.Qltb 1 valueEth
             then (riskScore + 20, warnings ++ ["High value transaction"],
                   Some "High")
             else if JS.Qltb JS.double_0_1 valueEth
             then (riskScore + 10, warnings, Some "Medium")
             else (riskScore, warnings, None)
           else (riskScore, warnings, None)
       | None => (riskScore, warnings, None)
       end in
     let toIsContract := isContractAddress 0 to in
     interaction <-
       (if toIsContract then
          let riskScore := riskScore + 15 in
          contractScore <- scoreContract 1 to ;;
          let riskScore :=
            riskScore + Z.max 0 (c_score contractScore - 50) in
          let warnings :=
            if c_score contractScore >? 70
            then warnings
                 ++ [("Interacting with high-risk contract (score: "
                      ++ JS.numberToString (c_score contractScore)
                      ++ ")")%string]
            else warnings in
          Ok (riskScore, warnings, Some contractScore)
        else Ok (riskScore, warnings, None)) ;;
     let '(riskScore, warnings, contractRisk) := interaction in
     let '(riskScore, warnings, hasCalldata) :=
       match data with
       | Some d =>
           if negb (d =? "")%string && negb (d =? "0x")%string then
             let riskScore := riskScore + 10 in
             if JS.length d >? 100
             then (riskScore + 5,
                   warnings ++ ["Complex contract call detected"], true)
             else (riskScore, warnings, true)
           else (riskScore, warnings, false)
       | None => (riskScore, warnings, false)
       end in
     let riskScore := JS.clamp100 riskScore in
     Ok {| t_riskScore := riskScore;
           t_riskLevel := getRiskLevel riskScore;
           t_warnings := warnings;
           t_analysis :=
             {| ta_valueRisk := valueRisk;
                ta_isContractInteraction := toIsContract;
                ta_contractRisk := contractRisk;
                ta_hasCalldata := hasCalldata |};
           t_shouldProceed := riskScore <? 70;
           t_recommendations :=
             if riskScore >=? 70
             then [ "Review transaction carefully";
                    "Verify contract address";
                    "Consider using a different wallet for this transaction" ]
             else [ "Transaction appears safe";
                    "Always verify addresses before confirming" ] |}).

End Engine.

End RiskScoring.

(* ===================================================================== *)
(** ** backend/utils/helpers.js *)

Module Helpers.

Section WithViem.

Variable isAddress : string -> bool.

Definition isValidAddress (address : string) : bool := isAddress address.

(** [validateDelegationParams(user, contract, expiresAt)]; [dateNow] is
    the value of [Date.now()] (milliseconds) read inside the call. *)
Definition validateDelegationParams
  (user contract : string) (expiresAt : Z) (dateNow : Z) : list string :=
  let errors := [] in
  let errors :=
    if negb (isValidAddress user)
    then errors ++ ["Invalid user address"] else errors in
  let errors :=
    if negb (isValidAddress contract)
    then errors ++ ["Invalid contract address"] else errors in
  let now := dateNow / 1000 in
  let errors :=
    if expiresAt <=? now
    then errors ++ ["Expiration must be in the future"] else errors in
  let errors :=
    if expiresAt >? now + Constants.MAX_DELEGATION_DURATION
    then errors
         ++ [("Delegation duration cannot exceed "
              ++ JS.numberToString
                   (Constants.MAX_DELEGATION_DURATION / (24 * 60 * 60))
              ++ " days")%string]
    else errors in
  errors.

End WithViem.

Definition getRiskLevel (score : Z) : RiskLevel :=
  if score >=? Constants.RISK_THRESHOLDS.HIGH then High
  else if score >=? Constants.RISK_THRESHOLDS.MEDIUM then Medium
  else Low.

End Helpers.

(* ===================================================================== *)
(** ** The delegation store and its remote counterpart *)

(** A value of the in-memory [delegationsDB]. *)
Record Delegation : Type := {
  d_userAddress : string;
  d_contractAddress : string;
  d_expiresAt : Z;
  d_description : string;
  d_addedAt : Z;
  d_isActive : bool
}.

(** An element of the array that [getActiveDelegations] returns
    (struct [SmartGuardV2.Delegation] of the ABI). *)
Record Plan : Type := {
  p_contractAddr : string;
  p_expiresAt : Z;
  p_addedAt : Z;
  p_description : string;
  p_isActive : bool
}.

(** The remote contract handle: every call may fail with a message. *)
Record SmartGuardContract : Type := {
  write_addDelegation : string -> string -> Z -> string -> Result string;
  write_removeDelegation : string -> string -> Result string;
  read_getActiveDelegations : string -> Result (list Plan)
}.

(** What a handler does to the world, in program order. *)
Inductive Effect : Type :=
| LocalSet (key : string) (record : Delegation)
| LocalDelete (key : string)
| RemoteAddDelegation (user contract : string) (seconds : Z)
    (description : string)
| RemoteWaitReceipt (hash : string)
| RemoteRemoveDelegation (user contract : string)
| RemoteGetActiveDelegations (user : string).

Definition isLocalWrite (e : Effect) : bool :=
  match e with
  | LocalSet _ _ | LocalDelete _ => true
  | _ => false
  end.

Definition isRemoteWrite (e : Effect) : bool :=
  match e with
  | RemoteAddDelegation _ _ _ _ | RemoteRemoveDelegation _ _ => true
  | _ => false
  end.

Inductive Status : Type := Active | Expired.

Definition statusName (s : Status) : string :=
  match s with
  | Active => "Active"
  | Expired => "Expired"
  end.

(** The delegation object of a response; a field a route leaves out is
    [None]. *)
Record View : Type := {
  v_contractAddr : string;
  v_expiresAt : Z;
  v_expiresIn : string;
  v_status : Status;
  v_description : option string;
  v_addedAt : Z;
  v_isActive : option bool
}.

Definition ZERO_ADDRESS : string :=
  "0x0000000000000000000000000000000000000000".

(** A request field inside a template literal. *)
Definition interpolate (v : option string) : string :=
  match v with
  | Some s => s
  | None => "undefined"
  end.

Definition countStatus (s : Status) (l : list View) : Z :=
  Z.of_nat
    (List.length
       (filter (fun d => match v_status d, s with
                         | Active, Active | Expired, Expired => true
                         | _, _ => false
                         end) l)).

(* ===================================================================== *)
(** ** backend/routes/revoke.js *)

Module RevokeRoute.

Record Request : Type := {
  userAddress : option string;
  contractAddress : option string
}.

Record Response : Type := {
  status : Z;
  success : bool;
  message : string;
  user : option string;
  contract : option string;
  timestamp : option string;
  contractRevokeSuccess : option bool;
  note : option string
}.

(** [router.post("/")].  [delegationsDB] is the [Map] of this module;
    [isoNow] is [new Date().toISOString()] at response time. *)
Definition post (smartGuardContract : option SmartGuardContract)
  (isoNow : string) (req : Request) (delegationsDB : JS.Map Delegation)
  : Response * JS.Map Delegation * list Effect :=
  if negb (JS.truthy (userAddress req))
     || negb (JS.truthy (contractAddress req))
  then
    ({| status := 400;
        success := false;
        message := "User address and contract address are required";
        user := None; contract := None; timestamp := None;
        contractRevokeSuccess := None; note := None |},
     delegationsDB, [])
  else
    let userAddress := interpolate (userAddress req) in
    let contractAddress := interpolate (contractAddress req) in
    let key := (userAddress ++ "-" ++ contractAddress)%string in
    let hadDelegation := JS.mapHas delegationsDB key in
    let '(delegationsDB, log) :=
      if hadDelegation
      then (JS.mapDelete delegationsDB key, [LocalDelete key])
      else (delegationsDB, []) in
    let '(contractRevokeSuccess, contractNote, log) :=
      match smartGuardContract with
      | Some c =>
          let log :=
            log ++ [RemoteRemoveDelegation userAddress contractAddress] in
          match write_removeDelegation c userAddress contractAddress with
          | Ok tx => (true, "Contract revocation executed", log)
          | Err m =>
              (false, ("Contract revocation failed: " ++ m)%string, log)
          end
      | None => (false, "Contract not available", log)
      end in
    ({| status := 200;
        success := true;
        message := "Contract delegation revoked successfully";
        user := Some userAddress;
        contract := Some contractAddress;
        timestamp := Some isoNow;
        contractRevokeSuccess := Some contractRevokeSuccess;
        note := Some contractNote |},
     delegationsDB, log).

End RevokeRoute.

(* ===================================================================== *)
(** ** backend/routes/delegation.js *)

Module DelegationRoute.

Record AddRequest : Type := {
  userAddress : option string;
  contractAddress : option string;
  duration : Z;
  description : option string
}.

Record AddResponse : Type := {
  a_status : Z;
  a_success : bool;
  a_message : string;
  a_delegation : option View
}.

(** [router.post("/")].  [dateNow k] is the k-th reading of [Date.now()]
    (milliseconds) of the request; [walletClient] tells whether the
    wallet client is set. *)
Definition post (smartGuardContract : option SmartGuardContract)
  (walletClient : bool) (waitForTransactionReceipt : string -> Result Z)
  (dateNow : nat -> Z) (req : AddRequest)
  (delegationsDB : JS.Map Delegation)
  : AddResponse * JS.Map Delegation * list Effect :=
  if negb (JS.truthy (userAddress req))
     || negb (JS.truthy (contractAddress req))
  then
    ({| a_status := 400;
        a_success := false;
        a_message := "User address and contract address are required";
        a_delegation := None |},
     delegationsDB, [])
  else
    let userAddress := interpolate (userAddress req) in
    let contractAddress := interpolate (contractAddress req) in
    let duration := duration req in
    let expiresAt := dateNow 0%nat / 1000 + duration * 3600 in
    let key := (userAddress ++ "-" ++ contractAddress)%string in
    let record :=
      {| d_userAddress := userAddress;
         d_contractAddress := contractAddress;
         d_expiresAt := expiresAt;
         d_description := JS.orElse (description req) "No description";
         d_addedAt := dateNow 1%nat / 1000;
         d_isActive := true |} in
    let delegationsDB := JS.mapSet delegationsDB key record in
    let log := [LocalSet key record] in
    let log :=
      match smartGuardContract with
      | Some c =>
          if walletClient then
            let log :=
              log ++ [RemoteAddDelegation userAddress contractAddress
                        (duration * 3600)
                        (JS.orElse (description req) "")] in
            match write_addDelegation c userAddress contractAddress
                    (duration * 3600) (JS.orElse (description req) "") with
            | Ok hash =>
                let log := log ++ [RemoteWaitReceipt hash] in
                match waitForTransactionReceipt hash with
                | Ok receipt => log
                | Err m => log
                end
            | Err m => log
            end
          else log
      | None => log
      end in
    ({| a_status := 200;
        a_success := true;
        a_message := "Delegation added successfully";
        a_delegation :=
          Some {| v_contractAddr := contractAddress;
                  v_expiresAt := expiresAt;
                  v_expiresIn := (JS.numberToString duration ++ "h")%string;
                  v_status := Active;
                  v_description := None;
                  v_addedAt := dateNow 2%nat / 1000;
                  v_isActive := None |} |},
     delegationsDB, log).

Record ListResponse : Type := {
  l_status : Z;
  l_success : bool;
  l_message : option string;
  l_delegations : list View;
  l_source : option string;
  l_total : Z;
  l_active : Z;
  l_expired : Z
}.

(** The callback of [contractPlans.map]; [dateNow] is its own reading of
    [Date.now()]. *)
Definition planView (dateNow : Z) (plan : Plan) : View :=
  let expiresAt := p_expiresAt plan in
  let now := dateNow / 1000 in
  let expiresIn := expiresAt - now in
  {| v_contractAddr := p_contractAddr plan;
     v_expiresAt := expiresAt;
     v_expiresIn :=
       if expiresIn >? 0
       then (JS.numberToString (expiresIn / 3600) ++ "h "
             ++ JS.numberToString ((expiresIn mod 3600) / 60) ++ "m")%string
       else "Expired";
     v_status := if expiresIn >? 0 then Active else Expired;
     v_description := Some (p_description plan);
     v_addedAt := p_addedAt plan;
     v_isActive := Some (p_isActive plan) |}.

(** [contractPlans.map(...)]: the i-th callback makes the i-th reading of
    the clock. *)
Fixpoint mapPlans (dateNow : nat -> Z) (i : nat) (plans : list Plan)
  : list View :=
  match plans with
  | [] => []
  | plan :: rest => planView (dateNow i) plan :: mapPlans dateNow (S i) rest
  end.

Definition notZeroAddress (d : View) : bool :=
  negb (v_contractAddr d =? ZERO_ADDRESS)%string.

(** The body of the [for ... of delegationsDB] loop. *)
Definition memoryView (now : Z) (delegation : Delegation) : View :=
  let expiresIn := d_expiresAt delegation - now in
  {| v_contractAddr := d_contractAddress delegation;
     v_expiresAt := d_expiresAt delegation;
     v_expiresIn :=
       if expiresIn >? 0
       then (JS.numberToString (expiresIn / 3600) ++ "h")%string
       else "Expired";
     v_status := if expiresIn >? 0 then Active else Expired;
     v_description := Some (d_description delegation);
     v_addedAt := d_addedAt delegation;
     v_isActive := None |}.

Fixpoint scanMemory (userAddress : string) (now : Z)
  (entries : JS.Map Delegation) : list View :=
  match entries with
  | [] => []
  | (key, delegation) :: rest =>
      (if JS.startsWith key userAddress && d_isActive delegation
       then [memoryView now delegation] else [])
      ++ scanMemory userAddress now rest
  end.

Section WithViem.

Variable isAddress : string -> bool.

(** [router.get("/:userAddress")]. *)
Definition get (smartGuardContract : option SmartGuardContract)
  (dateNow : nat -> Z) (userAddress : string)
  (delegationsDB : JS.Map Delegation)
  : ListResponse * JS.Map Delegation * list Effect :=
  if negb (isAddress userAddress) then
    ({| l_status := 400;
        l_success := false;
        l_message := Some "Invalid wallet address";
        l_delegations := [];
        l_source := None;
        l_total := 0; l_active := 0; l_expired := 0 |},
     delegationsDB, [])
  else
    let delegations := [] in
    let source := "memory" in
    let '(delegations, source, reads, log) :=
      match smartGuardContract with
      | Some c =>
          match read_getActiveDelegations c userAddress with
          | Ok contractPlans =>
              (filter notZeroAddress (mapPlans dateNow 0 contractPlans),
               "contract", List.length contractPlans,
               [RemoteGetActiveDelegations userAddress])
          | Err m =>
              (delegations, source, 0%nat,
               [RemoteGetActiveDelegations userAddress])
          end
      | None => (delegations, source, 0%nat, [])
      end in
    let '(delegations, source) :=
      if (List.length delegations =? 0)%nat
      then
        let now := dateNow reads / 1000 in
        (delegations ++ scanMemory userAddress now delegationsDB,
         "memory")
      else (delegations, source) in
    ({| l_status := 200;
        l_success := true;
        l_message := None;
        l_delegations := delegations;
        l_source := Some source;
        l_total := Z.of_nat (List.length delegations);
        l_active := countStatus Active delegations;
        l_expired := countStatus Expired delegations |},
     delegationsDB, log).

End WithViem.

End DelegationRoute.

(* ===================================================================== *)
(** ** backend/routes/wallet.js: GET /:address/delegations *)

Module WalletRoute.

Record Response : Type := {
  status : Z;
  success : bool;
  delegations : list View;
  total : Z;
  active : Z;
  expired : Z;
  note : option string;
  source : option string;
  error : option string
}.

Definition delegationView (dateNow : Z) (delegation : Plan) : View :=
  let expiresAt := p_expiresAt delegation in
  let now := dateNow / 1000 in
  let expiresIn := expiresAt - now in
  {| v_contractAddr := p_contractAddr delegation;
     v_expiresAt := expiresAt;
     v_expiresIn :=
       if expiresIn >? 0
       then (JS.numberToString (expiresIn / 3600) ++ "h "
             ++ JS.numberToString ((expiresIn mod 3600) / 60) ++ "m")%string
       else "Expired";
     v_status := if expiresIn >? 0 then Active else Expired;
     v_description :=
       Some (JS.orElse (Some (p_description delegation)) "No description");
     v_addedAt := p_addedAt delegation;
     v_isActive := None |}.

Fixpoint mapDelegations (dateNow : nat -> Z) (i : nat) (l : list Plan)
  : list View :=
  match l with
  | [] => []
  | delegation :: rest =>
      delegationView (dateNow i) delegation
      :: mapDelegations dateNow (S i) rest
  end.

Section WithViem.

Variable isAddress : string -> bool.

Definition getDelegations (smartGuardContract : option SmartGuardContract)
  (dateNow : nat -> Z) (address : string) : Response :=
  if negb (isAddress address) then
    {| status := 400; success := false; delegations := [];
       total := 0; active := 0; expired := 0;
       note := None; source := None;
       error := Some "Invalid wallet address" |}
  else
    match smartGuardContract with
    | None =>
        {| status := 200; success := true; delegations := [];
           total := 0; active := 0; expired := 0;
           note := Some
             "Contract not available - please wait for initialization";
           source := None; error := None |}
    | Some c =>
        let '(delegations, note, source) :=
          match read_getActiveDelegations c address with
          | Ok realDelegations =>
              let delegations :=
                filter DelegationRoute.notZeroAddress
                  (mapDelegations dateNow 0 realDelegations) in
              (delegations,
               ("Found "
                ++ JS.numberToString (Z.of_nat (List.length delegations))
                ++ " delegations from contract")%string,
               "contract")
          | Err m =>
              ([], ("Contract call failed: " ++ m)%string, "error")
          end in
        {| status := 200; success := true; delegations := delegations;
           total := Z.of_nat (List.length delegations);
           active := countStatus Active delegations;
           expired := countStatus Expired delegations;
           note := Some note; source := Some source; error := None |}
    end.

End WithViem.

End WalletRoute.

(* ===================================================================== *)
(** ** The additive terms of the scores, as the specification lists them

    Base score 50, then in this order: balance, transaction history,
    contract check, contract code, risky interactions.  [scoreWallet] is
    compared with this reading in [scoreWallet_decomposes]. *)

Module ScoreTerms.

Import RiskScoring.

Definition balanceTerm (balanceEth : Q) : Z * list string :=
  if Qeq_bool balanceEth 0 then (10, ["Zero balance"])
  else if JS.Qltb 10 balanceEth then (15, ["High balance"])
  else (0, []).

Definition historyTerm (txCount : Z) : Z * list string :=
  if txCount =? 0 then (20, ["No transaction history"])
  else if txCount <? 3 then (10, ["Low transaction count"])
  else (0, []).

Definition contractTerm (isContract : bool) : Z * list string :=
  if isContract then (-10, ["Contract address"]) else (0, []).

Definition codeTerm (isContract : bool) (code : string) : Z * list string :=
  if isContract && negb (code =? "0x")%string
  then (ca_score (analyzeContractCode code),
        ca_factors (analyzeContractCode code))
  else (0, []).

Definition interactionTerm (interactions : list string) : Z * list string :=
  let n := Z.of_nat (List.length interactions) in
  if n >? 0
  then (n * 15,
        [("Interacted with " ++ JS.numberToString n
          ++ " risky contracts")%string])
  else (0, []).



(** The score that [scoreContract] computes for an address with code. *)
Definition contractScore (contractAddress code : string) : Z :=
  let computed := 50 + ca_score (analyzeContractCode code) in
  let lowerAddress := JS.toLowerCase contractAddress in
  JS.clamp100
    (if JS.arrayIncludes KNOWN_RISKY_CONTRACTS lowerAddress then 100
     else match JS.mapGet CONTRACT_REPUTATION lowerAddress with
          | Some reputation => Z.max computed (risk reputation)
          | None => computed
          end).

End ScoreTerms.

(* ===================================================================== *)
(** ** Concrete chains and requests used in the examples *)

Module Examples.

Import RiskScoring.

Definition deadAddress : string :=
  "0x000000000000000000000000000000000000dead".

Definition plainAddress : string :=
  "0x00000000000000000000000000000000000000aa".

(** A chain on which every address is a contract with bytecode [code], and
    which answers every read. *)
Definition chain (balance txCount : Z) (code : string) : Provider :=
  {| getBalance := fun _ => Ok balance;
     getTransactionCount := fun _ => Ok txCount;
     getCode := fun _ _ => Ok (Some code) |}.

(** A chain on which no address has code: [getCode] resolves to
    [undefined]. *)
Definition noCode (balance txCount : Z) : Provider :=
  {| getBalance := fun _ => Ok balance;
     getTransactionCount := fun _ => Ok txCount;
     getCode := fun _ _ => Ok None |}.

(** The chain of [chain] seen through a connection that answers the first
    [getCode] request of an operation and fails on the later ones. *)
Definition droppedAfterFirst (balance txCount : Z) (code : string)
  : Provider :=
  {| getBalance := fun _ => Ok balance;
     getTransactionCount := fun _ => Ok txCount;
     getCode := fun request _ =>
       match request with
       | O => Ok (Some code)
       | S _ => Err "request timed out"
       end |}.

(** The same chain seen through a connection on which the first [getCode]
    request of an operation fails and the later ones are answered. *)
Definition droppedFirst (balance txCount : Z) (code : string) : Provider :=
  {| getBalance := fun _ => Ok balance;
     getTransactionCount := fun _ => Ok txCount;
     getCode := fun request _ =>
       match request with
       | O => Err "request timed out"
       | S _ => Ok (Some code)
       end |}.

(** Every draw of [Math.random()] below 0.1, and none of them. *)
Definition allRisky : nat -> Q := fun _ => 0%Q.
Definition noneRisky : nat -> Q := fun _ => (1 # 2)%Q.

Definition twentyEther : Z := 20000000000000000000.
Definition twoEther : Z := 2000000000000000000.

End Examples.

Module DelegationExamples.

Definition alice : string := "0x00000000000000000000000000000000000000aa".
Definition vault : string := "0x00000000000000000000000000000000000000bb".

(** A remote contract whose calls all fail. *)
Definition downContract : SmartGuardContract :=
  {| write_addDelegation := fun _ _ _ _ => Err "execution reverted";
     write_removeDelegation := fun _ _ => Err "execution reverted";
     read_getActiveDelegations := fun _ => Err "network error" |}.

(** A remote contract that accepts writes and returns [plans] on reads. *)
Definition liveContract (plans : list Plan) : SmartGuardContract :=
  {| write_addDelegation := fun _ _ _ _ => Ok "0xhash";
     write_removeDelegation := fun _ _ => Ok "0xhash";
     read_getActiveDelegations := fun _ => Ok plans |}.

Definition confirmed : string -> Result Z := fun _ => Ok 1.

(** A clock that reads [ms] milliseconds at every call. *)
Definition clockAt (ms : Z) : nat -> Z := fun _ => ms.

(** The record that adding a one-hour delegation at second 1000 stores. *)
Definition oneHour : Delegation :=
  {| d_userAddress := alice;
     d_contractAddress := vault;
     d_expiresAt := 4600;
     d_description := "test";
     d_addedAt := 1000;
     d_isActive := true |}.

Definition oneHourDB : JS.Map Delegation :=
  [((alice ++ "-" ++ vault)%string, oneHour)].

(** A remote entry flagged inactive whose expiry is still ahead at
    second 1000. *)
Definition inactivePlan : Plan :=
  {| p_contractAddr := vault;
     p_expiresAt := 4600;
     p_addedAt := 1000;
     p_description := "test";
     p_isActive := false |}.

End DelegationExamples.

(** The remote read of a list request: the contract handle may be unset. *)
Definition remoteRead (smartGuardContract : option SmartGuardContract)
  (userAddress : string) : Result (list Plan) :=
  match smartGuardContract with
  | Some c => read_getActiveDelegations c userAddress
  | None => Err "Contract not available"
  end.

(** The delegations that the remote read contributes to a list request. *)
Definition remoteViews (smartGuardContract : option SmartGuardContract)
  (dateNow : nat -> Z) (userAddress : string) : list View :=
  match remoteRead smartGuardContract userAddress with
  | Ok plans =>
      filter DelegationRoute.notZeroAddress
        (DelegationRoute.mapPlans dateNow 0 plans)
  | Err _ => []
  end.

(** The number of clock readings made while mapping the remote result. *)
Definition remoteReads (smartGuardContract : option SmartGuardContract)
  (userAddress : string) : nat :=
  match remoteRead smartGuardContract userAddress with
  | Ok plans => List.length plans
  | Err _ => 0%nat
  end.

(** The four factor names of the balance and history pairs. *)
Definition pairFactor (x : string) : Prop :=
  x = "Zero balance" \/ x = "High balance"
  \/ x = "No transaction history" \/ x = "Low transaction count".


(** ** The additive terms of a transaction score *)

Module TxTerms.

Import RiskScoring.

(** The value term of [analyzeTransaction]. *)
Definition valueTerm (parseFloatEther : Z -> Q) (value : option Z) : Z :=
  match value with
  | Some v =>
      if v >? 0 then
        if JS.Qltb 1 (parseFloatEther v) then 20
        else if JS.Qltb JS.double_0_1 (parseFloatEther v) then 10
        else 0
      else 0
  | None => 0
  end.

(** The calldata term of [analyzeTransaction]. *)
Definition dataTerm (data : option string) : Z :=
  match data with
  | Some d =>
      if negb (d =? "")%string && negb (d =? "0x")%string
      then if JS.length d >? 100 then 15 else 10
      else 0
  | None => 0
  end.

End TxTerms.

(** The order Low < Medium < High of the three ordinary levels. *)
Definition levelRank (l : RiskLevel) : Z :=
  match l with
  | Low => 0
  | Medium => 1
  | High => 2
  | Unknown => -1
  end.

(** The three ladder entries that [generateRecommendations] starts with. *)
Definition recommendationLadder (score : Z) : list string :=
  RiskScoring.generateRecommendations score [].

(* ===================================================================== *)
(** ** backend/utils/helpers.js: time and retry helpers *)

Module HelperFunctions.

(** [timeUntil(timestamp)]; [dateNow] is the value of [Date.now()]. *)
Definition timeUntil (timestamp dateNow : Z) : string :=
  let now := dateNow / 1000 in
  let diff := timestamp - now in
  if diff <=? 0 then "Expired"
  else
    let days := diff / (24 * 60 * 60) in
    let hours := (diff mod (24 * 60 * 60)) / (60 * 60) in
    let minutes := (diff mod (60 * 60)) / 60 in
    if days >? 0
    then (JS.numberToString days ++ "d " ++ JS.numberToString hours ++ "h")%string
    else if hours >? 0
    then (JS.numberToString hours ++ "h "
          ++ JS.numberToString minutes ++ "m")%string
    else (JS.numberToString minutes ++ "m")%string.

(** [retryAsync(fn, retries, delay)] for a non-negative whole number of
    retries.  [fn k] is the outcome of the k-th invocation of the callback;
    [call] counts the invocations made so far.  The result comes with the
    arguments of the calls to [sleep], in order. *)
Fixpoint retryAsync {A : Type} (fn : nat -> Result A) (call : nat)
  (retries : nat) (delay : Z) : Result A * list Z :=
  match fn call with
  | Ok a => (Ok a, [])
  | Err error =>
      match retries with
      | O => (Err error, [])
      | S retries' =>
          let '(result, sleeps) :=
            retryAsync fn (S call) retries' (delay * 2) in
          (result, delay :: sleeps)
      end
  end.

(** The delays [delay], [2 * delay], [4 * delay], ... of [n] retries. *)
Fixpoint backoff (n : nat) (delay : Z) : list Z :=
  match n with
  | O => []
  | S n' => delay :: backoff n' (delay * 2)
  end.

End HelperFunctions.

(* ===================================================================== *)
(** ** The two delegation modules in one server

    [revoke.js] and [delegation.js] each hold a [delegationsDB] of their
    own, both empty when the server starts. *)

Module Server.



(** A request together with what the outside world answers during it. *)
Inductive Request : Type :=
| Revoke (smartGuardContract : option SmartGuardContract) (isoNow : string)
    (req : RevokeRoute.Request)
| Add (smartGuardContract : option SmartGuardContract) (walletClient : bool)
    (waitForTransactionReceipt : string -> Result Z) (dateNow : nat -> Z)
    (req : DelegationRoute.AddRequest)
| List (smartGuardContract : option SmartGuardContract) (dateNow : nat -> Z)
    (userAddress : string).

Section WithViem.

Variable isAddress : string -> bool.



End WithViem.

End Server.

(* ===================================================================== *)
(** ** backend/routes/risk.js *)

Module RiskRoute.

Definition RISKY_ADDRESSES : list string :=
  [ "0x000000000000000000000000000000000000dead";
    "0xffffffffffffffffffffffffffffffffffffffff";
    "0x1234567890123456789012345678901234567890" ].

(** The double written [0.2]: 0x3FC999999999999A. *)
Definition double_0_2 : Q := 3602879701896397 # 18014398509481984.

Definition getRiskLevel (score : Z) : RiskLevel :=
  if score >=? 70 then High
  else if score >=? 30 then Medium
  else Low.

Definition getRiskRecommendations (score : Z) : list string :=
  if score >=? 70 then
    [ "Review transaction carefully before proceeding";
      "Consider using a different recipient address";
      "Verify contract address on block explorer" ]
  else if score >=? 30 then
    [ "Proceed with caution";
      "Double-check recipient address";
      "Consider splitting large transactions" ]
  else
    [ "Transaction appears safe";
      "Always verify addresses before sending" ].

(** [checkRiskyInteractions]: one draw of [Math.random()]. *)
Definition checkRiskyInteractions (address : string) (random : Q)
  : list string :=
  let interactions := [] in
  if JS.Qltb random double_0_2
  then interactions ++ firstn 1 RISKY_ADDRESSES
  else interactions.

Record ScoreFactors : Type := {
  f_balance : Q;
  f_transactionCount : Z;
  f_isContract : bool;
  f_activeDelegations : Z;
  f_riskyInteractions : Z
}.

Record ScoreResponse : Type := {
  s_status : Z;
  s_success : bool;
  s_error : option string;
  s_address : option string;
  s_riskScore : option Z;
  s_riskLevel : option RiskLevel;
  s_factors : option ScoreFactors;
  s_reasons : list string;
  s_recommendations : list string
}.

Definition scoreFailure (status : Z) (error : string) : ScoreResponse :=
  {| s_status := status; s_success := false; s_error := Some error;
     s_address := None; s_riskScore := None; s_riskLevel := None;
     s_factors := None; s_reasons := []; s_recommendations := [] |}.

(** The body of an analyze-transaction request: whatever JSON the client
    sent in each field. *)
Record TxRequest : Type := {
  r_from : option JS.Json;
  r_to : option JS.Json;
  r_value : option JS.Json;
  r_data : option JS.Json
}.

(** [isContractInteraction] holds the truthiness of
    [toIsContract && data && data !== "0x"]. *)
Record TxRouteAnalysis : Type := {
  ra_from : JS.Json;
  ra_to : string;
  ra_toIsContract : bool;
  ra_value : string;
  ra_isContractInteraction : bool
}.

Record TxResponse : Type := {
  x_status : Z;
  x_success : bool;
  x_error : option string;
  x_riskScore : option Z;
  x_riskLevel : option RiskLevel;
  x_warnings : list string;
  x_shouldProceed : option bool;
  x_analysis : option TxRouteAnalysis
}.

Section Routes.

Variable isAddress : string -> bool.
Variable parseFloatEther : Z -> Q.
(** viem's [formatEther], a decimal string. *)
Variable formatEther : Z -> string.
(** The built-in [BigInt] on a value of the request body. *)
Variable BigInt : JS.Json -> Result Z.
(** [getPublicClient()]. *)
Variable publicClient : Provider.

(** Each of the two routes calls [isContractAddress] once: the request
    numbered 0. *)
Definition isContractAddress (address : string) : bool :=
  match getCode publicClient 0 address with
  | Ok code => JS.strictNe code "0x"
  | Err _ => false
  end.

(** [router.get("/score/:address")]; [random] is the draw of
    [Math.random()]. *)
Definition getScore (smartGuardContract : option SmartGuardContract)
  (random : Q) (address : string) : ScoreResponse :=
  if negb (isAddress address) then scoreFailure 400 "Invalid wallet address"
  else
    match getBalance publicClient address,
          getTransactionCount publicClient address with
    | Ok balance, Ok txCount =>
        let isContract := isContractAddress address in
        let delegations :=
          match smartGuardContract with
          | Some c =>
              match read_getActiveDelegations c address with
              | Ok plans => plans
              | Err _ => []
              end
          | None => []
          end in
        let riskScore := 0 in
        let reasons := [] in
        let balanceEth := parseFloatEther balance in
        let '(riskScore, reasons) :=
          if JS.Qltb 10 balanceEth
          then (riskScore + 20,
                reasons ++ ["High balance increases attack motivation"])
          else (riskScore, reasons) in
        let '(riskScore, reasons) :=
          if txCount <? 3
          then (riskScore + 15,
                reasons
                  ++ ["Low transaction count - may be new or inactive"])
          else (riskScore, reasons) in
        let '(riskScore, reasons) :=
          if isContract
          then (riskScore + 10,
                reasons
                  ++ ["Address is a contract - different risk profile"])
          else (riskScore, reasons) in
        let n := Z.of_nat (List.length delegations) in
        let '(riskScore, reasons) :=
          if n >? 0
          then (riskScore + n * 5,
                reasons
                  ++ [(JS.numberToString n
                       ++ " active delegations increase exposure")%string])
          else (riskScore, reasons) in
        let interactions := checkRiskyInteractions address random in
        let i := Z.of_nat (List.length interactions) in
        let '(riskScore, reasons) :=
          if i >? 0
          then (riskScore + i * 10,
                reasons
                  ++ [("Interacted with " ++ JS.numberToString i
                       ++ " potentially risky addresses")%string])
          else (riskScore, reasons) in
        let riskScore := Z.min 100 riskScore in
        {| s_status := 200; s_success := true; s_error := None;
           s_address := Some address;
           s_riskScore := Some riskScore;
           s_riskLevel := Some (getRiskLevel riskScore);
           s_factors :=
             Some {| f_balance := balanceEth;
                     f_transactionCount := txCount;
                     f_isContract := isContract;
                     f_activeDelegations := n;
                     f_riskyInteractions := i |};
           s_reasons := reasons;
           s_recommendations := getRiskRecommendations riskScore |}
    | _, _ => scoreFailure 500 "Failed to calculate risk score"
    end.

Definition txFailure (status : Z) (error : string) : TxResponse :=
  {| x_status := status; x_success := false; x_error := Some error;
     x_riskScore := None; x_riskLevel := None; x_warnings := [];
     x_shouldProceed := None; x_analysis := None |}.

(** [if (value) ... BigInt(value)]: the amount that the route scores, none
    when [value] is falsy; the conversion may throw. *)
Definition convertedValue (value : option JS.Json) : Result (option Z) :=
  match value with
  | Some v =>
      if JS.truthyJson v then (wei <- BigInt v ;; Ok (Some wei)) else Ok None
  | None => Ok None
  end.

(** [router.post("/analyze-transaction")].  [to.toLowerCase()] throws
    unless [to] is a string, and [BigInt(value)] may throw; both are caught
    by the handler's [catch]. *)
Definition analyzeTransaction (req : TxRequest) : TxResponse :=
  match r_from req, r_to req with
  | Some from, Some to =>
      if negb (JS.truthyJson from) || negb (JS.truthyJson to)
      then txFailure 400 "Missing from or to address"
      else
        match to, convertedValue (r_value req) with
        | JS.JString to, Ok value =>
            let data := r_data req in
            let riskScore := 0 in
            let warnings := [] in
            let '(riskScore, warnings) :=
              if JS.arrayIncludes RISKY_ADDRESSES (JS.toLowerCase to)
              then (riskScore + 80,
                    warnings
                      ++ ["Recipient address is flagged as potentially risky"])
              else (riskScore, warnings) in
            let '(riskScore, warnings) :=
              match value with
              | Some v =>
                  if JS.Qltb 1 (parseFloatEther v)
                  then (riskScore + 20, warnings ++ ["High value transaction"])
                  else (riskScore, warnings)
              | None => (riskScore, warnings)
              end in
            let toIsContract := isContractAddress to in
            let isContractInteraction :=
              toIsContract && JS.truthyField data
              && match data with
                 | Some d => JS.jsonNe d "0x"
                 | None => true
                 end in
            let '(riskScore, warnings) :=
              if isContractInteraction
              then (riskScore + 15,
                    warnings ++ ["Contract interaction detected"])
              else (riskScore, warnings) in
            let riskScore := Z.min 100 riskScore in
            {| x_status := 200; x_success := true; x_error := None;
               x_riskScore := Some riskScore;
               x_riskLevel := Some (getRiskLevel riskScore);
               x_warnings := warnings;
               x_shouldProceed := Some (riskScore <? 70);
               x_analysis :=
                 Some {| ra_from := from; ra_to := to;
                         ra_toIsContract := toIsContract;
                         ra_value :=
                           match value with
                           | Some v => formatEther v
                           | None => "0"
                           end;
                         ra_isContractInteraction := isContractInteraction |}
            |}
        | _, _ => txFailure 500 "Failed to analyze transaction"
        end
  | _, _ => txFailure 400 "Missing from or to address"
  end.

End Routes.

End RiskRoute.

(** The delegations that the score route counts: those of the remote
    contract, none when it is unset or its read fails. *)
Definition countedDelegations (smartGuardContract : option SmartGuardContract)
  (address : string) : list Plan :=
  match remoteRead smartGuardContract address with
  | Ok plans => plans
  | Err _ => []
  end.

(* ===================================================================== *)
(** ** backend/routes/threat.js *)

Module ThreatRoute.

(** The threat registry of the remote contract. *)
Record ThreatRegistry : Type := {
  read_knownThreats : string -> Result bool;
  read_threatReasons : string -> Result string;
  write_reportThreat : string -> string -> Result string
}.

Record CheckResponse : Type := {
  k_status : Z;
  k_success : bool;
  k_error : option string;
  k_message : option string;
  k_contract : option string;
  k_isThreat : option bool;
  k_reason : option string;
  k_recommendation : option string
}.

Definition checkFailure (status : Z) (error : string) : CheckResponse :=
  {| k_status := status; k_success := false; k_error := Some error;
     k_message := None; k_contract := None; k_isThreat := None;
     k_reason := None; k_recommendation := None |}.

Record ReportRequest : Type := {
  q_contractAddress : option string;
  q_reason : option string;
  q_severity : option string
}.

Record ReportResponse : Type := {
  p_status : Z;
  p_success : bool;
  p_error : option string;
  p_message : option string;
  p_action : option string;
  p_contract : option string;
  p_reason : option string;
  p_severity : option string;
  p_transactionHash : option string;
  p_blockNumber : option Z
}.

Definition reportFailure (status : Z) (error : string) : ReportResponse :=
  {| p_status := status; p_success := false; p_error := Some error;
     p_message := None; p_action := None;
     p_contract := None; p_reason := None; p_severity := None;
     p_transactionHash := None; p_blockNumber := None |}.

(** The remote writes of a report request, in program order. *)
Inductive ThreatWrite : Type :=
| ReportThreatSent (contractAddress reason : string).

Section Routes.

Variable isAddress : string -> bool.

(** [router.get("/check/:contractAddress")]. *)
Definition check (smartGuardContract : option ThreatRegistry)
  (contractAddress : string) : CheckResponse :=
  if negb (isAddress contractAddress)
  then checkFailure 400 "Invalid contract address"
  else
    match smartGuardContract with
    | None =>
        {| k_status := 200; k_success := true; k_error := None;
           k_message := Some "Contract not initialized - assuming safe";
           k_contract := None; k_isThreat := Some false;
           k_reason := None; k_recommendation := None |}
    | Some c =>
        match read_knownThreats c contractAddress with
        | Err _ => checkFailure 500 "Failed to check threat status"
        | Ok isThreat =>
            let reason := "" in
            let reason :=
              if isThreat then
                match read_threatReasons c contractAddress with
                | Ok r => r
                | Err _ => reason
                end
              else reason in
            {| k_status := 200; k_success := true; k_error := None;
               k_message := None;
               k_contract := Some contractAddress;
               k_isThreat := Some isThreat;
               k_reason := Some reason;
               k_recommendation :=
                 Some (if isThreat
                       then "AVOID - Known malicious contract"
                       else "Appears safe") |}
        end
    end.

(** [router.post("/report")]; [severity] defaults to ["high"] when the
    field is absent. *)
Definition report (smartGuardContract : option ThreatRegistry)
  (walletClient : bool) (waitForTransactionReceipt : string -> Result Z)
  (req : ReportRequest) : ReportResponse * list ThreatWrite :=
  if negb (JS.truthy (q_contractAddress req))
     || negb (JS.truthy (q_reason req))
  then (reportFailure 400
          "Missing required fields: contractAddress and reason", [])
  else
    let contractAddress := interpolate (q_contractAddress req) in
    let reason := interpolate (q_reason req) in
    let severity :=
      match q_severity req with
      | Some s => s
      | None => "high"
      end in
    if negb (isAddress contractAddress)
    then (reportFailure 400 "Invalid contract address", [])
    else
      match smartGuardContract with
      | Some c =>
          if walletClient then
            match write_reportThreat c contractAddress reason with
            | Ok hash =>
                match waitForTransactionReceipt hash with
                | Ok blockNumber =>
                    ({| p_status := 200; p_success := true;
                        p_error := None;
                        p_message := Some "Threat reported successfully";
                        p_action := Some "Added to threat database";
                        p_contract := Some contractAddress;
                        p_reason := Some reason;
                        p_severity := Some severity;
                        p_transactionHash := Some hash;
                        p_blockNumber := Some blockNumber |},
                     [ReportThreatSent contractAddress reason])
                | Err _ =>
                    (reportFailure 500 "Failed to report threat",
                     [ReportThreatSent contractAddress reason])
                end
            | Err _ =>
                (reportFailure 500 "Failed to report threat",
                 [ReportThreatSent contractAddress reason])
            end
          else (reportFailure 500 "SmartGuard contract not initialized", [])
      | None => (reportFailure 500 "SmartGuard contract not initialized", [])
      end.

End Routes.

End ThreatRoute.

(* ===================================================================== *)
(** ** backend/routes/automation.js: POST /revoke-expired *)

Module AutomationRoute.

Record BatchEntry : Type := {
  e_wallet : JS.Json;
  e_success : bool;
  e_transactionHash : option string;
  e_error : option string
}.

Record BatchResponse : Type := {
  b_status : Z;
  b_success : bool;
  b_error : option string;
  b_message : option string;
  b_results : list BatchEntry
}.

Definition batchFailure (error : string) : BatchResponse :=
  {| b_status := 500; b_success := false; b_error := Some error;
     b_message := None; b_results := [] |}.

(** [const { wallets = [] } = req.body]: the default stands in for an
    absent field only. *)
Definition walletsOf (wallets : option JS.Json) : JS.Json :=
  match wallets with
  | Some v => v
  | None => JS.JArray []
  end.

Section Routes.

(** viem's [isAddress] on an item of the request body, which need not be a
    string; the call may throw. *)
Variable isAddress : JS.Json -> Result bool.
(** [smartGuardContract.write.cleanupExpired], when the contract is set. *)
Variable cleanupExpired : option (JS.Json -> Result string).
Variable waitForTransactionReceipt : string -> Result Z.

(** The [try]/[catch] of the loop body: what one valid wallet contributes
    to the results. *)
Definition cleanupEntry (cleanup : JS.Json -> Result string)
  (userWallet : JS.Json) : BatchEntry :=
  match cleanup userWallet with
  | Ok hash =>
      match waitForTransactionReceipt hash with
      | Ok receipt =>
          {| e_wallet := userWallet; e_success := true;
             e_transactionHash := Some hash; e_error := None |}
      | Err m =>
          {| e_wallet := userWallet; e_success := false;
             e_transactionHash := None; e_error := Some m |}
      end
  | Err m =>
      {| e_wallet := userWallet; e_success := false;
         e_transactionHash := None; e_error := Some m |}
  end.

(** The [for ... of wallets] loop; a throw of [isAddress] leaves it. *)
Fixpoint revokeLoop (wallets : list JS.Json) (results : list BatchEntry)
  : Result (list BatchEntry) :=
  match wallets with
  | [] => Ok results
  | userWallet :: rest =>
      valid <- isAddress userWallet ;;
      let results :=
        match cleanupExpired with
        | Some cleanup =>
            if valid then results ++ [cleanupEntry cleanup userWallet]
            else results
        | None => results
        end in
      revokeLoop rest results
  end.

(** [router.post("/revoke-expired")]: a [wallets] that cannot be iterated
    and a throw inside the loop both end in the handler's [catch]. *)
Definition revokeExpired (walletClient : bool) (wallets : option JS.Json)
  : BatchResponse :=
  let wallets := walletsOf wallets in
  if negb walletClient then batchFailure "Backend wallet not configured"
  else
    match JS.iterate wallets with
    | Some items =>
        match revokeLoop items [] with
        | Ok results =>
            {| b_status := 200; b_success := true; b_error := None;
               b_message :=
                 Some ("Processed "
                       ++ JS.numberToString (JS.jsonLength wallets)
                       ++ " wallets")%string;
               b_results := results |}
        | Err _ => batchFailure "Failed to revoke expired delegations"
        end
    | None => batchFailure "Failed to revoke expired delegations"
    end.

(** The items for which [isAddress] answers true. *)
Definition accepted (item : JS.Json) : bool :=
  match isAddress item with
  | Ok valid => valid
  | Err _ => false
  end.

End Routes.

End AutomationRoute.

(* ===================================================================== *)
(** ** backend/services/revokeLogic.js *)

Module RevokeLogic.

(** The ERC-20 calls of the module: [contract.read.allowance],
    [walletClient.writeContract] for [approve] (together with building the
    wallet client), and [client.waitForTransactionReceipt]. *)
Record Erc20Client : Type := {
  read_allowance : string -> string -> string -> Result Z;
  write_approve : string -> string -> Z -> Result string;
  waitForTransactionReceipt : string -> Result Z
}.

(** The transactions sent, in program order. *)
Inductive TokenWrite : Type :=
| ApproveSent (token spender : string) (value : Z).

Record RevokeResult : Type := {
  rr_success : bool;
  rr_transactionHash : option string;
  rr_token : string;
  rr_spender : string;
  rr_user : string;
  rr_previousAllowance : string;
  rr_newAllowance : string;
  rr_blockNumber : option Z;
  rr_message : option string
}.

Record RevokeRequest : Type := {
  rq_id : string;
  rq_tokenAddress : string;
  rq_spender : string;
  rq_userWallet : string
}.

(** An element of the batch results: the spread of a result with the
    request id, or the failure record. *)
Record BatchResult : Type := {
  br_success : bool;
  br_requestId : string;
  br_result : option RevokeResult;
  br_error : option string;
  br_tokenAddress : option string;
  br_spender : option string
}.

Record BatchSummary : Type := {
  bs_success : bool;
  bs_results : list BatchResult;
  bs_total : Z;
  bs_successful : Z;
  bs_failed : Z
}.

Section Service.

Variable isAddress : string -> bool.
(** viem's [formatUnits (x, 18)]. *)
Variable formatUnits18 : Z -> string.
(** Whether the backend [wallet] is configured. *)
Variable wallet : bool.
Variable client : Erc20Client.

(** [err.shortMessage || err.message || "Failed to execute revoke"], the
    message of an error standing for the first of its two that is set. *)
Definition rethrown (m : string) : string :=
  if (m =? "")%string then "Failed to execute revoke" else m.

Definition executeRevoke (tokenAddress spender userWallet : string)
  : Result RevokeResult * list TokenWrite :=
  if negb wallet then (Err (rethrown "Backend wallet not configured"), [])
  else if negb (isAddress tokenAddress) || negb (isAddress spender)
          || negb (isAddress userWallet)
  then (Err (rethrown "Invalid address provided"), [])
  else
    match read_allowance client tokenAddress userWallet spender with
    | Err m => (Err (rethrown m), [])
    | Ok currentAllowance =>
        if currentAllowance >? 0 then
          match write_approve client tokenAddress spender 0 with
          | Err m => (Err (rethrown m), [ApproveSent tokenAddress spender 0])
          | Ok hash =>
              match waitForTransactionReceipt client hash with
              | Err m =>
                  (Err (rethrown m), [ApproveSent tokenAddress spender 0])
              | Ok blockNumber =>
                  (Ok {| rr_success := true;
                         rr_transactionHash := Some hash;
                         rr_token := tokenAddress;
                         rr_spender := spender;
                         rr_user := userWallet;
                         rr_previousAllowance :=
                           formatUnits18 currentAllowance;
                         rr_newAllowance := "0";
                         rr_blockNumber := Some blockNumber;
                         rr_message := None |},
                   [ApproveSent tokenAddress spender 0])
              end
          end
        else
          (Ok {| rr_success := true;
                 rr_transactionHash := None;
                 rr_token := tokenAddress;
                 rr_spender := spender;
                 rr_user := userWallet;
                 rr_previousAllowance := "0";
                 rr_newAllowance := "0";
                 rr_blockNumber := None;
                 rr_message := Some "No allowance to revoke" |}, [])
    end.

(** The [for ... of revokeRequests] loop of [executeBatchRevoke]. *)
Fixpoint batchLoop (revokeRequests : list RevokeRequest)
  (results : list BatchResult) (writes : list TokenWrite)
  : list BatchResult * list TokenWrite :=
  match revokeRequests with
  | [] => (results, writes)
  | request :: rest =>
      let '(outcome, sent) :=
        executeRevoke (rq_tokenAddress request) (rq_spender request)
          (rq_userWallet request) in
      let entry :=
        match outcome with
        | Ok result =>
            {| br_success := rr_success result;
               br_requestId := rq_id request;
               br_result := Some result;
               br_error := None;
               br_tokenAddress := None;
               br_spender := None |}
        | Err m =>
            {| br_success := false;
               br_requestId := rq_id request;
               br_result := None;
               br_error := Some m;
               br_tokenAddress := Some (rq_tokenAddress request);
               br_spender := Some (rq_spender request) |}
        end in
      batchLoop rest (results ++ [entry]) (writes ++ sent)
  end.

Definition countWhere (f : BatchResult -> bool) (l : list BatchResult) : Z :=
  Z.of_nat (List.length (filter f l)).

Definition executeBatchRevoke (revokeRequests : list RevokeRequest)
  : Result BatchSummary * list TokenWrite :=
  if negb wallet then (Err "Backend wallet not configured", [])
  else
    let '(results, writes) := batchLoop revokeRequests [] [] in
    (Ok {| bs_success := true;
           bs_results := results;
           bs_total := Z.of_nat (List.length revokeRequests);
           bs_successful := countWhere br_success results;
           bs_failed := countWhere (fun r => negb (br_success r)) results |},
     writes).

End Service.

End RevokeLogic.

(* ===================================================================== *)
(** ** backend/services/scheduler.js: the task registry *)

Module Scheduler.

Section Registry.

(** The handle that [cron.schedule] returns. *)
Variable Task : Type.
(** [cron.schedule (schedule, taskFunction)], which refuses a malformed
    schedule. *)
Variable cronSchedule : string -> Result Task.

Inductive TaskEffect : Type :=
| TaskStopped (task : Task).

Definition scheduleTask (taskId schedule : string)
  (scheduledTasks : JS.Map Task) : Result string * JS.Map Task :=
  match cronSchedule schedule with
  | Ok task => (Ok taskId, JS.mapSet scheduledTasks taskId task)
  | Err m => (Err m, scheduledTasks)
  end.

Definition removeScheduledTask (taskId : string)
  (scheduledTasks : JS.Map Task) : bool * JS.Map Task * list TaskEffect :=
  match JS.mapGet scheduledTasks taskId with
  | Some task =>
      (true, JS.mapDelete scheduledTasks taskId, [TaskStopped task])
  | None => (false, scheduledTasks, [])
  end.

Definition getScheduledTasks (scheduledTasks : JS.Map Task)
  : list (string * string) :=
  map (fun taskId => (taskId, "active")) (map fst scheduledTasks).

End Registry.

End Scheduler.

(* ===================================================================== *)
(** ** backend/routes/dca.js: executing and cancelling a plan *)

Module DcaRoute.

Record TokenInfo : Type := {
  ti_symbol : string;
  ti_name : string;
  ti_decimals : Z
}.

Definition KNOWN_TOKENS : list (string * TokenInfo) :=
  [ ("0x0000000000000000000000000000000000000000",
     {| ti_symbol := "MON"; ti_name := "Monad"; ti_decimals := 18 |});
    ("0x1f9840a85d5af5bf1d1762f925bdaddc4201f984",
     {| ti_symbol := "UNI"; ti_name := "Uniswap"; ti_decimals := 18 |});
    ("0xdac17f958d2ee523a2206206994597c13d831ec7",
     {| ti_symbol := "USDT"; ti_name := "Tether USD"; ti_decimals := 6 |});
    ("0xa0b86991c6218b36c1d19d4a2e9eb0ce3606eb48",
     {| ti_symbol := "USDC"; ti_name := "USD Coin"; ti_decimals := 6 |}) ].

Definition getTokenSymbol (tokenAddress : string) : string :=
  match JS.mapGet KNOWN_TOKENS (JS.toLowerCase tokenAddress) with
  | Some token => ti_symbol token
  | None => "UNKNOWN"
  end.

(** A value of [dcaPlansDB].  The three amounts are [bigint]s.  [interval]
    is what [parseInt] made of the request's field when the plan was
    created, and [nextExecution] is a sum with it: a whole number, or [None]
    for a number that is not finite ([NaN], as [parseInt] gives for a field
    like ["abc"]), which a plan is stored with all the same. *)
Record DcaPlan : Type := {
  dp_id : Z;
  dp_userAddress : string;
  dp_tokenAddress : string;
  dp_amountPerInterval : Z;
  dp_interval : option Z;
  dp_maxTotalAmount : Z;
  dp_totalSpent : Z;
  dp_nextExecution : option Z;
  dp_createdAt : Z;
  dp_isActive : bool;
  dp_description : string;
  dp_dexRouter : string
}.

(** [dcaPlansDB], a [Map] with number keys, in insertion order. *)
Definition PlanMap : Type := list (Z * DcaPlan).

Fixpoint planGet (m : PlanMap) (id : Z) : option DcaPlan :=
  match m with
  | [] => None
  | (id', plan) :: rest => if id' =? id then Some plan else planGet rest id
  end.

Fixpoint planSet (m : PlanMap) (id : Z) (plan : DcaPlan) : PlanMap :=
  match m with
  | [] => [(id, plan)]
  | (id', plan') :: rest =>
      if id' =? id then (id, plan) :: rest
      else (id', plan') :: planSet rest id plan
  end.

Record DcaContract : Type := {
  write_executeDCA : string -> Result string;
  write_cancelDCAPlan : string -> Result string
}.

Record Execution : Type := {
  ex_dcaId : Z;
  ex_tokenBought : string;
  ex_amountSpent : string;
  ex_tokenAmount : string;
  ex_price : string;
  ex_timestamp : string;
  ex_nextExecution : string
}.

Record Response : Type := {
  status : Z;
  success : bool;
  message : string;
  execution : option Execution;
  dcaId : option Z
}.

(** The update that an execution makes to the plan in memory. *)
Definition updated (dateNow : Z) (dcaPlan : DcaPlan) : DcaPlan :=
  let totalSpent := dp_totalSpent dcaPlan + dp_amountPerInterval dcaPlan in
  let nextExecution :=
    option_map (Z.add (dateNow / 1000)) (dp_interval dcaPlan) in
  let isActive :=
    if totalSpent >=? dp_maxTotalAmount dcaPlan then false
    else dp_isActive dcaPlan in
  {| dp_id := dp_id dcaPlan;
     dp_userAddress := dp_userAddress dcaPlan;
     dp_tokenAddress := dp_tokenAddress dcaPlan;
     dp_amountPerInterval := dp_amountPerInterval dcaPlan;
     dp_interval := dp_interval dcaPlan;
     dp_maxTotalAmount := dp_maxTotalAmount dcaPlan;
     dp_totalSpent := totalSpent;
     dp_nextExecution := nextExecution;
     dp_createdAt := dp_createdAt dcaPlan;
     dp_isActive := isActive;
     dp_description := dp_description dcaPlan;
     dp_dexRouter := dp_dexRouter dcaPlan |}.

(** A time value that [Date] accepts: a finite number within 8.64e15
    milliseconds of the epoch. *)
Definition validDate (seconds : option Z) : bool :=
  match seconds with
  | Some s => Z.abs (s * 1000) <=? 8640000000000000
  | None => false
  end.

Section Routes.

(** [parseInt] on the route parameter; [None] is [NaN]. *)
Variable parseInt : string -> option Z.
Variable formatEther : Z -> string.
(** The text of [new Date(seconds * 1000).toISOString()] for a valid
    date. *)
Variable isoOfSeconds : Z -> string.

(** [new Date(seconds * 1000).toISOString()], which throws a [RangeError]
    on an invalid date. *)
Definition toISOString (seconds : option Z) : Result string :=
  match seconds with
  | Some s =>
      if validDate seconds then Ok (isoOfSeconds s)
      else Err "Invalid time value"
  | None => Err "Invalid time value"
  end.
(** The figures of [simulateDCAExecution], which come from
    [Math.random()]: the amount bought and the price, each printed with six
    decimals. *)
Variable simulatedFigures : DcaPlan -> string * string.
Variable smartGuardContract : option DcaContract.
Variable waitForTransactionReceipt : string -> Result Z.

Definition notFound : Response :=
  {| status := 404; success := false; message := "DCA plan not found";
     execution := None; dcaId := None |}.

(** [router.post("/execute/:dcaId")]; [dateNow] is [Date.now()] and
    [isoNow] is [new Date().toISOString()].  The plan is updated and stored
    before the answer is built; a throw while building it ends in the
    handler's [catch]. *)
Definition execute (dateNow : Z) (isoNow : string) (rawId : string)
  (dcaPlansDB : PlanMap) : Response * PlanMap :=
  match parseInt rawId with
  | None => (notFound, dcaPlansDB)
  | Some id =>
      match planGet dcaPlansDB id with
      | None => (notFound, dcaPlansDB)
      | Some dcaPlan =>
          if negb (dp_isActive dcaPlan) then
            ({| status := 400; success := false;
                message := "DCA plan is not active";
                execution := None; dcaId := None |}, dcaPlansDB)
          else
            let '(amount, price) := simulatedFigures dcaPlan in
            let tokenBought := getTokenSymbol (dp_tokenAddress dcaPlan) in
            let dcaPlan := updated dateNow dcaPlan in
            let dcaPlansDB := planSet dcaPlansDB id dcaPlan in
            let confirmed :=
              match smartGuardContract with
              | Some c =>
                  match write_executeDCA c rawId with
                  | Ok hash =>
                      match waitForTransactionReceipt hash with
                      | Ok _ => true
                      | Err _ => false
                      end
                  | Err _ => false
                  end
              | None => false
              end in
            match toISOString (dp_nextExecution dcaPlan) with
            | Ok isoNext =>
                ({| status := 200; success := true;
                    message := "DCA executed successfully";
                    execution :=
                      Some {| ex_dcaId := id;
                              ex_tokenBought := tokenBought;
                              ex_amountSpent :=
                                formatEther (dp_amountPerInterval dcaPlan);
                              ex_tokenAmount := amount;
                              ex_price := price;
                              ex_timestamp := isoNow;
                              ex_nextExecution := isoNext |};
                    dcaId := None |}, dcaPlansDB)
            | Err _ =>
                ({| status := 500; success := false;
                    message := "Failed to execute DCA";
                    execution := None; dcaId := None |}, dcaPlansDB)
            end
      end
  end.

(** [router.post("/cancel/:dcaId")]. *)
Definition cancel (rawId : string) (dcaPlansDB : PlanMap)
  : Response * PlanMap :=
  match parseInt rawId with
  | None => (notFound, dcaPlansDB)
  | Some id =>
      match planGet dcaPlansDB id with
      | None => (notFound, dcaPlansDB)
      | Some dcaPlan =>
          let dcaPlan :=
            {| dp_id := dp_id dcaPlan;
               dp_userAddress := dp_userAddress dcaPlan;
               dp_tokenAddress := dp_tokenAddress dcaPlan;
               dp_amountPerInterval := dp_amountPerInterval dcaPlan;
               dp_interval := dp_interval dcaPlan;
               dp_maxTotalAmount := dp_maxTotalAmount dcaPlan;
               dp_totalSpent := dp_totalSpent dcaPlan;
               dp_nextExecution := dp_nextExecution dcaPlan;
               dp_createdAt := dp_createdAt dcaPlan;
               dp_isActive := false;
               dp_description := dp_description dcaPlan;
               dp_dexRouter := dp_dexRouter dcaPlan |} in
          let dcaPlansDB := planSet dcaPlansDB id dcaPlan in
          let cancelled :=
            match smartGuardContract with
            | Some c =>
                match write_cancelDCAPlan c rawId with
                | Ok _ => true
                | Err _ => false
                end
            | None => false
            end in
          ({| status := 200; success := true;
              message := "DCA plan cancelled successfully";
              execution := None; dcaId := Some id |}, dcaPlansDB)
      end
  end.

End Routes.

End DcaRoute.

(* ===================================================================== *)
(** * Properties *)

Import RiskScoring ScoreTerms.

(** ** Shared lemmas and tactics *)

Lemma clamp100_range (x : Z) : 0 <= JS.clamp100 x <= 100.
Proof. unfold JS.clamp100. lia. Qed.

Lemma clamp100_id (x : Z) : 0 <= x <= 100 -> JS.clamp100 x = x.
Proof. unfold JS.clamp100. lia. Qed.

Lemma analyzeContractCode_score_range (code : string) :
  0 <= ca_score (analyzeContractCode code) <= 55.
Proof.
  unfold analyzeContractCode.
  destruct (JS.length code >? 10000), (JS.includes code "delegatecall"),
    (JS.includes code "selfdestruct"); cbn; lia.
Qed.

Lemma isContractAddress_fetched (provider : Provider) (request : nat)
  (address : string) (code : option string) :
  getCode provider request address = Ok code ->
  isContractAddress provider request address = JS.strictNe code "0x".
Proof. intros H. unfold isContractAddress. rewrite H. reflexivity. Qed.

Lemma isContractAddress_code (provider : Provider) (request : nat)
  (address code : string) :
  getCode provider request address = Ok (Some code) ->
  code <> "0x" ->
  isContractAddress provider request address = true.
Proof.
  intros H Hne. rewrite (isContractAddress_fetched provider request address _ H).
  unfold JS.strictNe, JS.strictEq. apply String.eqb_neq in Hne. now rewrite Hne.
Qed.

(** Case analysis on every test of the goal, outermost first. *)
Ltac split_tests :=
  repeat match goal with
         | |- context [if ?c then _ else _] => destruct c eqn:?
         | |- context [match ?c with Some _ => _ | None => _ end] =>
             destruct c eqn:?
         end.

Lemma scoreWallet_returns
  (isAddress : string -> bool) (parseFloatEther : Z -> Q)
  (provider : Provider) (address : string) (random : nat -> Q)
  (balance txCount : Z) (code : string) :
  isAddress address = true ->
  getBalance provider address = Ok balance ->
  getTransactionCount provider address = Ok txCount ->
  getCode provider 1 address = Ok (Some code) ->
  exists w,
    scoreWallet isAddress parseFloatEther provider address random = Ok w
    /\ 0 <= w_riskScore w <= 100
    /\ w_riskLevel w = getRiskLevel (w_riskScore w).
Proof.
  intros Hvalid Hbal Htx Hcode. unfold scoreWallet.
  rewrite Hvalid, Hbal, Htx, Hcode.
  cbn [negb bind JS.readingLength JS.strictNe JS.strictEq].
  generalize (analyzeContractCode code) (analyzeCodeComplexity code)
    (isContractAddress provider 0 address)
    (checkRiskyInteractions address random).
  intros analysis complexity isContract interactions.
  destruct isContract, (code =? "0x")%string; cbn [negb andb bind];
    split_tests; (eexists; split; [reflexivity |]);
    cbn [w_riskScore w_riskLevel]; (split; [apply clamp100_range | reflexivity]).
Qed.

(** On a wallet without code, for which [getCode] resolves to [undefined],
    the contract test answers true and the analysis of the code throws. *)
Lemma scoreWallet_undefined
  (isAddress : string -> bool) (parseFloatEther : Z -> Q)
  (provider : Provider) (address : string) (random : nat -> Q)
  (balance txCount : Z) :
  isAddress address = true ->
  getBalance provider address = Ok balance ->
  getTransactionCount provider address = Ok txCount ->
  getCode provider 0 address = Ok None ->
  getCode provider 1 address = Ok None ->
  scoreWallet isAddress parseFloatEther provider address random
  = Err ("Failed to score wallet: " ++ JS.undefinedLength)%string.
Proof.
  intros Hvalid Hbal Htx Hcontract Hcode. unfold scoreWallet.
  rewrite Hvalid, Hbal, Htx, Hcode.
  rewrite (isContractAddress_fetched provider 0 address _ Hcontract).
  change (JS.strictNe None "0x") with true.
  cbn [negb andb bind JS.readingLength].
  destruct (Qeq_bool (parseFloatEther balance) 0),
    (JS.Qltb 10 (parseFloatEther balance)), (txCount =? 0), (txCount <? 3);
    reflexivity.
Qed.

(** The answer of the no-contract guard of [scoreContract]. *)
Lemma scoreContract_guard
  (isAddress : string -> bool) (provider : Provider) (request : nat)
  (address : string) (code : option string) :
  isAddress address = true ->
  getCode provider request address = Ok code ->
  isContractAddress provider (S request) address = false
  \/ code = Some "0x" ->
  scoreContract isAddress provider request address
  = Ok {| c_contract := address;
          c_score := 0;
          c_riskLevel := Unknown;
          c_reasons := ["Not a contract or no code"];
          c_verified := false;
          c_analysis := None |}.
Proof.
  intros Hvalid Hcode Hguard. unfold scoreContract.
  rewrite Hvalid, Hcode. cbn [negb bind].
  destruct Hguard as [-> | ->]; [reflexivity |].
  cbn [JS.strictEq]. rewrite String.eqb_refl, orb_true_r. reflexivity.
Qed.

Lemma scoreContract_code
  (isAddress : string -> bool) (provider : Provider) (request : nat)
  (address code : string) :
  isAddress address = true ->
  getCode provider request address = Ok (Some code) ->
  code <> "0x" ->
  isContractAddress provider (S request) address = true ->
  exists c,
    scoreContract isAddress provider request address = Ok c
    /\ c_score c = contractScore address code
    /\ c_riskLevel c = getRiskLevel (c_score c).
Proof.
  intros Hvalid Hcode Hne Hcontract. unfold scoreContract.
  rewrite Hvalid, Hcode, Hcontract. apply String.eqb_neq in Hne.
  cbn [negb bind orb JS.strictEq JS.readingLength]. rewrite Hne.
  unfold contractScore, lookupReputation.
  split_tests; (eexists; split; [reflexivity |]); cbn [c_score c_riskLevel];
    split; reflexivity.
Qed.

(** On an address without code, for which [getCode] resolves to
    [undefined], the guard of [scoreContract] does not fire and the analysis
    of the code throws. *)
Lemma scoreContract_undefined
  (isAddress : string -> bool) (provider : Provider) (request : nat)
  (address : string) :
  isAddress address = true ->
  getCode provider request address = Ok None ->
  isContractAddress provider (S request) address = true ->
  scoreContract isAddress provider request address
  = Err ("Failed to score contract: " ++ JS.undefinedLength)%string.
Proof.
  intros Hvalid Hcode Hcontract. unfold scoreContract.
  rewrite Hvalid, Hcode, Hcontract. reflexivity.
Qed.

Lemma contractScore_range (address code : string) :
  50 <= contractScore address code <= 100.
Proof.
  unfold contractScore, JS.clamp100.
  pose proof (analyzeContractCode_score_range code).
  split_tests; lia.
Qed.

Lemma scoreContract_returns
  (isAddress : string -> bool) (provider : Provider) (request : nat)
  (address code : string) :
  isAddress address = true ->
  getCode provider request address = Ok (Some code) ->
  exists c,
    scoreContract isAddress provider request address = Ok c
    /\ 0 <= c_score c <= 100
    /\ (c_riskLevel c = Unknown /\ c_score c = 0
        \/ c_riskLevel c = getRiskLevel (c_score c)).
Proof.
  intros Hvalid Hcode.
  destruct (isContractAddress provider (S request) address) eqn:Hcontract;
    [destruct (String.eqb_spec code "0x") as [-> | Hne] |].
  - rewrite (scoreContract_guard isAddress provider request address _
               Hvalid Hcode (or_intror eq_refl)).
    eexists; split; [reflexivity |]. cbn. split; [lia | left; split; reflexivity].
  - destruct (scoreContract_code isAddress provider request address code
                Hvalid Hcode Hne Hcontract) as (c & Hc & Hscore & Hlevel).
    exists c. split; [exact Hc |].
    pose proof (contractScore_range address code). split; [lia | now right].
  - rewrite (scoreContract_guard isAddress provider request address _
               Hvalid Hcode (or_introl Hcontract)).
    eexists; split; [reflexivity |]. cbn. split; [lia | left; split; reflexivity].
Qed.

Lemma analyzeTransaction_returns
  (isAddress : string -> bool) (parseFloatEther : Z -> Q)
  (provider : Provider) (from : option string) (to : string)
  (value : option Z) (data : option string) (code : string) :
  isAddress to = true ->
  getCode provider 1 to = Ok (Some code) ->
  exists t,
    analyzeTransaction isAddress parseFloatEther provider
      {| tx_from := from; tx_to := to; tx_value := value; tx_data := data |}
    = Ok t
    /\ 0 <= t_riskScore t <= 100
    /\ t_riskLevel t = getRiskLevel (t_riskScore t).
Proof.
  intros Hvalid Hcode. unfold analyzeTransaction. cbn [tx_to tx_value tx_data].
  destruct (isContractAddress provider 0 to).
  - destruct (scoreContract_returns isAddress provider 1 to code Hvalid Hcode)
      as (c & Hc & _). rewrite Hc. cbn [bind].
    split_tests; (eexists; split; [reflexivity |]);
      cbn [t_riskScore t_riskLevel];
      (split; [apply clamp100_range | reflexivity]).
  - cbn [bind].
    split_tests; (eexists; split; [reflexivity |]);
      cbn [t_riskScore t_riskLevel];
      (split; [apply clamp100_range | reflexivity]).
Qed.

(** [scoreWallet] computes the sum of the specification's terms, in the
    specification's order. *)
Lemma scoreWallet_decomposes
  (isAddress : string -> bool) (parseFloatEther : Z -> Q)
  (provider : Provider) (address : string) (random : nat -> Q)
  (balance txCount : Z) (code : string) :
  isAddress address = true ->
  getBalance provider address = Ok balance ->
  getTransactionCount provider address = Ok txCount ->
  getCode provider 1 address = Ok (Some code) ->
  let isContract := isContractAddress provider 0 address in
  let interactions := checkRiskyInteractions address random in
  exists w,
    scoreWallet isAddress parseFloatEther provider address random = Ok w
    /\ w_factors w
       = snd (balanceTerm (parseFloatEther balance))
         ++ snd (historyTerm txCount)
         ++ snd (contractTerm isContract)
         ++ snd (codeTerm isContract code)
         ++ snd (interactionTerm interactions)
    /\ w_riskScore w
       = JS.clamp100
           (50 + fst (balanceTerm (parseFloatEther balance))
            + fst (historyTerm txCount)
            + fst (contractTerm isContract)
            + fst (codeTerm isContract code)
            + fst (interactionTerm interactions)).
Proof.
  intros Hvalid Hbal Htx Hcode isContract interactions.
  unfold scoreWallet. rewrite Hvalid, Hbal, Htx, Hcode.
  unfold JS.strictNe, JS.strictEq. cbn [negb bind JS.readingLength].
  subst isContract interactions.
  unfold balanceTerm, historyTerm, contractTerm, codeTerm, interactionTerm.
  generalize (analyzeContractCode code) (analyzeCodeComplexity code)
    (isContractAddress provider 0 address)
    (checkRiskyInteractions address random).
  intros analysis complexity isContract interactions.
  destruct isContract, (code =? "0x")%string; cbn [negb andb bind];
    split_tests; (eexists; split; [reflexivity |]);
    cbn [w_factors w_riskScore fst snd app];
    (split; [repeat rewrite <- app_assoc; repeat rewrite app_nil_r;
             reflexivity
            | f_equal; lia]).
Qed.

Lemma arrayIncludes_In (l : list string) (x : string) :
  JS.arrayIncludes l x = true <-> In x l.
Proof.
  unfold JS.arrayIncludes. rewrite existsb_exists. split.
  - intros (y & Hin & Heq). apply String.eqb_eq in Heq. now subst.
  - intros Hin. exists x. split; [exact Hin | apply String.eqb_refl].
Qed.

Lemma arrayIncludes_app (l1 l2 : list string) (x : string) :
  JS.arrayIncludes (l1 ++ l2) x
  = JS.arrayIncludes l1 x || JS.arrayIncludes l2 x.
Proof. apply existsb_app. Qed.

Lemma later_terms_foreign (isContract : bool) (code : string)
  (interactions : list string) (x : string) :
  pairFactor x ->
  JS.arrayIncludes
    (snd (contractTerm isContract) ++ snd (codeTerm isContract code)
     ++ snd (interactionTerm interactions)) x = false.
Proof.
  intros Hx. rewrite !arrayIncludes_app.
  unfold contractTerm, codeTerm, interactionTerm, analyzeContractCode.
  generalize (JS.numberToString (Z.of_nat (List.length interactions))).
  intros digits.
  destruct Hx as [-> | [-> | [-> | ->]]];
    split_tests; reflexivity.
Qed.


Lemma getRiskLevel_not_Unknown (score : Z) : getRiskLevel score <> Unknown.
Proof. unfold getRiskLevel. split_tests; discriminate. Qed.

(** The steps of [scoreWallet] that can throw once the reads have returned:
    the two uses of the fetched code. *)
Ltac wallet_reads isAddress provider address random :=
  unfold scoreWallet;
  destruct (isAddress address); [| discriminate];
  destruct (getBalance provider address) as [balance |]; [| discriminate];
  destruct (getTransactionCount provider address) as [txCount |];
    [| discriminate];
  destruct (getCode provider 1 address) as [[code |] |]; [| | discriminate];
  cbn [negb bind JS.readingLength JS.strictNe JS.strictEq];
  generalize (isContractAddress provider 0 address)
    (checkRiskyInteractions address random);
  intros isContract interactions;
  destruct isContract; cbn [negb andb bind].

(** Whatever the address and the chain, a returned score is in range. *)
Lemma scoreWallet_score_range
  (isAddress : string -> bool) (parseFloatEther : Z -> Q)
  (provider : Provider) (address : string) (random : nat -> Q)
  (w : WalletRisk) :
  scoreWallet isAddress parseFloatEther provider address random = Ok w ->
  0 <= w_riskScore w <= 100.
Proof.
  wallet_reads isAddress provider address random;
    try generalize (analyzeContractCode code) (analyzeCodeComplexity code);
    intros;
    repeat match goal with
           | H : context [if ?c then _ else _] |- _ => destruct c
           end;
    match goal with
    | H : rethrow _ _ = Ok _ |- _ =>
        cbn [rethrow bind] in H; first [discriminate H | injection H as <-]
    end; apply clamp100_range.
Qed.

Lemma scoreContract_score_range
  (isAddress : string -> bool) (provider : Provider) (request : nat)
  (address : string) (c : ContractRisk) :
  scoreContract isAddress provider request address = Ok c ->
  0 <= c_score c <= 100.
Proof.
  unfold scoreContract.
  destruct (isAddress address); [| discriminate].
  destruct (getCode provider request address) as [[code |] |];
    [| | discriminate];
    cbn [negb bind JS.readingLength];
    generalize (isContractAddress provider (S request) address);
    intros isContract.
  - generalize (analyzeContractCode code). intros analysis.
    split_tests; intros H; cbn [rethrow bind] in H; injection H as <-;
      cbn [c_score]; solve [apply clamp100_range | lia].
  - destruct isContract; cbn; intros H; [discriminate H |].
    injection H as <-. cbn [c_score]. lia.
Qed.

Lemma analyzeTransaction_score_range
  (isAddress : string -> bool) (parseFloatEther : Z -> Q)
  (provider : Provider) (txData : TxData) (t : TxRisk) :
  analyzeTransaction isAddress parseFloatEther provider txData = Ok t ->
  0 <= t_riskScore t <= 100.
Proof.
  unfold analyzeTransaction.
  destruct (isContractAddress provider 0 (tx_to txData)).
  - destruct (scoreContract isAddress provider 1 (tx_to txData)) as [c | m];
      cbn [bind].
    + split_tests; intros H; injection H as <-; apply clamp100_range.
    + split_tests; discriminate.
  - cbn [bind].
    split_tests; intros H; injection H as <-; apply clamp100_range.
Qed.

(** [helpers.js] exports a [getRiskLevel] of its own, over
    [RISK_THRESHOLDS] (90 and 70); the scoring operations do not call it. *)
Remark helpers_getRiskLevel_thresholds :
  Helpers.getRiskLevel 30 = Low /\ Helpers.getRiskLevel 70 = Medium
  /\ Helpers.getRiskLevel 90 = High.
Proof. repeat split. Qed.

(* ===================================================================== *)
(** ** The risk engine *)

(** C1. For a valid address whose reads return a balance, a transaction
    count and bytecode, whatever these are, and for any random
    risky-interaction draws and any transaction value and data,
    [scoreWallet], [scoreContract] and [analyzeTransaction] return a result
    whose score lies in [0, 100]; and for any address and any chain, also a
    failing one, every score they return lies in [0, 100]. *)
Theorem C1_score_in_range
  (isAddress : string -> bool) (parseFloatEther : Z -> Q)
  (provider : Provider) (address : string) (random : nat -> Q)
  (from : option string) (value : option Z) (data : option string)
  (balance txCount : Z) (code0 code1 : string) :
  isAddress address = true ->
  getBalance provider address = Ok balance ->
  getTransactionCount provider address = Ok txCount ->
  getCode provider 0 address = Ok (Some code0) ->
  getCode provider 1 address = Ok (Some code1) ->
  (exists w,
      scoreWallet isAddress parseFloatEther provider address random = Ok w
      /\ 0 <= w_riskScore w <= 100)
  /\ (exists c,
        scoreContract isAddress provider 0 address = Ok c
        /\ 0 <= c_score c <= 100)
  /\ (exists t,
        analyzeTransaction isAddress parseFloatEther provider
          {| tx_from := from; tx_to := address;
             tx_value := value; tx_data := data |} = Ok t
        /\ 0 <= t_riskScore t <= 100)
  /\ (forall anyAddress draws w,
        scoreWallet isAddress parseFloatEther provider anyAddress draws = Ok w ->
        0 <= w_riskScore w <= 100)
  /\ (forall request anyAddress c,
        scoreContract isAddress provider request anyAddress = Ok c ->
        0 <= c_score c <= 100)
  /\ (forall txData t,
        analyzeTransaction isAddress parseFloatEther provider txData = Ok t ->
        0 <= t_riskScore t <= 100).
Proof.
  intros Hvalid Hbal Htx Hcode0 Hcode1.
  split; [| split; [| split; [| split; [| split]]]];
    eauto using scoreWallet_score_range, scoreContract_score_range,
      analyzeTransaction_score_range.
  - destruct (scoreWallet_returns isAddress parseFloatEther provider address
                random balance txCount code1 Hvalid Hbal Htx Hcode1)
      as (w & Hw & Hrange & _).
    now exists w.
  - destruct (scoreContract_returns isAddress provider 0 address code0
                Hvalid Hcode0) as (c & Hc & Hrange & _).
    now exists c.
  - destruct (analyzeTransaction_returns isAddress parseFloatEther provider
                from address value data code1 Hvalid Hcode1)
      as (t & Ht & Hrange & _).
    now exists t.
Qed.

(** A contract wallet holding 20 ether with no history and three risky
    interactions: the terms add up to 120 and the score is 100. *)
Lemma C1_score_in_range_witness :
  let provider := Examples.chain Examples.twentyEther 0 "0x6080" in
  addressShape Examples.deadAddress = true
  /\ (exists w,
        scoreWallet addressShape exactEther provider Examples.deadAddress
          Examples.allRisky = Ok w
        /\ 0 <= w_riskScore w <= 100
        /\ w_riskScore w = 100)
  /\ (exists c,
        scoreContract addressShape provider 0 Examples.deadAddress = Ok c
        /\ 0 <= c_score c <= 100)
  /\ (exists t,
        analyzeTransaction addressShape exactEther provider
          {| tx_from := None; tx_to := Examples.deadAddress;
             tx_value := Some Examples.twoEther; tx_data := Some "0xabcd" |}
        = Ok t
        /\ 0 <= t_riskScore t <= 100).
Proof.
  intros provider. split; [reflexivity |].
  destruct (C1_score_in_range addressShape exactEther provider
              Examples.deadAddress Examples.allRisky None
              (Some Examples.twoEther) (Some "0xabcd")
              Examples.twentyEther 0 "0x6080" "0x6080"
              eq_refl eq_refl eq_refl eq_refl eq_refl)
    as ((w & Hw & Hrange) & Hcontract & Htx & _).
  split; [| split; assumption].
  exists w. split; [exact Hw |]. split; [exact Hrange |].
  vm_compute in Hw. injection Hw as <-. reflexivity.
Defined.



(** C8. The code departs from the claim on every address without code.
    For such an address [getCode] resolves to [undefined], which is not
    ["0x"]: the contract test answers true, the no-contract guard is passed
    over, and the analysis of the code throws on [code.length].  So
    [scoreContract] returns no result there, where the claim has score 0 and
    level Unknown. *)
Theorem C8_no_code_throws
  (isAddress : string -> bool) (provider : Provider) (request : nat)
  (address : string) :
  isAddress address = true ->
  getCode provider request address = Ok None ->
  getCode provider (S request) address = Ok None ->
  isContractAddress provider (S request) address = true
  /\ scoreContract isAddress provider request address
     = Err ("Failed to score contract: " ++ JS.undefinedLength)%string
  /\ (forall c, scoreContract isAddress provider request address <> Ok c).
Proof.
  intros Hvalid Hcode Hagain.
  assert (Hcontract : isContractAddress provider (S request) address = true).
  { rewrite (isContractAddress_fetched provider (S request) address _ Hagain).
    reflexivity. }
  split; [exact Hcontract |].
  rewrite (scoreContract_undefined isAddress provider request address
             Hvalid Hcode Hcontract).
  split; [reflexivity | discriminate].
Qed.

Lemma C8_no_code_throws_witness :
  let provider := Examples.noCode 0 0 in
  addressShape Examples.plainAddress = true
  /\ scoreContract addressShape provider 0 Examples.plainAddress
     = Err "Failed to score contract: Cannot read properties of undefined (reading 'length')".
Proof.
  intros provider. split; [reflexivity |].
  exact (proj1 (proj2 (C8_no_code_throws addressShape provider 0
                         Examples.plainAddress eq_refl eq_refl eq_refl))).
Defined.

(** C2, as stated, fails on a listed address.  With bytecode, when the read
    of the contract test fails, the no-contract guard answers score 0; and
    without code [scoreContract] returns no score at all. *)
Lemma C2_counterexample :
  let provider := Examples.droppedAfterFirst 0 0 "0x6080" in
  In Examples.deadAddress KNOWN_RISKY_CONTRACTS
  /\ addressShape Examples.deadAddress = true
  /\ getCode provider 0 Examples.deadAddress = Ok (Some "0x6080")
  /\ (exists c,
        scoreContract addressShape provider 0 Examples.deadAddress = Ok c
        /\ c_score c = 0 /\ c_riskLevel c = Unknown /\ c_score c <> 100)
  /\ (forall c,
        scoreContract addressShape (Examples.noCode 0 0) 0
          Examples.deadAddress <> Ok c).
Proof.
  intros provider. split; [left; reflexivity |].
  split; [reflexivity |]. split; [reflexivity |]. split.
  - eexists; split; [reflexivity |]. cbn.
    split; [reflexivity | split; [reflexivity | discriminate]].
  - intros c. discriminate.
Qed.

(** C2 (amended). For a valid address that is in the known-risky list, or
    whose lower-case form is, and whose bytecode is read as not empty:
    when the contract test holds, [scoreContract] returns score exactly 100,
    whatever the bytecode contains; when the contract test fails, the
    no-contract guard, which comes before the list, answers score 0 and
    level Unknown. *)
Theorem C2_known_risky_scores_100
  (isAddress : string -> bool) (provider : Provider) (request : nat)
  (address code : string) :
  isAddress address = true ->
  In address KNOWN_RISKY_CONTRACTS
  \/ In (JS.toLowerCase address) KNOWN_RISKY_CONTRACTS ->
  getCode provider request address = Ok (Some code) ->
  code <> "0x" ->
  (isContractAddress provider (S request) address = true ->
   exists c,
     scoreContract isAddress provider request address = Ok c
     /\ c_score c = 100
     /\ c_riskLevel c = High)
  /\ (isContractAddress provider (S request) address = false ->
      exists c,
        scoreContract isAddress provider request address = Ok c
        /\ c_score c = 0
        /\ c_riskLevel c = Unknown).
Proof.
  intros Hvalid Hlisted Hcode Hne.
  assert (Hlower : JS.arrayIncludes KNOWN_RISKY_CONTRACTS
                     (JS.toLowerCase address) = true).
  { apply arrayIncludes_In. destruct Hlisted as [Hin | Hin]; [| exact Hin].
    cbn in Hin. destruct Hin as [<- | [<- | [<- | []]]]; cbn; tauto. }
  split; intros Hcontract.
  - destruct (scoreContract_code isAddress provider request address code
                Hvalid Hcode Hne Hcontract) as (c & Hc & Hscore & Hlevel).
    exists c. split; [exact Hc |].
    assert (H100 : c_score c = 100).
    { rewrite Hscore. unfold contractScore. rewrite Hlower. reflexivity. }
    split; [exact H100 | rewrite Hlevel, H100; reflexivity].
  - rewrite (scoreContract_guard isAddress provider request address _
               Hvalid Hcode (or_introl Hcontract)).
    eexists; split; [reflexivity |]. split; reflexivity.
Qed.

Lemma C2_known_risky_scores_100_witness :
  let provider := Examples.chain 0 0 "0x6080" in
  addressShape Examples.deadAddress = true
  /\ In Examples.deadAddress KNOWN_RISKY_CONTRACTS
  /\ exists c,
       scoreContract addressShape provider 0 Examples.deadAddress = Ok c
       /\ c_score c = 100 /\ c_riskLevel c = High.
Proof.
  intros provider. split; [reflexivity |]. split; [left; reflexivity |].
  apply (C2_known_risky_scores_100 addressShape provider 0
           Examples.deadAddress "0x6080" eq_refl
           (or_introl (or_introl eq_refl)) eq_refl);
    [discriminate | reflexivity].
Defined.

Lemma wallet_factors_pair (isContract : bool) (code : string)
  (interactions : list string) (balanceEth : Q) (txCount : Z) (x : string) :
  pairFactor x ->
  JS.arrayIncludes
    (snd (balanceTerm balanceEth) ++ snd (historyTerm txCount)
     ++ snd (contractTerm isContract) ++ snd (codeTerm isContract code)
     ++ snd (interactionTerm interactions)) x
  = JS.arrayIncludes (snd (balanceTerm balanceEth)) x
    || JS.arrayIncludes (snd (historyTerm txCount)) x.
Proof.
  intros Hx. rewrite (arrayIncludes_app (snd (balanceTerm balanceEth))).
  rewrite (arrayIncludes_app (snd (historyTerm txCount))).
  rewrite (later_terms_foreign isContract code interactions x Hx).
  now rewrite orb_false_r.
Qed.



(* ===================================================================== *)
(** ** The delegation routes *)

(** *** The in-memory map *)

Lemma mapGet_mapSet {V : Type} (m : JS.Map V) (k : string) (v : V) :
  JS.mapGet (JS.mapSet m k v) k = Some v.
Proof.
  induction m as [| [k' v'] rest IH]; cbn.
  - now rewrite String.eqb_refl.
  - destruct (k' =? k)%string eqn:Hk; cbn.
    + now rewrite String.eqb_refl.
    + now rewrite Hk.
Qed.

Lemma mapGet_mapDelete {V : Type} (m : JS.Map V) (k : string) :
  JS.mapGet (JS.mapDelete m k) k = None.
Proof.
  induction m as [| [k' v'] rest IH]; cbn; [reflexivity |].
  destruct (k' =? k)%string eqn:Hk; cbn; [exact IH |].
  rewrite Hk. exact IH.
Qed.

Lemma mapHas_mapDelete {V : Type} (m : JS.Map V) (k : string) :
  JS.mapHas (JS.mapDelete m k) k = false.
Proof. unfold JS.mapHas. now rewrite mapGet_mapDelete. Qed.

Lemma truthy_Some (s : string) : s <> "" -> JS.truthy (Some s) = true.
Proof. intros H. cbn. apply String.eqb_neq in H. now rewrite H. Qed.

(** *** Revoking *)

(** What one revoke request with both addresses present does. *)
Lemma revoke_post_present
  (smartGuardContract : option SmartGuardContract) (isoNow : string)
  (userAddress contractAddress : string) (db : JS.Map Delegation) :
  userAddress <> "" ->
  contractAddress <> "" ->
  let key := (userAddress ++ "-" ++ contractAddress)%string in
  let result :=
    RevokeRoute.post smartGuardContract isoNow
      {| RevokeRoute.userAddress := Some userAddress;
         RevokeRoute.contractAddress := Some contractAddress |} db in
  RevokeRoute.status (fst (fst result)) = 200
  /\ RevokeRoute.success (fst (fst result)) = true
  /\ snd (fst result) = (if JS.mapHas db key then JS.mapDelete db key else db)
  /\ JS.mapHas (snd (fst result)) key = false
  /\ (JS.mapHas db key = false ->
      forall e, In e (snd result) -> isLocalWrite e = false).
Proof.
  intros Huser Hcontract key result. subst result.
  unfold RevokeRoute.post. cbn [RevokeRoute.userAddress RevokeRoute.contractAddress].
  rewrite (truthy_Some _ Huser), (truthy_Some _ Hcontract).
  cbn [negb orb interpolate]. fold key.
  destruct (JS.mapHas db key) eqn:Hhad;
    destruct smartGuardContract as [c |];
    try destruct (write_removeDelegation c userAddress contractAddress);
    cbn [fst snd RevokeRoute.status RevokeRoute.success app];
    repeat split; auto using mapHas_mapDelete; try discriminate;
    intros _ e Hin; cbn [In] in Hin;
    repeat (destruct Hin as [<- | Hin]; [reflexivity |]); destruct Hin.
Qed.

(** C9. Two revoke requests in a row for the same (user, contract) pair
    both answer 200 with [success: true], whatever the remote contract does
    in either call; after the first the entry is absent from the map and the
    second leaves the map as it is and performs no local write. *)
Theorem C9_revoke_twice_succeeds
  (contract1 contract2 : option SmartGuardContract) (isoNow1 isoNow2 : string)
  (userAddress contractAddress : string) (db : JS.Map Delegation) :
  userAddress <> "" ->
  contractAddress <> "" ->
  let req :=
    {| RevokeRoute.userAddress := Some userAddress;
       RevokeRoute.contractAddress := Some contractAddress |} in
  let key := (userAddress ++ "-" ++ contractAddress)%string in
  let first := RevokeRoute.post contract1 isoNow1 req db in
  let second := RevokeRoute.post contract2 isoNow2 req (snd (fst first)) in
  RevokeRoute.status (fst (fst first)) = 200
  /\ RevokeRoute.success (fst (fst first)) = true
  /\ JS.mapHas (snd (fst first)) key = false
  /\ RevokeRoute.status (fst (fst second)) = 200
  /\ RevokeRoute.success (fst (fst second)) = true
  /\ snd (fst second) = snd (fst first)
  /\ (forall e, In e (snd second) -> isLocalWrite e = false).
Proof.
  intros Huser Hcontract req key first second.
  destruct (revoke_post_present contract1 isoNow1 userAddress contractAddress
              db Huser Hcontract) as (Hs1 & Hok1 & _ & Habsent & _).
  destruct (revoke_post_present contract2 isoNow2 userAddress contractAddress
              (snd (fst first)) Huser Hcontract)
    as (Hs2 & Hok2 & Hdb2 & _ & Hlog2).
  fold req first in Hs1, Hok1, Habsent.
  fold req first second key in Hs2, Hok2, Hdb2, Hlog2.
  fold key in Habsent.
  rewrite Habsent in Hdb2. auto 10.
Qed.

(** Revoking a stored delegation twice while the remote contract rejects
    every call. *)
Lemma C9_revoke_twice_succeeds_witness :
  let req :=
    {| RevokeRoute.userAddress := Some DelegationExamples.alice;
       RevokeRoute.contractAddress := Some DelegationExamples.vault |} in
  let first :=
    RevokeRoute.post (Some DelegationExamples.downContract) "t1" req
      DelegationExamples.oneHourDB in
  let second :=
    RevokeRoute.post (Some DelegationExamples.downContract) "t2" req
      (snd (fst first)) in
  DelegationExamples.alice <> "" /\ DelegationExamples.vault <> ""
  /\ RevokeRoute.success (fst (fst first)) = true
  /\ RevokeRoute.success (fst (fst second)) = true
  /\ snd (fst second) = snd (fst first).
Proof.
  intros req first second.
  split; [discriminate |]. split; [discriminate |].
  destruct (C9_revoke_twice_succeeds
              (Some DelegationExamples.downContract)
              (Some DelegationExamples.downContract) "t1" "t2"
              DelegationExamples.alice DelegationExamples.vault
              DelegationExamples.oneHourDB)
    as (_ & Hok1 & _ & _ & Hok2 & Hsame & _); try discriminate.
  repeat split; assumption.
Defined.

(** *** Adding *)

(** C5. An add request with both addresses present first writes the record
    to the in-memory map and only then attempts the remote write; whether
    the remote write is skipped, succeeds or fails, the record stays in the
    map and the answer is 200 with [success: true] and the created
    delegation. *)
Theorem C5_add_writes_local_first
  (smartGuardContract : option SmartGuardContract) (walletClient : bool)
  (waitForTransactionReceipt : string -> Result Z) (dateNow : nat -> Z)
  (userAddress contractAddress : string) (duration : Z)
  (description : option string) (db : JS.Map Delegation) :
  userAddress <> "" ->
  contractAddress <> "" ->
  let req :=
    {| DelegationRoute.userAddress := Some userAddress;
       DelegationRoute.contractAddress := Some contractAddress;
       DelegationRoute.duration := duration;
       DelegationRoute.description := description |} in
  let key := (userAddress ++ "-" ++ contractAddress)%string in
  let record :=
    {| d_userAddress := userAddress;
       d_contractAddress := contractAddress;
       d_expiresAt := dateNow 0%nat / 1000 + duration * 3600;
       d_description := JS.orElse description "No description";
       d_addedAt := dateNow 1%nat / 1000;
       d_isActive := true |} in
  let result :=
    DelegationRoute.post smartGuardContract walletClient
      waitForTransactionReceipt dateNow req db in
  DelegationRoute.a_status (fst (fst result)) = 200
  /\ DelegationRoute.a_success (fst (fst result)) = true
  /\ DelegationRoute.a_delegation (fst (fst result))
     = Some {| v_contractAddr := contractAddress;
               v_expiresAt := dateNow 0%nat / 1000 + duration * 3600;
               v_expiresIn := (JS.numberToString duration ++ "h")%string;
               v_status := Active;
               v_description := None;
               v_addedAt := dateNow 2%nat / 1000;
               v_isActive := None |}
  /\ snd (fst result) = JS.mapSet db key record
  /\ JS.mapGet (snd (fst result)) key = Some record
  /\ exists remote,
       snd result = LocalSet key record :: remote
       /\ (forall e, In e remote -> isLocalWrite e = false)
       /\ (forall c,
            smartGuardContract = Some c -> walletClient = true ->
            exists rest,
              remote
              = RemoteAddDelegation userAddress contractAddress
                  (duration * 3600) (JS.orElse description "") :: rest).
Proof.
  intros Huser Hcontract req key record result. subst result req.
  unfold DelegationRoute.post.
  cbn [DelegationRoute.userAddress DelegationRoute.contractAddress
       DelegationRoute.duration DelegationRoute.description].
  rewrite (truthy_Some _ Huser), (truthy_Some _ Hcontract).
  cbn [negb orb interpolate]. fold key. fold record.
  cbn [fst snd DelegationRoute.a_status DelegationRoute.a_success
       DelegationRoute.a_delegation].
  repeat (split; [reflexivity |]).
  split; [apply mapGet_mapSet |].
  destruct smartGuardContract as [c |]; [destruct walletClient |].
  - destruct (write_addDelegation c userAddress contractAddress
                (duration * 3600) (JS.orElse description "")) as [hash | m];
      [destruct (waitForTransactionReceipt hash) |];
      cbn [app]; (eexists; split; [reflexivity |]);
      (split; [| intros c' _ _; eexists; reflexivity]);
      intros e Hin; cbn [In] in Hin;
      repeat (destruct Hin as [<- | Hin]; [reflexivity |]); destruct Hin.
  - exists []. repeat split; [intros e [] | discriminate].
  - exists []. repeat split; [intros e [] | discriminate].
Qed.

(** Adding a one-hour delegation while every remote call fails. *)
Lemma C5_add_writes_local_first_witness :
  let req :=
    {| DelegationRoute.userAddress := Some DelegationExamples.alice;
       DelegationRoute.contractAddress := Some DelegationExamples.vault;
       DelegationRoute.duration := 1;
       DelegationRoute.description := Some "test" |} in
  let result :=
    DelegationRoute.post (Some DelegationExamples.downContract) true
      DelegationExamples.confirmed (DelegationExamples.clockAt 1000500)
      req [] in
  DelegationExamples.alice <> "" /\ DelegationExamples.vault <> ""
  /\ DelegationRoute.a_success (fst (fst result)) = true
  /\ snd (fst result) = DelegationExamples.oneHourDB.
Proof.
  intros req result.
  split; [discriminate |]. split; [discriminate |].
  destruct (C5_add_writes_local_first
              (Some DelegationExamples.downContract) true
              DelegationExamples.confirmed (DelegationExamples.clockAt 1000500)
              DelegationExamples.alice DelegationExamples.vault 1
              (Some "test") [])
    as (_ & Hok & _ & Hdb & _); try discriminate.
  split; [exact Hok | exact Hdb].
Defined.

(** *** Validating *)

Lemma validateDelegationParams_reports
  (isAddress : string -> bool) (user contract : string)
  (dateNow durationSeconds : Z) :
  let errors :=
    Helpers.validateDelegationParams isAddress user contract
      (dateNow / 1000 + durationSeconds) dateNow in
  (In "Invalid user address" errors <-> isAddress user = false)
  /\ (In "Invalid contract address" errors <-> isAddress contract = false)
  /\ (In "Expiration must be in the future" errors <-> durationSeconds <= 0)
  /\ (In "Delegation duration cannot exceed 30 days" errors
      <-> durationSeconds > Constants.MAX_DELEGATION_DURATION).
Proof.
  intros errors. subst errors.
  unfold Helpers.validateDelegationParams, Helpers.isValidAddress.
  change (JS.numberToString (Constants.MAX_DELEGATION_DURATION / (24 * 60 * 60)))
    with "30".
  change Constants.MAX_DELEGATION_DURATION with 2592000.
  destruct (isAddress user), (isAddress contract);
    destruct (Z.leb_spec (dateNow / 1000 + durationSeconds) (dateNow / 1000));
    destruct (Z.gtb_spec (dateNow / 1000 + durationSeconds)
                (dateNow / 1000 + 2592000));
    cbn [negb app In];
    repeat split; intros; try discriminate; try lia; try tauto;
    repeat match goal with
           | H : _ \/ _ |- _ => destruct H
           | H : False |- _ => destruct H
           | H : _ = _ |- _ => discriminate H
           end.
Qed.

(** C4. The code departs from the claim: the add route makes no check of
    the duration.  Whatever the duration (in hours), also 0 and more than 30
    days, a request with both addresses is answered 200 with
    [success: true] and its record is stored, expiring [duration] hours
    after the current second.  The check that the claim describes exists in
    [validateDelegationParams], which no route calls: on the record stored
    for a duration that is not positive it reports that the expiration must
    be in the future, and on one above 30 days that the duration cannot
    exceed 30 days. *)
Theorem C4_add_accepts_any_duration
  (isAddress : string -> bool)
  (smartGuardContract : option SmartGuardContract) (walletClient : bool)
  (waitForTransactionReceipt : string -> Result Z) (dateNow : nat -> Z)
  (userAddress contractAddress : string) (duration : Z)
  (description : option string) (db : JS.Map Delegation) :
  userAddress <> "" ->
  contractAddress <> "" ->
  let result :=
    DelegationRoute.post smartGuardContract walletClient
      waitForTransactionReceipt dateNow
      {| DelegationRoute.userAddress := Some userAddress;
         DelegationRoute.contractAddress := Some contractAddress;
         DelegationRoute.duration := duration;
         DelegationRoute.description := description |} db in
  let now := dateNow 0%nat / 1000 in
  DelegationRoute.a_status (fst (fst result)) = 200
  /\ DelegationRoute.a_success (fst (fst result)) = true
  /\ exists record,
       JS.mapGet (snd (fst result))
         (userAddress ++ "-" ++ contractAddress)%string = Some record
       /\ d_expiresAt record = now + duration * 3600
       /\ d_isActive record = true
       /\ (duration <= 0 ->
           In "Expiration must be in the future"
             (Helpers.validateDelegationParams isAddress userAddress
                contractAddress (d_expiresAt record) (dateNow 0%nat)))
       /\ (duration * 3600 > Constants.MAX_DELEGATION_DURATION ->
           In "Delegation duration cannot exceed 30 days"
             (Helpers.validateDelegationParams isAddress userAddress
                contractAddress (d_expiresAt record) (dateNow 0%nat))).
Proof.
  intros Huser Hcontract result now. subst result.
  unfold DelegationRoute.post.
  cbn [DelegationRoute.userAddress DelegationRoute.contractAddress
       DelegationRoute.duration DelegationRoute.description].
  rewrite (truthy_Some _ Huser), (truthy_Some _ Hcontract).
  cbn [negb orb interpolate fst snd DelegationRoute.a_status
       DelegationRoute.a_success].
  split; [reflexivity |]. split; [reflexivity |].
  eexists. split; [apply mapGet_mapSet |].
  cbn [d_expiresAt d_isActive]. fold now.
  split; [reflexivity |]. split; [reflexivity |].
  destruct (validateDelegationParams_reports isAddress userAddress
              contractAddress (dateNow 0%nat) (duration * 3600))
    as (_ & _ & Hfuture & Hmax).
  fold now in Hfuture, Hmax.
  split; intros Hduration; [apply Hfuture; lia | apply Hmax; exact Hduration].
Qed.

(** A delegation of duration 0 is stored and answered with success; it has
    expired when it is stored. *)
Lemma C4_add_accepts_any_duration_witness :
  let req :=
    {| DelegationRoute.userAddress := Some DelegationExamples.alice;
       DelegationRoute.contractAddress := Some DelegationExamples.vault;
       DelegationRoute.duration := 0;
       DelegationRoute.description := None |} in
  let result :=
    DelegationRoute.post (Some (DelegationExamples.liveContract [])) true
      DelegationExamples.confirmed (DelegationExamples.clockAt 1000500)
      req [] in
  DelegationExamples.alice <> ""
  /\ DelegationExamples.vault <> ""
  /\ DelegationRoute.a_status (fst (fst result)) = 200
  /\ DelegationRoute.a_success (fst (fst result)) = true
  /\ option_map d_expiresAt
       (JS.mapGet (snd (fst result))
          (DelegationExamples.alice ++ "-" ++ DelegationExamples.vault)%string)
     = Some 1000.
Proof.
  intros req result.
  split; [discriminate |]. split; [discriminate |].
  destruct (C4_add_accepts_any_duration addressShape
              (Some (DelegationExamples.liveContract [])) true
              DelegationExamples.confirmed (DelegationExamples.clockAt 1000500)
              DelegationExamples.alice DelegationExamples.vault 0 None [])
    as (Hstatus & Hsuccess & _); try discriminate.
  split; [exact Hstatus |]. split; [exact Hsuccess | reflexivity].
Defined.

(** X30. [validateDelegationParams], given
    [expiresAt = now + durationSeconds], lists every violated constraint
    without stopping at the first: an invalid user address, an invalid
    contract address, a duration that is not positive, a duration above the
    30-day maximum.  It reports an error for [durationSeconds = 0] and for
    any duration above 30 days, and none for valid addresses with a positive
    duration of at most 30 days: the one-hour minimum of [constants.js] is
    not among its checks. *)
Theorem X30_validate_accumulates
  (isAddress : string -> bool) (user contract : string)
  (dateNow durationSeconds : Z) :
  let now := dateNow / 1000 in
  let errors :=
    Helpers.validateDelegationParams isAddress user contract
      (now + durationSeconds) dateNow in
  (In "Invalid user address" errors <-> isAddress user = false)
  /\ (In "Invalid contract address" errors <-> isAddress contract = false)
  /\ (In "Expiration must be in the future" errors <-> durationSeconds <= 0)
  /\ (In "Delegation duration cannot exceed 30 days" errors
      <-> durationSeconds > Constants.MAX_DELEGATION_DURATION)
  /\ (durationSeconds = 0 -> errors <> [])
  /\ (durationSeconds > Constants.MAX_DELEGATION_DURATION -> errors <> [])
  /\ (isAddress user = true -> isAddress contract = true ->
      0 < durationSeconds <= Constants.MAX_DELEGATION_DURATION ->
      errors = [])
  /\ (List.length errors <= 3)%nat.
Proof.
  intros now errors. subst errors.
  unfold Helpers.validateDelegationParams, Helpers.isValidAddress.
  fold now.
  change (JS.numberToString (Constants.MAX_DELEGATION_DURATION / (24 * 60 * 60)))
    with "30".
  change Constants.MAX_DELEGATION_DURATION with 2592000.
  destruct (isAddress user), (isAddress contract);
    destruct (Z.leb_spec (now + durationSeconds) now);
    destruct (Z.gtb_spec (now + durationSeconds) (now + 2592000));
    cbn [negb app In List.length];
    repeat split; intros; try discriminate; try lia; try tauto;
    repeat match goal with
           | H : _ \/ _ |- _ => destruct H
           | H : False |- _ => destruct H
           | H : _ = _ |- _ => discriminate H
           end.
Qed.

(** Exactly one hour, exactly 30 days and half an hour all pass; two bad
    addresses with a zero duration give three errors at once. *)
Lemma X30_validate_accumulates_witness :
  Helpers.validateDelegationParams addressShape DelegationExamples.alice
    DelegationExamples.vault (1000 + 3600) 1000500 = []
  /\ Helpers.validateDelegationParams addressShape DelegationExamples.alice
       DelegationExamples.vault (1000 + 2592000) 1000500 = []
  /\ Helpers.validateDelegationParams addressShape DelegationExamples.alice
       DelegationExamples.vault (1000 + 1800) 1000500 = []
  /\ 1800 < Constants.MIN_DELEGATION_DURATION
  /\ Helpers.validateDelegationParams addressShape "alice" "vault"
       (1000 + 0) 1000500
     = ["Invalid user address"; "Invalid contract address";
        "Expiration must be in the future"].
Proof.
  pose proof (X30_validate_accumulates addressShape DelegationExamples.alice
                DelegationExamples.vault 1000500 3600)
    as (_ & _ & _ & _ & _ & _ & Hhour & _).
  pose proof (X30_validate_accumulates addressShape DelegationExamples.alice
                DelegationExamples.vault 1000500 2592000)
    as (_ & _ & _ & _ & _ & _ & Hmonth & _).
  pose proof (X30_validate_accumulates addressShape DelegationExamples.alice
                DelegationExamples.vault 1000500 1800)
    as (_ & _ & _ & _ & _ & _ & Hhalf & _).
  split; [apply Hhour; vm_compute; intuition congruence |].
  split; [apply Hmonth; vm_compute; intuition congruence |].
  split; [apply Hhalf; vm_compute; intuition congruence |].
  split; [reflexivity | reflexivity].
Defined.

(** *** Listing *)

Lemma get_valid
  (isAddress : string -> bool) (c : option SmartGuardContract)
  (dateNow : nat -> Z) (userAddress : string) (db : JS.Map Delegation) :
  isAddress userAddress = true ->
  let result := DelegationRoute.get isAddress c dateNow userAddress db in
  let remote := remoteViews c dateNow userAddress in
  let now := dateNow (remoteReads c userAddress) / 1000 in
  DelegationRoute.l_status (fst (fst result)) = 200
  /\ DelegationRoute.l_delegations (fst (fst result))
     = match remote with
       | [] => DelegationRoute.scanMemory userAddress now db
       | _ :: _ => remote
       end
  /\ DelegationRoute.l_source (fst (fst result))
     = Some match remote with [] => "memory" | _ :: _ => "contract" end
  /\ snd (fst result) = db
  /\ snd result
     = match c with
       | Some _ => [RemoteGetActiveDelegations userAddress]
       | None => []
       end.
Proof.
  intros Hvalid result remote now. subst result remote now.
  unfold DelegationRoute.get, remoteViews, remoteReads, remoteRead.
  rewrite Hvalid. cbn [negb].
  destruct c as [c |]; [| cbn; auto].
  destruct (read_getActiveDelegations c userAddress) as [plans | m];
    [| cbn; auto].
  destruct (filter DelegationRoute.notZeroAddress
              (DelegationRoute.mapPlans dateNow 0 plans)); cbn; auto.
Qed.

Lemma wallet_getDelegations_valid
  (isAddress : string -> bool) (c : option SmartGuardContract)
  (dateNow : nat -> Z) (address : string) :
  isAddress address = true ->
  let response := WalletRoute.getDelegations isAddress c dateNow address in
  WalletRoute.status response = 200
  /\ WalletRoute.success response = true
  /\ WalletRoute.delegations response
     = match remoteRead c address with
       | Ok plans =>
           filter DelegationRoute.notZeroAddress
             (WalletRoute.mapDelegations dateNow 0 plans)
       | Err _ => []
       end
  /\ (forall plans,
        remoteRead c address = Ok plans ->
        WalletRoute.source response = Some "contract").
Proof.
  intros Hvalid response. subst response.
  unfold WalletRoute.getDelegations, remoteRead. rewrite Hvalid. cbn [negb].
  destruct c as [c |]; [| cbn; repeat split; discriminate].
  destruct (read_getActiveDelegations c address); cbn; repeat split;
    discriminate.
Qed.

(** C3, as stated, fails: the remote read succeeds with no delegation and
    the delegation route answers with the entry of the in-memory map. *)
Lemma C3_counterexample :
  let contract := Some (DelegationExamples.liveContract []) in
  let response :=
    fst (fst (DelegationRoute.get addressShape contract
                (DelegationExamples.clockAt 1000500)
                DelegationExamples.alice DelegationExamples.oneHourDB)) in
  remoteRead contract DelegationExamples.alice = Ok []
  /\ DelegationRoute.l_delegations response
     = [DelegationRoute.memoryView 1000 DelegationExamples.oneHour]
  /\ DelegationRoute.l_source response = Some "memory"
  /\ DelegationRoute.l_delegations response
     <> remoteViews contract (DelegationExamples.clockAt 1000500)
          DelegationExamples.alice.
Proof. vm_compute. repeat split; discriminate. Qed.

(** C3 (amended). For a valid user address: when the remote read succeeds
    and leaves at least one delegation after the zero-address entries are
    filtered out, the delegation route returns exactly that remote result,
    whatever the in-memory map holds; when the remote read fails, is
    unavailable, or leaves nothing after filtering, it returns the scan of
    the in-memory map.  The wallet route has no in-memory map and returns
    the filtered remote result on success, also when it is empty. *)
Theorem C3_remote_result_exclusive
  (isAddress : string -> bool) (c : option SmartGuardContract)
  (dateNow : nat -> Z) (userAddress : string) (db : JS.Map Delegation) :
  isAddress userAddress = true ->
  let response :=
    fst (fst (DelegationRoute.get isAddress c dateNow userAddress db)) in
  let walletResponse :=
    WalletRoute.getDelegations isAddress c dateNow userAddress in
  (forall plans,
      remoteRead c userAddress = Ok plans ->
      let remote :=
        filter DelegationRoute.notZeroAddress
          (DelegationRoute.mapPlans dateNow 0 plans) in
      (remote <> [] ->
       DelegationRoute.l_delegations response = remote
       /\ DelegationRoute.l_source response = Some "contract")
      /\ (remote = [] ->
          DelegationRoute.l_delegations response
          = DelegationRoute.scanMemory userAddress
              (dateNow (List.length plans) / 1000) db
          /\ DelegationRoute.l_source response = Some "memory")
      /\ WalletRoute.delegations walletResponse
         = filter DelegationRoute.notZeroAddress
             (WalletRoute.mapDelegations dateNow 0 plans)
      /\ WalletRoute.source walletResponse = Some "contract")
  /\ (forall m,
        remoteRead c userAddress = Err m ->
        DelegationRoute.l_delegations response
        = DelegationRoute.scanMemory userAddress (dateNow 0%nat / 1000) db
        /\ DelegationRoute.l_source response = Some "memory"
        /\ WalletRoute.delegations walletResponse = []).
Proof.
  intros Hvalid response walletResponse.
  destruct (get_valid isAddress c dateNow userAddress db Hvalid)
    as (_ & Hlist & Hsource & _).
  destruct (wallet_getDelegations_valid isAddress c dateNow userAddress Hvalid)
    as (_ & _ & Hwallet & Hwsource).
  fold response in Hlist, Hsource. fold walletResponse in Hwallet, Hwsource.
  unfold remoteViews, remoteReads in Hlist, Hsource.
  split.
  - intros plans Hread remote. rewrite Hread in Hlist, Hsource, Hwallet.
    fold remote in Hlist, Hsource.
    repeat split; eauto.
    + destruct remote; [congruence | exact Hlist].
    + destruct remote; [congruence | exact Hsource].
    + rewrite Hlist, H. reflexivity.
    + rewrite Hsource, H. reflexivity.
  - intros m Hread. rewrite Hread in Hlist, Hsource, Hwallet. auto.
Qed.

(** The remote read returns one delegation: the route returns it and leaves
    the entry of the in-memory map out. *)
Lemma C3_remote_result_exclusive_witness :
  let contract :=
    Some (DelegationExamples.liveContract [DelegationExamples.inactivePlan]) in
  let response :=
    fst (fst (DelegationRoute.get addressShape contract
                (DelegationExamples.clockAt 1000500)
                DelegationExamples.alice DelegationExamples.oneHourDB)) in
  addressShape DelegationExamples.alice = true
  /\ DelegationRoute.l_delegations response
     = [DelegationRoute.planView 1000500 DelegationExamples.inactivePlan]
  /\ DelegationRoute.l_source response = Some "contract".
Proof.
  intros contract response. split; [reflexivity |].
  destruct (C3_remote_result_exclusive addressShape contract
              (DelegationExamples.clockAt 1000500) DelegationExamples.alice
              DelegationExamples.oneHourDB eq_refl) as (Hok & _).
  destruct (Hok [DelegationExamples.inactivePlan] eq_refl) as (Hremote & _).
  apply Hremote. discriminate.
Defined.

(** *** Derived status *)

Lemma planView_status (dateNow : Z) (plan : Plan) :
  (v_status (DelegationRoute.planView dateNow plan) = Active
   <-> dateNow / 1000 < p_expiresAt plan)
  /\ (v_status (DelegationRoute.planView dateNow plan) = Expired
      <-> p_expiresAt plan <= dateNow / 1000).
Proof.
  unfold DelegationRoute.planView. cbn [v_status].
  destruct (Z.gtb_spec (p_expiresAt plan - dateNow / 1000) 0);
    repeat split; intros; try discriminate; try lia.
Qed.

Lemma delegationView_status (dateNow : Z) (plan : Plan) :
  (v_status (WalletRoute.delegationView dateNow plan) = Active
   <-> dateNow / 1000 < p_expiresAt plan)
  /\ (v_status (WalletRoute.delegationView dateNow plan) = Expired
      <-> p_expiresAt plan <= dateNow / 1000).
Proof.
  unfold WalletRoute.delegationView. cbn [v_status].
  destruct (Z.gtb_spec (p_expiresAt plan - dateNow / 1000) 0);
    repeat split; intros; try discriminate; try lia.
Qed.

Lemma memoryView_status (now : Z) (d : Delegation) :
  (v_status (DelegationRoute.memoryView now d) = Active
   <-> now < d_expiresAt d)
  /\ (v_status (DelegationRoute.memoryView now d) = Expired
      <-> d_expiresAt d <= now).
Proof.
  unfold DelegationRoute.memoryView. cbn [v_status].
  destruct (Z.gtb_spec (d_expiresAt d - now) 0);
    repeat split; intros; try discriminate; try lia.
Qed.

Lemma In_mapPlans (dateNow : nat -> Z) (plans : list Plan) :
  forall (k : nat) (v : View),
    In v (DelegationRoute.mapPlans dateNow k plans) ->
    exists i plan,
      nth_error plans i = Some plan
      /\ v = DelegationRoute.planView (dateNow (k + i)%nat) plan.
Proof.
  induction plans as [| plan rest IH]; intros k v Hin; [destruct Hin |].
  destruct Hin as [<- | Hin].
  - exists 0%nat, plan. now rewrite Nat.add_0_r.
  - destruct (IH (S k) v Hin) as (i & p & Hnth & ->).
    exists (S i), p. split; [exact Hnth |].
    now rewrite Nat.add_succ_r.
Qed.

Lemma In_scanMemory (userAddress : string) (now : Z) (db : JS.Map Delegation) :
  forall v,
    In v (DelegationRoute.scanMemory userAddress now db) ->
    exists key d,
      In (key, d) db
      /\ JS.startsWith key userAddress = true
      /\ d_isActive d = true
      /\ v = DelegationRoute.memoryView now d.
Proof.
  induction db as [| [key d] rest IH]; intros v Hin; [destruct Hin |].
  cbn [DelegationRoute.scanMemory] in Hin. apply in_app_or in Hin.
  destruct Hin as [Hin | Hin].
  - destruct (JS.startsWith key userAddress) eqn:Hkey;
      destruct (d_isActive d) eqn:Hactive; cbn in Hin;
      try contradiction.
    destruct Hin as [<- | []]. exists key, d. cbn. auto.
  - destruct (IH v Hin) as (key' & d' & Hin' & Hrest).
    exists key', d'. split; [right; exact Hin' | exact Hrest].
Qed.

(** C6, as stated, fails: a remote entry flagged inactive whose expiry is
    still ahead is listed with status Active. *)
Lemma C6_counterexample :
  let contract :=
    Some (DelegationExamples.liveContract [DelegationExamples.inactivePlan]) in
  let response :=
    fst (fst (DelegationRoute.get addressShape contract
                (DelegationExamples.clockAt 1000500)
                DelegationExamples.alice [])) in
  p_isActive DelegationExamples.inactivePlan = false
  /\ 1000500 / 1000 < p_expiresAt DelegationExamples.inactivePlan
  /\ map v_status (DelegationRoute.l_delegations response) = [Active]
  /\ map v_isActive (DelegationRoute.l_delegations response) = [Some false].
Proof. vm_compute. repeat split; reflexivity. Qed.

(** C6 (amended). Listing at any time leaves the in-memory map as it is and
    performs no write.  The status of every listed delegation is derived at
    read time from the clock: Active exactly when the current second is
    strictly before [expiresAt], Expired otherwise.  An entry of the
    in-memory map is listed only while its [isActive] holds, so for it
    Active means [isActive] and now < [expiresAt]; for a remote entry the
    [isActive] flag is not consulted. *)
Theorem C6_status_derived_at_read_time
  (isAddress : string -> bool) (c : option SmartGuardContract)
  (dateNow : nat -> Z) (userAddress : string) (db : JS.Map Delegation) :
  isAddress userAddress = true ->
  let result := DelegationRoute.get isAddress c dateNow userAddress db in
  snd (fst result) = db
  /\ (forall e, In e (snd result) ->
                isLocalWrite e = false /\ isRemoteWrite e = false)
  /\ (forall v,
        In v (DelegationRoute.l_delegations (fst (fst result))) ->
        (exists plans i plan,
            remoteRead c userAddress = Ok plans
            /\ nth_error plans i = Some plan
            /\ v = DelegationRoute.planView (dateNow i) plan
            /\ (v_status v = Active <-> dateNow i / 1000 < p_expiresAt plan)
            /\ (v_status v = Expired <-> p_expiresAt plan <= dateNow i / 1000))
        \/ (exists i key d,
               In (key, d) db
               /\ d_isActive d = true
               /\ v = DelegationRoute.memoryView (dateNow i / 1000) d
               /\ (v_status v = Active
                   <-> d_isActive d = true /\ dateNow i / 1000 < d_expiresAt d)
               /\ (v_status v = Expired
                   <-> ~ (d_isActive d = true
                          /\ dateNow i / 1000 < d_expiresAt d))))
  /\ (forall now plan,
        v_status (WalletRoute.delegationView now plan) = Active
        <-> now / 1000 < p_expiresAt plan).
Proof.
  intros Hvalid result.
  destruct (get_valid isAddress c dateNow userAddress db Hvalid)
    as (_ & Hlist & _ & Hdb & Hlog).
  fold result in Hlist, Hdb, Hlog.
  split; [exact Hdb |]. split; [| split].
  - intros e Hin. rewrite Hlog in Hin.
    destruct c; cbn in Hin; [| contradiction].
    destruct Hin as [<- | []]. split; reflexivity.
  - intros v Hin. rewrite Hlist in Hin.
    destruct (remoteViews c dateNow userAddress) as [| v0 remote] eqn:Hremote.
    + right. apply In_scanMemory in Hin.
      destruct Hin as (key & d & Hin & _ & Hactive & ->).
      destruct (memoryView_status
                  (dateNow (remoteReads c userAddress) / 1000) d)
        as (Hact & Hexp).
      exists (remoteReads c userAddress), key, d.
      repeat split; try assumption; try tauto.
      * rewrite Hexp. lia.
      * rewrite Hexp. intros Hn. destruct (Hact) as (_ & Hback).
        destruct (Z.le_gt_cases (d_expiresAt d)
                    (dateNow (remoteReads c userAddress) / 1000));
          [assumption | tauto].
    + left. rewrite <- Hremote in Hin. unfold remoteViews in Hin.
      destruct (remoteRead c userAddress) as [plans | m] eqn:Hread;
        [| destruct Hin].
      apply filter_In in Hin. destruct Hin as (Hin & _).
      apply In_mapPlans in Hin. destruct Hin as (i & plan & Hnth & ->).
      cbn [Nat.add]. exists plans, i, plan.
      destruct (planView_status (dateNow i) plan).
      repeat split; try assumption; tauto.
  - intros now plan. apply delegationView_status.
Qed.

(** A stored one-hour delegation is listed Active at
    second 1000 and Expired at second 4600, from the same map. *)
Lemma C6_status_derived_at_read_time_witness :
  let listAt (ms : Z) :=
    DelegationRoute.get addressShape (Some DelegationExamples.downContract)
      (DelegationExamples.clockAt ms) DelegationExamples.alice
      DelegationExamples.oneHourDB in
  addressShape DelegationExamples.alice = true
  /\ snd (fst (listAt 1000500)) = DelegationExamples.oneHourDB
  /\ map v_status (DelegationRoute.l_delegations (fst (fst (listAt 1000500))))
     = [Active]
  /\ map v_status (DelegationRoute.l_delegations (fst (fst (listAt 4600000))))
     = [Expired]
  /\ d_isActive DelegationExamples.oneHour = true.
Proof.
  intros listAt. split; [reflexivity |].
  destruct (C6_status_derived_at_read_time addressShape
              (Some DelegationExamples.downContract)
              (DelegationExamples.clockAt 1000500) DelegationExamples.alice
              DelegationExamples.oneHourDB eq_refl) as (Hdb & _).
  split; [exact Hdb |]. repeat split.
Defined.

(* ===================================================================== *)
(** ** Further properties of the risk engine *)

Import TxTerms.

Lemma scoreWallet_fields
  (isAddress : string -> bool) (parseFloatEther : Z -> Q)
  (provider : Provider) (address : string) (random : nat -> Q)
  (w : WalletRisk) :
  scoreWallet isAddress parseFloatEther provider address random = Ok w ->
  w_riskLevel w = getRiskLevel (w_riskScore w)
  /\ w_recommendations w
     = generateRecommendations (w_riskScore w) (w_factors w).
Proof.
  wallet_reads isAddress provider address random;
    try generalize (analyzeContractCode code) (analyzeCodeComplexity code);
    intros;
    repeat match goal with
           | H : context [if ?c then _ else _] |- _ => destruct c
           end;
    match goal with
    | H : rethrow _ _ = Ok _ |- _ =>
        cbn [rethrow bind] in H; first [discriminate H | injection H as <-]
    end; split; reflexivity.
Qed.

Lemma balanceTerm_bounds (balanceEth : Q) :
  0 <= fst (balanceTerm balanceEth) <= 15.
Proof. unfold balanceTerm. split_tests; cbn; lia. Qed.

Lemma historyTerm_bounds (txCount : Z) :
  0 <= fst (historyTerm txCount) <= 20.
Proof. unfold historyTerm. split_tests; cbn; lia. Qed.

Lemma contractTerm_bounds (isContract : bool) :
  -10 <= fst (contractTerm isContract) <= 0.
Proof. unfold contractTerm. destruct isContract; cbn; lia. Qed.

Lemma codeTerm_bounds (isContract : bool) (code : string) :
  0 <= fst (codeTerm isContract code) <= 55.
Proof.
  unfold codeTerm. pose proof (analyzeContractCode_score_range code).
  split_tests; cbn [fst]; lia.
Qed.

Lemma riskyLoop_length (contracts : list string) (random : nat -> Q) :
  forall i,
    (List.length (riskyLoop contracts random i) <= List.length contracts)%nat.
Proof.
  induction contracts as [| c rest IH]; intros i; cbn [riskyLoop];
    [apply Nat.le_refl |].
  rewrite length_app. specialize (IH (S i)).
  destruct (JS.Qltb (random i) JS.double_0_1); cbn [List.length]; lia.
Qed.

Lemma riskyLoop_incl (contracts : list string) (random : nat -> Q) :
  forall i, incl (riskyLoop contracts random i) contracts.
Proof.
  induction contracts as [| c rest IH]; intros i x Hin; cbn [riskyLoop] in Hin;
    [exact Hin |].
  apply in_app_or in Hin. destruct Hin as [Hin | Hin].
  - destruct (JS.Qltb (random i) JS.double_0_1); cbn in Hin;
      [destruct Hin as [<- | []]; now left | contradiction].
  - right. exact (IH (S i) x Hin).
Qed.

Lemma riskyLoop_NoDup (contracts : list string) (random : nat -> Q) :
  NoDup contracts -> forall i, NoDup (riskyLoop contracts random i).
Proof.
  induction contracts as [| c rest IH]; intros Hnd i; cbn [riskyLoop];
    [constructor |].
  inversion Hnd as [| ? ? Hnotin Hrest]; subst.
  destruct (JS.Qltb (random i) JS.double_0_1); cbn [app]; [| now apply IH].
  constructor; [| now apply IH].
  intros Hin. apply Hnotin. exact (riskyLoop_incl rest random (S i) c Hin).
Qed.

Lemma interactionTerm_bounds (address : string) (random : nat -> Q) :
  0 <= fst (interactionTerm (checkRiskyInteractions address random)) <= 45.
Proof.
  unfold interactionTerm, checkRiskyInteractions.
  pose proof (riskyLoop_length KNOWN_RISKY_CONTRACTS random 0) as Hlen.
  cbn [KNOWN_RISKY_CONTRACTS List.length] in Hlen.
  destruct (Z.gtb_spec
              (Z.of_nat (List.length (riskyLoop KNOWN_RISKY_CONTRACTS random 0)))
              0); cbn [fst]; lia.
Qed.

(** X1. A wallet assessment never has level Low: the score is at least 40
    (the base 50 less the contract deduction), so the level is Medium or
    High. *)
Theorem X1_scoreWallet_never_low
  (isAddress : string -> bool) (parseFloatEther : Z -> Q)
  (provider : Provider) (address : string) (random : nat -> Q)
  (balance txCount : Z) (code : string) :
  isAddress address = true ->
  getBalance provider address = Ok balance ->
  getTransactionCount provider address = Ok txCount ->
  getCode provider 1 address = Ok (Some code) ->
  exists w,
    scoreWallet isAddress parseFloatEther provider address random = Ok w
    /\ 40 <= w_riskScore w <= 100
    /\ (w_riskLevel w = Medium \/ w_riskLevel w = High)
    /\ (w_riskLevel w = High <-> 70 <= w_riskScore w).
Proof.
  intros Hvalid Hbal Htx Hcode.
  destruct (scoreWallet_decomposes isAddress parseFloatEther provider address
              random balance txCount code Hvalid Hbal Htx Hcode)
    as (w & Hw & _ & Hscore).
  destruct (scoreWallet_fields isAddress parseFloatEther provider address
              random w Hw) as (Hlevel & _).
  exists w. split; [exact Hw |].
  pose proof (balanceTerm_bounds (parseFloatEther balance)).
  pose proof (historyTerm_bounds txCount).
  pose proof (contractTerm_bounds (isContractAddress provider 0 address)).
  pose proof (codeTerm_bounds (isContractAddress provider 0 address) code).
  pose proof (interactionTerm_bounds address random).
  assert (Hrange : 40 <= w_riskScore w <= 100).
  { rewrite Hscore. unfold JS.clamp100. lia. }
  split; [exact Hrange |]. rewrite Hlevel. unfold getRiskLevel.
  destruct (Z.geb_spec (w_riskScore w) 70);
    destruct (Z.geb_spec (w_riskScore w) 30);
    repeat split; intros; try discriminate; try lia; auto.
Qed.

(** A contract wallet with balance and history: 50 - 10 = 40, Medium. *)
Lemma X1_scoreWallet_never_low_witness :
  let provider := Examples.chain Examples.twoEther 7 "0x6080" in
  addressShape Examples.plainAddress = true
  /\ exists w,
       scoreWallet addressShape exactEther provider Examples.plainAddress
         Examples.noneRisky = Ok w
       /\ w_riskScore w = 40 /\ w_riskLevel w = Medium.
Proof.
  intros provider. split; [reflexivity |].
  destruct (X1_scoreWallet_never_low addressShape exactEther provider
              Examples.plainAddress Examples.noneRisky Examples.twoEther 7
              "0x6080" eq_refl eq_refl eq_refl eq_refl)
    as (w & Hw & _ & _ & _).
  exists w. split; [exact Hw |].
  vm_compute in Hw. injection Hw as <-. split; reflexivity.
Defined.

(** X2. The risky interactions reported for a wallet are drawn from
    [KNOWN_RISKY_CONTRACTS] only, without repetition, at most three; the
    i-th listed contract is reported exactly when the i-th draw of
    [Math.random()] is below 0.1, whatever the wallet address. *)
Theorem X2_checkRiskyInteractions_from_list
  (address : string) (random : nat -> Q) :
  incl (checkRiskyInteractions address random) KNOWN_RISKY_CONTRACTS
  /\ NoDup (checkRiskyInteractions address random)
  /\ (List.length (checkRiskyInteractions address random) <= 3)%nat
  /\ (forall i c,
        nth_error KNOWN_RISKY_CONTRACTS i = Some c ->
        (In c (checkRiskyInteractions address random)
         <-> JS.Qltb (random i) JS.double_0_1 = true)).
Proof.
  unfold checkRiskyInteractions. repeat apply conj.
  - apply riskyLoop_incl.
  - apply riskyLoop_NoDup. unfold KNOWN_RISKY_CONTRACTS.
    repeat constructor; cbn; intuition discriminate.
  - apply (riskyLoop_length KNOWN_RISKY_CONTRACTS random 0).
  - intros i c Hnth. unfold KNOWN_RISKY_CONTRACTS in *. cbn [riskyLoop].
    destruct i as [| [| [| i]]]; cbn in Hnth;
      [injection Hnth as <- | injection Hnth as <- | injection Hnth as <-
      | destruct i; discriminate];
      destruct (JS.Qltb (random 0%nat) JS.double_0_1),
        (JS.Qltb (random 1%nat) JS.double_0_1),
        (JS.Qltb (random 2%nat) JS.double_0_1);
      cbn; intuition discriminate.
Qed.

Lemma generateRecommendations_shape (score : Z) (factors : list string) :
  generateRecommendations score factors
  = recommendationLadder score
    ++ (if JS.arrayIncludes factors "No transaction history"
        then ["Consider making a test transaction first"] else [])
    ++ (if JS.arrayIncludes factors "High balance"
        then ["Diversify assets across multiple wallets"] else [])
  /\ List.length (recommendationLadder score) = 3%nat
  /\ ~ In "Consider making a test transaction first"
         (recommendationLadder score)
  /\ ~ In "Diversify assets across multiple wallets"
         (recommendationLadder score).
Proof.
  unfold recommendationLadder, generateRecommendations. cbn [JS.arrayIncludes existsb].
  destruct (score >=? 70), (score >=? 30),
    (JS.arrayIncludes factors "No transaction history"),
    (JS.arrayIncludes factors "High balance");
    cbn; repeat split; intuition discriminate.
Qed.

(** X3. The recommendations of a wallet assessment are the three entries of
    the ladder of its score, followed by the test-transaction advice exactly
    when the wallet has no transaction, followed by the diversification
    advice exactly when the balance is above 10 (and not zero): between
    three and five entries. *)
Theorem X3_wallet_recommendations
  (isAddress : string -> bool) (parseFloatEther : Z -> Q)
  (provider : Provider) (address : string) (random : nat -> Q)
  (balance txCount : Z) (code : string) :
  isAddress address = true ->
  getBalance provider address = Ok balance ->
  getTransactionCount provider address = Ok txCount ->
  getCode provider 1 address = Ok (Some code) ->
  exists w,
    scoreWallet isAddress parseFloatEther provider address random = Ok w
    /\ firstn 3 (w_recommendations w) = recommendationLadder (w_riskScore w)
    /\ (3 <= List.length (w_recommendations w) <= 5)%nat
    /\ (In "Consider making a test transaction first" (w_recommendations w)
        <-> txCount = 0)
    /\ (In "Diversify assets across multiple wallets" (w_recommendations w)
        <-> Qeq_bool (parseFloatEther balance) 0 = false
            /\ JS.Qltb 10 (parseFloatEther balance) = true).
Proof.
  intros Hvalid Hbal Htx Hcode.
  destruct (scoreWallet_decomposes isAddress parseFloatEther provider address
              random balance txCount code Hvalid Hbal Htx Hcode)
    as (w & Hw & Hfactors & _).
  destruct (scoreWallet_fields isAddress parseFloatEther provider address
              random w Hw) as (_ & Hrecs).
  exists w. split; [exact Hw |].
  destruct (generateRecommendations_shape (w_riskScore w) (w_factors w))
    as (Hshape & Hlen & Hno1 & Hno2).
  rewrite Hrecs, Hshape. clear Hrecs Hshape.
  rewrite Hfactors.
  rewrite !wallet_factors_pair by (unfold pairFactor; tauto).
  revert Hlen Hno1 Hno2.
  generalize (recommendationLadder (w_riskScore w)). intros ladder Hlen Hno1 Hno2.
  destruct ladder as [| r1 [| r2 [| r3 [| r4 ladder]]]]; try discriminate Hlen.
  unfold balanceTerm, historyTerm.
  destruct (Qeq_bool (parseFloatEther balance) 0),
    (JS.Qltb 10 (parseFloatEther balance));
    destruct (Z.eqb_spec txCount 0); destruct (txCount <? 3);
    cbn in *; repeat split; try lia; intuition (try discriminate; try lia).
Qed.

Lemma X3_wallet_recommendations_witness :
  let provider := Examples.chain Examples.twentyEther 0 "0x6080" in
  addressShape Examples.plainAddress = true
  /\ exists w,
       scoreWallet addressShape exactEther provider Examples.plainAddress
         Examples.noneRisky = Ok w
       /\ List.length (w_recommendations w) = 5%nat.
Proof.
  intros provider. split; [reflexivity |].
  destruct (X3_wallet_recommendations addressShape exactEther provider
              Examples.plainAddress Examples.noneRisky Examples.twentyEther 0
              "0x6080" eq_refl eq_refl eq_refl eq_refl) as (w & Hw & _).
  exists w. split; [exact Hw |].
  vm_compute in Hw. injection Hw as <-. reflexivity.
Defined.

(** Case analysis on every pair that a [let '(_, _) := _] takes apart. *)
Ltac split_pairs :=
  repeat match goal with
         | |- context [match ?e with pair _ _ => _ end] => destruct e
         end.

Lemma analyzeTransaction_fields
  (isAddress : string -> bool) (parseFloatEther : Z -> Q)
  (provider : Provider) (txData : TxData) (t : TxRisk) :
  analyzeTransaction isAddress parseFloatEther provider txData = Ok t ->
  t_riskLevel t = getRiskLevel (t_riskScore t)
  /\ t_shouldProceed t = (t_riskScore t <? 70)
  /\ List.length (t_recommendations t)
     = (if t_riskScore t >=? 70 then 3 else 2)%nat
  /\ ta_isContractInteraction (t_analysis t)
     = isContractAddress provider 0 (tx_to txData).
Proof.
  unfold analyzeTransaction. split_pairs.
  match goal with
  | |- rethrow _ (bind ?e _) = _ -> _ => destruct e as [interaction | m]
  end; [| discriminate].
  cbn [bind]. split_pairs. intros H. injection H as <-.
  cbn [t_riskLevel t_riskScore t_shouldProceed t_recommendations
       t_analysis ta_isContractInteraction].
  repeat split.
  match goal with
  | |- context [if ?c then _ else _] => destruct c; reflexivity
  end.
Qed.

(** X4. In every transaction analysis [shouldProceed] is false exactly when
    the level is High, that is when the score is at least 70; the cautious
    list of three recommendations is given in that case and the list of two
    otherwise. *)
Theorem X4_shouldProceed_iff_not_high
  (isAddress : string -> bool) (parseFloatEther : Z -> Q)
  (provider : Provider) (txData : TxData) (t : TxRisk) :
  analyzeTransaction isAddress parseFloatEther provider txData = Ok t ->
  (t_shouldProceed t = false <-> t_riskLevel t = High)
  /\ (t_shouldProceed t = false <-> 70 <= t_riskScore t)
  /\ (List.length (t_recommendations t) = 3%nat <-> t_shouldProceed t = false)
  /\ (List.length (t_recommendations t) = 2%nat <-> t_shouldProceed t = true).
Proof.
  intros Ht.
  destruct (analyzeTransaction_fields isAddress parseFloatEther provider
              txData t Ht) as (Hlevel & Hproceed & Hrecs & _).
  rewrite Hlevel, Hproceed, Hrecs. unfold getRiskLevel.
  destruct (Z.geb_spec (t_riskScore t) 70);
    destruct (Z.geb_spec (t_riskScore t) 30);
    destruct (Z.ltb_spec (t_riskScore t) 70);
    repeat split; intros; try discriminate; try lia; auto.
Qed.

Lemma X4_shouldProceed_iff_not_high_witness :
  let provider := Examples.chain 0 0 "0x6080" in
  let tx := {| tx_from := None; tx_to := Examples.deadAddress;
               tx_value := Some Examples.twoEther;
               tx_data := Some "0xabcd" |} in
  exists t,
    analyzeTransaction addressShape exactEther provider tx = Ok t
    /\ t_riskScore t = 95
    /\ t_shouldProceed t = false /\ t_riskLevel t = High.
Proof.
  intros provider tx. eexists. split; [vm_compute; reflexivity |].
  split; [reflexivity |].
  pose proof (X4_shouldProceed_iff_not_high addressShape exactEther provider
                tx _ eq_refl) as (_ & Hscore & _).
  split; [| reflexivity]. apply Hscore. vm_compute. discriminate.
Defined.

Lemma valueTerm_bounds (parseFloatEther : Z -> Q) (value : option Z) :
  0 <= valueTerm parseFloatEther value <= 20.
Proof. unfold valueTerm. split_tests; lia. Qed.

Lemma dataTerm_bounds (data : option string) : 0 <= dataTerm data <= 15.
Proof. unfold dataTerm. split_tests; lia. Qed.

(** X5. A transaction for whose recipient the contract test fails (its
    code cannot be read) is scored on value and calldata alone: the score
    is their sum, at most 35, the level is never High and [shouldProceed] is
    true; the contract is not scored. *)
Theorem X5_transaction_to_plain_address
  (isAddress : string -> bool) (parseFloatEther : Z -> Q)
  (provider : Provider) (from : option string) (to : string)
  (value : option Z) (data : option string) :
  isContractAddress provider 0 to = false ->
  exists t,
    analyzeTransaction isAddress parseFloatEther provider
      {| tx_from := from; tx_to := to; tx_value := value; tx_data := data |}
    = Ok t
    /\ t_riskScore t = valueTerm parseFloatEther value + dataTerm data
    /\ t_riskScore t <= 35
    /\ t_riskLevel t <> High
    /\ t_shouldProceed t = true
    /\ ta_contractRisk (t_analysis t) = None.
Proof.
  intros Hplain.
  pose proof (valueTerm_bounds parseFloatEther value) as Hv.
  pose proof (dataTerm_bounds data) as Hd.
  assert (Hexists :
    exists t,
      analyzeTransaction isAddress parseFloatEther provider
        {| tx_from := from; tx_to := to; tx_value := value; tx_data := data |}
      = Ok t
      /\ t_riskScore t
         = JS.clamp100 (valueTerm parseFloatEther value + dataTerm data)
      /\ ta_contractRisk (t_analysis t) = None).
  { unfold analyzeTransaction, valueTerm, dataTerm.
    cbn [tx_to tx_value tx_data]. rewrite Hplain. cbn [bind].
    split_tests; (eexists; split; [reflexivity |]);
      cbn [t_riskScore t_analysis ta_contractRisk]; split; reflexivity. }
  destruct Hexists as (t & Ht & Hscore & Hnone).
  destruct (analyzeTransaction_fields isAddress parseFloatEther provider _ t Ht)
    as (Hlevel & Hproceed & _).
  rewrite clamp100_id in Hscore by lia.
  exists t. split; [exact Ht |]. split; [exact Hscore |].
  split; [lia |]. rewrite Hlevel, Hproceed. unfold getRiskLevel.
  destruct (Z.geb_spec (t_riskScore t) 70); [lia |].
  destruct (Z.ltb_spec (t_riskScore t) 70); [| lia].
  repeat split; try assumption. destruct (t_riskScore t >=? 30); discriminate.
Qed.

Lemma X5_transaction_to_plain_address_witness :
  let provider := Examples.droppedFirst 0 0 "0x6080" in
  isContractAddress provider 0 Examples.plainAddress = false
  /\ exists t,
       analyzeTransaction addressShape exactEther provider
         {| tx_from := None; tx_to := Examples.plainAddress;
            tx_value := Some Examples.twoEther; tx_data := Some "0x" |}
       = Ok t
       /\ t_riskScore t = 20 /\ t_riskLevel t = Low.
Proof.
  intros provider. split; [reflexivity |].
  destruct (X5_transaction_to_plain_address addressShape exactEther provider
              None Examples.plainAddress (Some Examples.twoEther) (Some "0x")
              eq_refl) as (t & Ht & _).
  exists t. split; [exact Ht |].
  vm_compute in Ht. injection Ht as <-. split; reflexivity.
Defined.

(** X6. A transaction to a recipient that passes the contract test scores
    the value term, 15 for the contract, the excess over 50 of the score
    that [scoreContract] returns for the recipient, and the calldata term,
    clamped to 100; the contract's assessment is carried in the analysis,
    and when [scoreContract] throws, so does the analysis.  [scoreContract]
    reads the recipient's code again, twice.  When these reads return
    bytecode that is not empty, the excess is that of the contract's
    computed score: sent without value and calldata to a contract of the
    known-risky list the transaction scores 65 and [shouldProceed] stays
    true.  When the read of [scoreContract]'s own contract test fails, the
    contract is scored 0 and adds nothing to the 15. *)
Theorem X6_transaction_to_contract
  (isAddress : string -> bool) (parseFloatEther : Z -> Q)
  (provider : Provider) (from : option string) (to : string)
  (value : option Z) (data : option string) :
  isContractAddress provider 0 to = true ->
  let tx :=
    {| tx_from := from; tx_to := to; tx_value := value; tx_data := data |} in
  (forall c,
      scoreContract isAddress provider 1 to = Ok c ->
      exists t,
        analyzeTransaction isAddress parseFloatEther provider tx = Ok t
        /\ t_riskScore t
           = JS.clamp100
               (valueTerm parseFloatEther value + 15
                + Z.max 0 (c_score c - 50) + dataTerm data)
        /\ 15 <= t_riskScore t
        /\ ta_contractRisk (t_analysis t) = Some c)
  /\ (forall m,
        scoreContract isAddress provider 1 to = Err m ->
        analyzeTransaction isAddress parseFloatEther provider tx
        = Err ("Failed to analyze transaction: " ++ m)%string)
  /\ (forall code,
        isAddress to = true ->
        getCode provider 1 to = Ok (Some code) ->
        code <> "0x" ->
        isContractAddress provider 2 to = true ->
        exists t,
          analyzeTransaction isAddress parseFloatEther provider tx = Ok t
          /\ t_riskScore t
             = JS.clamp100
                 (valueTerm parseFloatEther value + 15
                  + (contractScore to code - 50) + dataTerm data)
          /\ (JS.arrayIncludes KNOWN_RISKY_CONTRACTS (JS.toLowerCase to)
              = true ->
              value = None -> data = None ->
              t_riskScore t = 65 /\ t_shouldProceed t = true))
  /\ (forall code,
        isAddress to = true ->
        getCode provider 1 to = Ok code ->
        isContractAddress provider 2 to = false ->
        exists t,
          analyzeTransaction isAddress parseFloatEther provider tx = Ok t
          /\ t_riskScore t
             = valueTerm parseFloatEther value + 15 + dataTerm data
          /\ (exists c,
                ta_contractRisk (t_analysis t) = Some c
                /\ c_score c = 0 /\ c_riskLevel c = Unknown)).
Proof.
  intros Hto tx.
  pose proof (valueTerm_bounds parseFloatEther value) as Hv.
  pose proof (dataTerm_bounds data) as Hd.
  assert (Hcore :
    forall c,
      scoreContract isAddress provider 1 to = Ok c ->
      exists t,
        analyzeTransaction isAddress parseFloatEther provider tx = Ok t
        /\ t_riskScore t
           = JS.clamp100
               (valueTerm parseFloatEther value + 15
                + Z.max 0 (c_score c - 50) + dataTerm data)
        /\ ta_contractRisk (t_analysis t) = Some c).
  { intros c Hc. subst tx. unfold analyzeTransaction, valueTerm, dataTerm.
    cbn [tx_to tx_value tx_data]. rewrite Hto, Hc. cbn [bind].
    split_tests; (eexists; split; [reflexivity |]);
      cbn [t_riskScore t_analysis ta_contractRisk];
      (split; [f_equal; lia | reflexivity]). }
  split; [| split; [| split]].
  - intros c Hc. destruct (Hcore c Hc) as (t & Ht & Hscore & Hrisk).
    exists t. split; [exact Ht |]. split; [exact Hscore |].
    split; [rewrite Hscore; unfold JS.clamp100; lia | exact Hrisk].
  - intros m Hm. subst tx. unfold analyzeTransaction.
    cbn [tx_to tx_value tx_data]. rewrite Hto, Hm. cbn [bind].
    split_tests; reflexivity.
  - intros code Hvalid Hcode Hne Hcontract.
    destruct (scoreContract_code isAddress provider 1 to code
                Hvalid Hcode Hne Hcontract) as (c & Hc & Hscore & _).
    pose proof (contractScore_range to code) as Hrange.
    destruct (Hcore c Hc) as (t & Ht & Htscore & _).
    destruct (analyzeTransaction_fields isAddress parseFloatEther provider
                _ t Ht) as (_ & Hproceed & _).
    rewrite Hscore in Htscore.
    replace (Z.max 0 (contractScore to code - 50))
      with (contractScore to code - 50) in Htscore by lia.
    exists t. split; [exact Ht |]. split; [exact Htscore |].
    intros Hrisky -> ->. rewrite Hproceed, Htscore.
    unfold contractScore. rewrite Hrisky. split; reflexivity.
  - intros code Hvalid Hcode Hcontract.
    pose proof (scoreContract_guard isAddress provider 1 to code
                  Hvalid Hcode (or_introl Hcontract)) as Hc.
    destruct (Hcore _ Hc) as (t & Ht & Htscore & Hrisk).
    cbn [c_score] in Htscore.
    exists t. split; [exact Ht |].
    split; [rewrite Htscore; unfold JS.clamp100; lia |].
    eexists. split; [exact Hrisk |]. split; reflexivity.
Qed.

Lemma X6_transaction_to_contract_witness :
  let provider := Examples.chain 0 0 "0x6080" in
  isContractAddress provider 0 Examples.deadAddress = true
  /\ exists t,
       analyzeTransaction addressShape exactEther provider
         {| tx_from := None; tx_to := Examples.deadAddress;
            tx_value := None; tx_data := None |}
       = Ok t
       /\ t_riskScore t = 65 /\ t_shouldProceed t = true.
Proof.
  intros provider. split; [reflexivity |].
  destruct (X6_transaction_to_contract addressShape exactEther provider
              None Examples.deadAddress None None eq_refl)
    as (_ & _ & Hcode & _).
  destruct (Hcode "0x6080" eq_refl eq_refl) as (t & Ht & _ & Hrisky);
    [discriminate | reflexivity |].
  exists t. split; [exact Ht |]. apply Hrisky; reflexivity.
Defined.

(** X7. The code analysis reports as potential risks exactly its factors,
    at most three of them; its score is 0 exactly when no factor fired and
    never exceeds 55; the factor "Large contract code" (more than 10000
    characters), when present, comes first and implies [hasComplexLogic]. *)
Theorem X7_analyzeContractCode_factors (code : string) :
  let analysis := analyzeContractCode code in
  ca_potentialRisks analysis = ca_factors analysis
  /\ (List.length (ca_factors analysis) <= 3)%nat
  /\ 0 <= ca_score analysis <= 55
  /\ (ca_score analysis = 0 <-> ca_factors analysis = [])
  /\ (In "Large contract code" (ca_factors analysis)
      <-> JS.length code > 10000)
  /\ (In "Large contract code" (ca_factors analysis) ->
      hd_error (ca_factors analysis) = Some "Large contract code"
      /\ ca_hasComplexLogic analysis = true)
  /\ (In "Uses delegatecall - potential proxy risk" (ca_factors analysis)
      <-> JS.includes code "delegatecall" = true)
  /\ (In "Contains selfdestruct function" (ca_factors analysis)
      <-> JS.includes code "selfdestruct" = true).
Proof.
  intros analysis. subst analysis. unfold analyzeContractCode.
  destruct (Z.gtb_spec (JS.length code) 10000);
    destruct (Z.gtb_spec (JS.length code) 5000);
    destruct (JS.includes code "delegatecall"),
      (JS.includes code "selfdestruct");
    cbn; repeat split; intros; try lia; try discriminate;
    intuition (try discriminate; try lia).
Qed.

(** X8. The two complexity readings of a bytecode agree except at length
    exactly 5000: [analyzeCodeComplexity] says "High" from 5000 characters
    on, while [hasComplexLogic] of the code analysis needs more than 5000. *)
Theorem X8_complexity_readings (code : string) :
  (analyzeCodeComplexity code = "High" <-> 5000 <= JS.length code)
  /\ (analyzeCodeComplexity code = "Low" <-> JS.length code < 1000)
  /\ (ca_hasComplexLogic (analyzeContractCode code) = true ->
      analyzeCodeComplexity code = "High")
  /\ (analyzeCodeComplexity code = "High"
      /\ ca_hasComplexLogic (analyzeContractCode code) = false
      <-> JS.length code = 5000).
Proof.
  unfold analyzeCodeComplexity, analyzeContractCode.
  destruct (Z.ltb_spec (JS.length code) 1000);
    destruct (Z.ltb_spec (JS.length code) 5000);
    destruct (Z.gtb_spec (JS.length code) 5000);
    destruct (JS.length code >? 10000),
      (JS.includes code "delegatecall"), (JS.includes code "selfdestruct");
    cbn [ca_hasComplexLogic]; repeat split; intros; try lia;
    try discriminate; try reflexivity; intuition (try discriminate; try lia).
Qed.

(** X9. The level of the engine grows with the score.  The [getRiskLevel]
    of [helpers.js], which reads [RISK_THRESHOLDS], never gives a higher
    level than the engine's for the same score, and the two agree exactly
    for scores below 30 and from 90 on. *)
Theorem X9_levels_monotone_and_compared (score score' : Z) :
  (score <= score' ->
   levelRank (getRiskLevel score) <= levelRank (getRiskLevel score'))
  /\ (score <= score' ->
      levelRank (Helpers.getRiskLevel score)
      <= levelRank (Helpers.getRiskLevel score'))
  /\ levelRank (Helpers.getRiskLevel score) <= levelRank (getRiskLevel score)
  /\ (Helpers.getRiskLevel score = getRiskLevel score
      <-> score < 30 \/ 90 <= score)
  /\ getRiskLevel score <> Unknown
  /\ Helpers.getRiskLevel score <> Unknown.
Proof.
  unfold getRiskLevel, Helpers.getRiskLevel.
  change Constants.RISK_THRESHOLDS.HIGH with 90.
  change Constants.RISK_THRESHOLDS.MEDIUM with 70.
  destruct (Z.geb_spec score 70), (Z.geb_spec score 30),
    (Z.geb_spec score 90), (Z.geb_spec score' 70), (Z.geb_spec score' 30),
    (Z.geb_spec score' 90);
    cbn [levelRank]; repeat split; intros; try lia; try discriminate;
    intuition (try discriminate; try lia).
Qed.

(* ===================================================================== *)
(** ** helpers.js *)

Lemma numberToString_not_Expired (z : Z) (suffix : string) :
  0 <= z -> (JS.numberToString z ++ suffix)%string <> "Expired".
Proof.
  intros Hz. unfold JS.numberToString.
  destruct z as [| p | p]; [cbn; discriminate | | lia].
  cbn [Z.to_int NilZero.string_of_int].
  unfold NilZero.string_of_uint.
  destruct (Pos.to_uint p); cbn; discriminate.
Qed.

(** X10. [timeUntil] answers "Expired" exactly when the timestamp is not
    after the current second.  Otherwise it prints whole days, hours and
    minutes that never exceed the remaining time and fall short of it by
    less than a minute: days and hours when a day or more remains, hours
    and minutes when an hour or more remains, minutes alone below that. *)
Theorem X10_timeUntil_truncates (timestamp dateNow : Z) :
  let now := dateNow / 1000 in
  let diff := timestamp - now in
  (HelperFunctions.timeUntil timestamp dateNow = "Expired"
   <-> timestamp <= now)
  /\ (now < timestamp ->
      exists days hours minutes,
        0 <= days /\ 0 <= hours < 24 /\ 0 <= minutes < 60
        /\ days * 86400 + hours * 3600 + minutes * 60 <= diff
           < days * 86400 + hours * 3600 + (minutes + 1) * 60
        /\ HelperFunctions.timeUntil timestamp dateNow
           = if 86400 <=? diff
             then (JS.numberToString days ++ "d "
                   ++ JS.numberToString hours ++ "h")%string
             else if 3600 <=? diff
             then (JS.numberToString hours ++ "h "
                   ++ JS.numberToString minutes ++ "m")%string
             else (JS.numberToString minutes ++ "m")%string).
Proof.
  intros now diff. unfold HelperFunctions.timeUntil. fold now. fold diff.
  change (24 * 60 * 60) with 86400. change (60 * 60) with 3600.
  assert (Hsplit : diff mod 86400 mod 3600 = diff mod 3600).
  { symmetry. rewrite (Z.div_mod diff 86400) at 1 by lia.
    replace (86400 * (diff / 86400) + diff mod 86400)
      with (diff mod 86400 + (24 * (diff / 86400)) * 3600) by lia.
    apply Z.mod_add. lia. }
  destruct (Z.leb_spec diff 0) as [Hle | Hgt].
  - split; [split; [lia | reflexivity] | lia].
  - pose proof (Z.div_mod diff 86400 ltac:(lia)) as Hd.
    pose proof (Z.mod_pos_bound diff 86400 ltac:(lia)) as Hdm.
    pose proof (Z.div_mod (diff mod 86400) 3600 ltac:(lia)) as Hh.
    pose proof (Z.mod_pos_bound (diff mod 86400) 3600 ltac:(lia)) as Hhm.
    pose proof (Z.div_mod (diff mod 3600) 60 ltac:(lia)) as Hm.
    pose proof (Z.mod_pos_bound (diff mod 3600) 60 ltac:(lia)) as Hmm.
    pose proof (Z.mod_pos_bound diff 3600 ltac:(lia)) as Hm3.
    assert (0 <= diff / 86400) by (apply Z.div_pos; lia).
    assert (0 <= diff mod 86400 / 3600 < 24)
      by (split; [apply Z.div_pos; lia | apply Z.div_lt_upper_bound; lia]).
    assert (0 <= diff mod 3600 / 60 < 60)
      by (split; [apply Z.div_pos; lia | apply Z.div_lt_upper_bound; lia]).
    split.
    + split; [| lia]. intros Hexpired. exfalso. revert Hexpired.
      destruct (diff / 86400 >? 0); [| destruct (diff mod 86400 / 3600 >? 0)];
        apply numberToString_not_Expired; lia.
    + intros _.
      exists (diff / 86400), (diff mod 86400 / 3600), (diff mod 3600 / 60).
      repeat split; try lia.
      destruct (Z.gtb_spec (diff / 86400) 0) as [Hday | Hday];
        destruct (Z.leb_spec 86400 diff) as [Hbig | Hbig];
        try reflexivity; try (exfalso; nia).
      assert (Hsmall : diff mod 86400 = diff) by (apply Z.mod_small; lia).
      rewrite Hsmall in *.
      destruct (Z.gtb_spec (diff / 3600) 0) as [Hhour | Hhour];
        destruct (Z.leb_spec 3600 diff) as [Hb | Hb];
        try reflexivity; exfalso.
      * assert (diff / 3600 = 0) by (apply Z.div_small; lia). lia.
      * assert (0 < diff / 3600) by (apply Z.div_str_pos; lia). lia.
Qed.

Lemma X10_timeUntil_truncates_witness :
  HelperFunctions.timeUntil (1000 + 93784) 1000999 = "1d 2h"
  /\ HelperFunctions.timeUntil (1000 + 3784) 1000999 = "1h 3m"
  /\ HelperFunctions.timeUntil 1000 1000999 = "Expired".
Proof.
  split; [reflexivity |]. split; [reflexivity |].
  apply (X10_timeUntil_truncates 1000 1000999). vm_compute. discriminate.
Defined.

Lemma retryAsync_first_success {A : Type} (fn : nat -> Result A) (a : A) :
  forall (k call retries : nat) (delay : Z),
    (k <= retries)%nat ->
    (forall j, (j < k)%nat -> exists e, fn (call + j)%nat = Err e) ->
    fn (call + k)%nat = Ok a ->
    HelperFunctions.retryAsync fn call retries delay
    = (Ok a, HelperFunctions.backoff k delay).
Proof.
  induction k as [| k IH]; intros call retries delay Hle Hfail Hok.
  - rewrite Nat.add_0_r in Hok.
    destruct retries; cbn [HelperFunctions.retryAsync]; rewrite Hok;
      reflexivity.
  - destruct retries as [| retries]; [lia |].
    cbn [HelperFunctions.retryAsync HelperFunctions.backoff].
    destruct (Hfail 0%nat ltac:(lia)) as (e & He).
    rewrite Nat.add_0_r in He. rewrite He.
    rewrite (IH (S call) retries (delay * 2)); [reflexivity | lia | |].
    + intros j Hj. destruct (Hfail (S j) ltac:(lia)) as (e' & He').
      exists e'. now rewrite Nat.add_succ_comm.
    + now rewrite Nat.add_succ_comm.
Qed.

Lemma retryAsync_all_fail {A : Type} (fn : nat -> Result A) :
  forall (retries call : nat) (delay : Z),
    (forall j, (j <= retries)%nat -> exists e, fn (call + j)%nat = Err e) ->
    HelperFunctions.retryAsync fn call retries delay
    = (fn (call + retries)%nat, HelperFunctions.backoff retries delay).
Proof.
  induction retries as [| retries IH]; intros call delay Hfail.
  - destruct (Hfail 0%nat ltac:(lia)) as (e & He).
    cbn [HelperFunctions.retryAsync HelperFunctions.backoff].
    rewrite Nat.add_0_r in *. now rewrite He.
  - cbn [HelperFunctions.retryAsync HelperFunctions.backoff].
    destruct (Hfail 0%nat ltac:(lia)) as (e & He).
    rewrite Nat.add_0_r in He. rewrite He.
    rewrite (IH (S call) (delay * 2)).
    + now rewrite Nat.add_succ_comm.
    + intros j Hj. destruct (Hfail (S j) ltac:(lia)) as (e' & He').
      exists e'. now rewrite Nat.add_succ_comm.
Qed.

Lemma backoff_spec (n : nat) :
  forall delay,
    List.length (HelperFunctions.backoff n delay) = n
    /\ fold_right Z.add 0 (HelperFunctions.backoff n delay)
       = delay * (2 ^ Z.of_nat n - 1)
    /\ (forall i, (i < n)%nat ->
          nth_error (HelperFunctions.backoff n delay) i
          = Some (delay * 2 ^ Z.of_nat i)).
Proof.
  induction n as [| n IH]; intros delay.
  - cbn. repeat split; [lia | intros i Hi; lia].
  - destruct (IH (delay * 2)) as (Hlen & Hsum & Hnth).
    cbn [HelperFunctions.backoff List.length fold_right].
    repeat split.
    + now rewrite Hlen.
    + rewrite Hsum. rewrite Nat2Z.inj_succ, Z.pow_succ_r by lia. lia.
    + intros [| i] Hi; cbn [nth_error].
      * f_equal. cbn. lia.
      * rewrite Hnth by lia. f_equal.
        rewrite Nat2Z.inj_succ, Z.pow_succ_r by lia. lia.
Qed.

(** X11. [retryAsync] invokes the callback until it succeeds, at most
    [retries] + 1 times.  If the k-th invocation (k <= retries) is the first
    to succeed, its value is returned after k sleeps of [delay], 2 * [delay],
    4 * [delay], ..., in total [delay] * (2^k - 1).  If all [retries] + 1
    invocations fail, the error of the last one is thrown after [retries]
    sleeps. *)
Theorem X11_retryAsync_backoff {A : Type} (fn : nat -> Result A)
  (retries k : nat) (delay : Z) :
  (forall j, (j < k)%nat -> exists e, fn j = Err e) ->
  (k <= retries)%nat ->
  let outcome := HelperFunctions.retryAsync fn 0 retries delay in
  (forall a,
      fn k = Ok a ->
      fst outcome = Ok a
      /\ List.length (snd outcome) = k
      /\ fold_right Z.add 0 (snd outcome) = delay * (2 ^ Z.of_nat k - 1)
      /\ (forall i, (i < k)%nat ->
            nth_error (snd outcome) i = Some (delay * 2 ^ Z.of_nat i)))
  /\ (k = retries ->
      forall e,
        fn k = Err e ->
        fst outcome = Err e
        /\ List.length (snd outcome) = retries
        /\ fold_right Z.add 0 (snd outcome)
           = delay * (2 ^ Z.of_nat retries - 1)).
Proof.
  intros Hfail Hle outcome. subst outcome. split.
  - intros a Hok.
    rewrite (retryAsync_first_success fn a k 0 retries delay Hle Hfail Hok).
    cbn [fst snd]. split; [reflexivity | apply backoff_spec].
  - intros -> e Herr.
    rewrite (retryAsync_all_fail fn retries 0 delay).
    + cbn [fst snd Nat.add]. rewrite Herr.
      destruct (backoff_spec retries delay) as (Hlen & Hsum & _). auto.
    + intros j Hj. cbn [Nat.add].
      destruct (Nat.eq_dec j retries) as [-> | Hne]; [now exists e |].
      apply Hfail. lia.
Qed.

(** Two failures, then a success, with the defaults of the source (three
    retries, one second): sleeps of 1000 and 2000 milliseconds. *)
Lemma X11_retryAsync_backoff_witness :
  let fn := fun k : nat =>
    match k with
    | 0%nat | 1%nat => Err "timeout"
    | _ => Ok 7
    end in
  HelperFunctions.retryAsync fn 0 3 1000 = (Ok 7, [1000; 2000]).
Proof.
  intros fn.
  assert (Hfail : forall j, (j < 2)%nat -> exists e, fn j = Err e).
  { intros [| [| j]] Hj; [now exists "timeout" | now exists "timeout" | lia]. }
  destruct (X11_retryAsync_backoff fn 3 2 1000 Hfail ltac:(lia)) as (Hok & _).
  destruct (Hok 7 eq_refl) as (Hfst & _).
  reflexivity.
Defined.

(* ===================================================================== *)
(** ** Further properties of the delegation routes *)

Lemma prefix_append (s t : string) : String.prefix s (s ++ t) = true.
Proof.
  induction s as [| c s IH]; cbn; [now destruct t |].
  destruct (Ascii.ascii_dec c c); [exact IH | congruence].
Qed.

Lemma mapSet_In {V : Type} (m : JS.Map V) (k : string) (v : V) :
  In (k, v) (JS.mapSet m k v).
Proof.
  induction m as [| [k' v'] rest IH]; cbn; [now left |].
  destruct (k' =? k)%string; [now left | right; exact IH].
Qed.

Lemma mapGet_mapSet_other {V : Type} (m : JS.Map V) (k k' : string) (v : V) :
  k' <> k -> JS.mapGet (JS.mapSet m k v) k' = JS.mapGet m k'.
Proof.
  intros Hne. induction m as [| [k0 v0] rest IH]; cbn.
  - apply String.eqb_neq in Hne. rewrite String.eqb_sym. now rewrite Hne.
  - destruct (String.eqb_spec k0 k) as [-> | Hk0]; cbn.
    + apply String.eqb_neq in Hne. rewrite String.eqb_sym. now rewrite Hne.
    + destruct (k0 =? k')%string; [reflexivity | exact IH].
Qed.

Lemma mapSet_keys {V : Type} (m : JS.Map V) (k : string) (v : V) :
  map fst (JS.mapSet m k v)
  = if JS.mapHas m k then map fst m else map fst m ++ [k].
Proof.
  unfold JS.mapHas. induction m as [| [k' v'] rest IH]; cbn; [reflexivity |].
  destruct (String.eqb_spec k' k) as [-> | Hne]; cbn; [reflexivity |].
  rewrite IH. now destruct (JS.mapGet rest k).
Qed.

Lemma mapHas_In_keys {V : Type} (m : JS.Map V) (k : string) :
  JS.mapHas m k = true <-> In k (map fst m).
Proof.
  unfold JS.mapHas. induction m as [| [k' v'] rest IH]; cbn.
  - split; [discriminate | contradiction].
  - destruct (String.eqb_spec k' k) as [-> | Hne]; [tauto |].
    rewrite IH. tauto.
Qed.

Lemma mapSet_NoDup {V : Type} (m : JS.Map V) (k : string) (v : V) :
  NoDup (map fst m) -> NoDup (map fst (JS.mapSet m k v)).
Proof.
  intros Hnd. rewrite mapSet_keys.
  destruct (JS.mapHas m k) eqn:Hhas; [exact Hnd |].
  apply NoDup_app; [exact Hnd | repeat constructor; intros [] |].
  intros x Hin [<- | []].
  apply mapHas_In_keys in Hin. congruence.
Qed.

Lemma mapDelete_NoDup {V : Type} (m : JS.Map V) (k : string) :
  NoDup (map fst m) -> NoDup (map fst (JS.mapDelete m k)).
Proof.
  unfold JS.mapDelete. induction m as [| [k' v'] rest IH]; cbn; intros Hnd;
    [constructor |].
  inversion Hnd as [| ? ? Hnotin Hrest]; subst.
  destruct (k' =? k)%string; cbn; [now apply IH |].
  constructor; [| now apply IH].
  intros Hin. apply Hnotin. apply in_map_iff in Hin.
  destruct Hin as ([k0 v0] & Hfst & Hin). apply filter_In in Hin.
  apply in_map_iff. exists (k0, v0). tauto.
Qed.

Lemma scanMemory_complete (userAddress : string) (now : Z)
  (db : JS.Map Delegation) (key : string) (d : Delegation) :
  In (key, d) db ->
  JS.startsWith key userAddress = true ->
  d_isActive d = true ->
  In (DelegationRoute.memoryView now d)
    (DelegationRoute.scanMemory userAddress now db).
Proof.
  intros Hin Hkey Hactive. induction db as [| [key' d'] rest IH];
    [destruct Hin |].
  cbn [DelegationRoute.scanMemory]. apply in_or_app.
  destruct Hin as [Heq | Hin].
  - injection Heq as -> ->. left. rewrite Hkey, Hactive. now left.
  - right. exact (IH Hin).
Qed.

Lemma countStatus_total (l : list View) :
  countStatus Active l + countStatus Expired l = Z.of_nat (List.length l).
Proof.
  unfold countStatus. induction l as [| v rest IH]; [reflexivity |].
  cbn [filter List.length]. destruct (v_status v); cbn [List.length]; lia.
Qed.

Lemma add_post_store
  (smartGuardContract : option SmartGuardContract) (walletClient : bool)
  (waitForTransactionReceipt : string -> Result Z) (dateNow : nat -> Z)
  (userAddress contractAddress : string) (duration : Z)
  (description : option string) (db : JS.Map Delegation) :
  userAddress <> "" ->
  contractAddress <> "" ->
  snd (fst (DelegationRoute.post smartGuardContract walletClient
              waitForTransactionReceipt dateNow
              {| DelegationRoute.userAddress := Some userAddress;
                 DelegationRoute.contractAddress := Some contractAddress;
                 DelegationRoute.duration := duration;
                 DelegationRoute.description := description |} db))
  = JS.mapSet db (userAddress ++ "-" ++ contractAddress)%string
      {| d_userAddress := userAddress;
         d_contractAddress := contractAddress;
         d_expiresAt := dateNow 0%nat / 1000 + duration * 3600;
         d_description := JS.orElse description "No description";
         d_addedAt := dateNow 1%nat / 1000;
         d_isActive := true |}.
Proof.
  intros Huser Hcontract. unfold DelegationRoute.post.
  cbn [DelegationRoute.userAddress DelegationRoute.contractAddress
       DelegationRoute.duration DelegationRoute.description].
  rewrite (truthy_Some _ Huser), (truthy_Some _ Hcontract).
  reflexivity.
Qed.

(** X12. A delegation that has just been added is listed for the same user
    address whenever the remote read is unavailable, fails, or returns no
    delegation: the answer comes from memory and holds a view of the new
    record, Active exactly when the second of the listing is before its
    expiry. *)
Theorem X12_added_delegation_is_listed
  (isAddress : string -> bool)
  (addContract listContract : option SmartGuardContract) (walletClient : bool)
  (waitForTransactionReceipt : string -> Result Z)
  (addClock listClock : nat -> Z)
  (userAddress contractAddress : string) (duration : Z)
  (description : option string) (db : JS.Map Delegation) :
  isAddress userAddress = true ->
  userAddress <> "" ->
  contractAddress <> "" ->
  remoteViews listContract listClock userAddress = [] ->
  let added :=
    DelegationRoute.post addContract walletClient waitForTransactionReceipt
      addClock
      {| DelegationRoute.userAddress := Some userAddress;
         DelegationRoute.contractAddress := Some contractAddress;
         DelegationRoute.duration := duration;
         DelegationRoute.description := description |} db in
  let listed :=
    DelegationRoute.get isAddress listContract listClock userAddress
      (snd (fst added)) in
  let now := listClock (remoteReads listContract userAddress) / 1000 in
  let expiresAt := addClock 0%nat / 1000 + duration * 3600 in
  DelegationRoute.l_source (fst (fst listed)) = Some "memory"
  /\ exists v,
       In v (DelegationRoute.l_delegations (fst (fst listed)))
       /\ v_contractAddr v = contractAddress
       /\ v_expiresAt v = expiresAt
       /\ v_addedAt v = addClock 1%nat / 1000
       /\ v_description v = Some (JS.orElse description "No description")
       /\ (v_status v = Active <-> now < expiresAt)
       /\ (v_status v = Expired <-> expiresAt <= now).
Proof.
  intros Hvalid Huser Hcontract Hremote added listed now expiresAt.
  pose proof (add_post_store addContract walletClient
                waitForTransactionReceipt addClock userAddress contractAddress
                duration description db Huser Hcontract) as Hdb.
  fold added in Hdb.
  destruct (get_valid isAddress listContract listClock userAddress
              (snd (fst added)) Hvalid) as (_ & Hlist & Hsource & _).
  fold listed in Hlist, Hsource. rewrite Hremote in Hlist, Hsource.
  fold now in Hlist. split; [exact Hsource |].
  rewrite Hlist, Hdb.
  eexists. split.
  - eapply scanMemory_complete;
      [apply mapSet_In | apply prefix_append | reflexivity].
  - cbn [DelegationRoute.memoryView v_contractAddr v_expiresAt v_addedAt
         v_description d_contractAddress d_expiresAt d_addedAt d_description].
    repeat (split; [reflexivity |]).
    apply (memoryView_status now
             {| d_userAddress := userAddress;
                d_contractAddress := contractAddress;
                d_expiresAt := expiresAt;
                d_description := JS.orElse description "No description";
                d_addedAt := addClock 1%nat / 1000;
                d_isActive := true |}).
Qed.

(** Added at second 1000 for one hour with the remote contract down, then
    listed at second 2000. *)
Lemma X12_added_delegation_is_listed_witness :
  let added :=
    DelegationRoute.post (Some DelegationExamples.downContract) true
      DelegationExamples.confirmed (DelegationExamples.clockAt 1000500)
      {| DelegationRoute.userAddress := Some DelegationExamples.alice;
         DelegationRoute.contractAddress := Some DelegationExamples.vault;
         DelegationRoute.duration := 1;
         DelegationRoute.description := Some "test" |} [] in
  let listed :=
    DelegationRoute.get addressShape (Some DelegationExamples.downContract)
      (DelegationExamples.clockAt 2000000) DelegationExamples.alice
      (snd (fst added)) in
  addressShape DelegationExamples.alice = true
  /\ map v_contractAddr (DelegationRoute.l_delegations (fst (fst listed)))
     = [DelegationExamples.vault]
  /\ map v_status (DelegationRoute.l_delegations (fst (fst listed)))
     = [Active]
  /\ DelegationRoute.l_source (fst (fst listed)) = Some "memory".
Proof.
  intros added listed. split; [reflexivity |].
  destruct (X12_added_delegation_is_listed addressShape
              (Some DelegationExamples.downContract)
              (Some DelegationExamples.downContract) true
              DelegationExamples.confirmed
              (DelegationExamples.clockAt 1000500)
              (DelegationExamples.clockAt 2000000)
              DelegationExamples.alice DelegationExamples.vault 1
              (Some "test") [] eq_refl)
    as (Hsource & _); try discriminate; try reflexivity.
  split; [reflexivity |]. split; [reflexivity | exact Hsource].
Defined.

(** X13. Adding keeps one record per (user, contract) key: on a map with
    distinct keys the keys stay distinct, an existing key keeps its place
    and its record is replaced (the map does not grow), a new key is put at
    the end, and the record of every other key is left as it was. *)
Theorem X13_add_overwrites_per_key
  (smartGuardContract : option SmartGuardContract) (walletClient : bool)
  (waitForTransactionReceipt : string -> Result Z) (dateNow : nat -> Z)
  (userAddress contractAddress : string) (duration : Z)
  (description : option string) (db : JS.Map Delegation) :
  userAddress <> "" ->
  contractAddress <> "" ->
  NoDup (map fst db) ->
  let key := (userAddress ++ "-" ++ contractAddress)%string in
  let db' :=
    snd (fst (DelegationRoute.post smartGuardContract walletClient
                waitForTransactionReceipt dateNow
                {| DelegationRoute.userAddress := Some userAddress;
                   DelegationRoute.contractAddress := Some contractAddress;
                   DelegationRoute.duration := duration;
                   DelegationRoute.description := description |} db)) in
  NoDup (map fst db')
  /\ map fst db'
     = (if JS.mapHas db key then map fst db else map fst db ++ [key])
  /\ (exists record,
        JS.mapGet db' key = Some record
        /\ d_expiresAt record = dateNow 0%nat / 1000 + duration * 3600
        /\ d_isActive record = true)
  /\ (forall other, other <> key -> JS.mapGet db' other = JS.mapGet db other).
Proof.
  intros Huser Hcontract Hnd key db'. subst db'.
  rewrite (add_post_store smartGuardContract walletClient
             waitForTransactionReceipt dateNow userAddress contractAddress
             duration description db Huser Hcontract).
  fold key. split; [now apply mapSet_NoDup |].
  split; [apply mapSet_keys |]. split.
  - eexists. split; [apply mapGet_mapSet |]. split; reflexivity.
  - intros other Hother. now apply mapGet_mapSet_other.
Qed.

(** Adding a second delegation for the key of the stored one. *)
Lemma X13_add_overwrites_per_key_witness :
  let db' :=
    snd (fst (DelegationRoute.post None false DelegationExamples.confirmed
                (DelegationExamples.clockAt 5000000)
                {| DelegationRoute.userAddress :=
                     Some DelegationExamples.alice;
                   DelegationRoute.contractAddress :=
                     Some DelegationExamples.vault;
                   DelegationRoute.duration := 2;
                   DelegationRoute.description := None |}
                DelegationExamples.oneHourDB)) in
  NoDup (map fst DelegationExamples.oneHourDB)
  /\ List.length db' = 1%nat
  /\ map d_expiresAt (map snd db') = [12200].
Proof.
  intros db'.
  assert (Hnd : NoDup (map fst DelegationExamples.oneHourDB))
    by (repeat constructor; intros []).
  split; [exact Hnd |].
  destruct (X13_add_overwrites_per_key None false DelegationExamples.confirmed
              (DelegationExamples.clockAt 5000000) DelegationExamples.alice
              DelegationExamples.vault 2 None DelegationExamples.oneHourDB)
    as (_ & Hkeys & _); try discriminate; [exact Hnd |].
  split; reflexivity.
Defined.





(** X15. A revoke or add request that lacks the user address or the
    contract address (absent or empty) is answered 400 with
    [success: false]; nothing is stored or deleted and the remote contract
    is not called. *)
Theorem X15_missing_address_rejected
  (smartGuardContract : option SmartGuardContract) (isoNow : string)
  (walletClient : bool) (waitForTransactionReceipt : string -> Result Z)
  (dateNow : nat -> Z) (userAddress contractAddress : option string)
  (duration : Z) (description : option string) (db : JS.Map Delegation) :
  JS.truthy userAddress = false \/ JS.truthy contractAddress = false ->
  let revoked :=
    RevokeRoute.post smartGuardContract isoNow
      {| RevokeRoute.userAddress := userAddress;
         RevokeRoute.contractAddress := contractAddress |} db in
  let added :=
    DelegationRoute.post smartGuardContract walletClient
      waitForTransactionReceipt dateNow
      {| DelegationRoute.userAddress := userAddress;
         DelegationRoute.contractAddress := contractAddress;
         DelegationRoute.duration := duration;
         DelegationRoute.description := description |} db in
  (RevokeRoute.status (fst (fst revoked)) = 400
   /\ RevokeRoute.success (fst (fst revoked)) = false
   /\ snd (fst revoked) = db /\ snd revoked = [])
  /\ (DelegationRoute.a_status (fst (fst added)) = 400
      /\ DelegationRoute.a_success (fst (fst added)) = false
      /\ DelegationRoute.a_delegation (fst (fst added)) = None
      /\ snd (fst added) = db /\ snd added = []).
Proof.
  intros Hmissing revoked added. subst revoked added.
  unfold RevokeRoute.post, DelegationRoute.post.
  cbn [RevokeRoute.userAddress RevokeRoute.contractAddress
       DelegationRoute.userAddress DelegationRoute.contractAddress].
  destruct Hmissing as [-> | ->];
    [| destruct (JS.truthy userAddress)]; cbn; auto 10.
Qed.

Lemma X15_missing_address_rejected_witness :
  let added :=
    DelegationRoute.post (Some (DelegationExamples.liveContract [])) true
      DelegationExamples.confirmed (DelegationExamples.clockAt 1000500)
      {| DelegationRoute.userAddress := Some "";
         DelegationRoute.contractAddress := Some DelegationExamples.vault;
         DelegationRoute.duration := 1;
         DelegationRoute.description := None |}
      DelegationExamples.oneHourDB in
  JS.truthy (Some "") = false
  /\ DelegationRoute.a_status (fst (fst added)) = 400
  /\ snd (fst added) = DelegationExamples.oneHourDB
  /\ snd added = [].
Proof.
  intros added. split; [reflexivity |].
  destruct (X15_missing_address_rejected
              (Some (DelegationExamples.liveContract [])) "t" true
              DelegationExamples.confirmed
              (DelegationExamples.clockAt 1000500) (Some "")
              (Some DelegationExamples.vault) 1 None
              DelegationExamples.oneHourDB (or_introl eq_refl))
    as (_ & Hstatus & _ & _ & Hdb & Hlog).
  repeat split; assumption.
Defined.

(** X16. In every answer of the two list routes [total] is the number of
    delegations returned and [active] and [expired] add up to it. *)
Theorem X16_list_counts_add_up
  (isAddress : string -> bool) (c : option SmartGuardContract)
  (dateNow : nat -> Z) (userAddress : string) (db : JS.Map Delegation) :
  let response :=
    fst (fst (DelegationRoute.get isAddress c dateNow userAddress db)) in
  let walletResponse :=
    WalletRoute.getDelegations isAddress c dateNow userAddress in
  (DelegationRoute.l_total response
   = Z.of_nat (List.length (DelegationRoute.l_delegations response))
   /\ DelegationRoute.l_active response + DelegationRoute.l_expired response
      = DelegationRoute.l_total response)
  /\ (WalletRoute.total walletResponse
      = Z.of_nat (List.length (WalletRoute.delegations walletResponse))
      /\ WalletRoute.active walletResponse + WalletRoute.expired walletResponse
         = WalletRoute.total walletResponse).
Proof.
  intros response walletResponse. subst response walletResponse.
  unfold DelegationRoute.get, WalletRoute.getDelegations.
  destruct (isAddress userAddress); cbn [negb]; [| cbn; auto].
  split.
  - split_pairs.
    cbn [fst DelegationRoute.l_total DelegationRoute.l_delegations
         DelegationRoute.l_active DelegationRoute.l_expired].
    split; [reflexivity | apply countStatus_total].
  - destruct c as [c |]; [| cbn; auto].
    split_pairs.
    cbn [WalletRoute.total WalletRoute.delegations WalletRoute.active
         WalletRoute.expired].
    split; [reflexivity | apply countStatus_total].
Qed.

(** X17. The wallet route never lists a delegation whose contract is the
    zero address, and neither does the delegation route when its answer
    comes from the contract. *)
Theorem X17_zero_address_never_listed_from_remote
  (isAddress : string -> bool) (c : option SmartGuardContract)
  (dateNow : nat -> Z) (userAddress : string) (db : JS.Map Delegation) :
  let response :=
    fst (fst (DelegationRoute.get isAddress c dateNow userAddress db)) in
  let walletResponse :=
    WalletRoute.getDelegations isAddress c dateNow userAddress in
  (forall v, In v (WalletRoute.delegations walletResponse) ->
             v_contractAddr v <> ZERO_ADDRESS)
  /\ (DelegationRoute.l_source response = Some "contract" ->
      forall v, In v (DelegationRoute.l_delegations response) ->
                v_contractAddr v <> ZERO_ADDRESS).
Proof.
  intros response walletResponse.
  assert (Hfilter :
    forall (l : list View) v,
      In v (filter DelegationRoute.notZeroAddress l) ->
      v_contractAddr v <> ZERO_ADDRESS).
  { intros l v Hin. apply filter_In in Hin. destruct Hin as (_ & Hnz).
    unfold DelegationRoute.notZeroAddress in Hnz.
    apply negb_true_iff, String.eqb_neq in Hnz. exact Hnz. }
  destruct (isAddress userAddress) eqn:Hvalid.
  - destruct (get_valid isAddress c dateNow userAddress db Hvalid)
      as (_ & Hlist & Hsource & _).
    destruct (wallet_getDelegations_valid isAddress c dateNow userAddress
                Hvalid) as (_ & _ & Hwallet & _).
    fold response in Hlist, Hsource. fold walletResponse in Hwallet.
    split.
    + intros v Hin. rewrite Hwallet in Hin.
      destruct (remoteRead c userAddress); [eauto | destruct Hin].
    + intros Hcontract v Hin. rewrite Hlist in Hin. rewrite Hsource in Hcontract.
      destruct (remoteViews c dateNow userAddress) as [| v0 l] eqn:Hremote;
        [discriminate |].
      rewrite <- Hremote in Hin. unfold remoteViews in Hin.
      destruct (remoteRead c userAddress); [eauto | destruct Hin].
  - subst response walletResponse.
    unfold DelegationRoute.get, WalletRoute.getDelegations.
    rewrite Hvalid. cbn. split; [intros v [] | discriminate].
Qed.

(** X18. A list request for an invalid address is answered 400 with
    [success: false] by both routes, without reading the remote contract
    and whatever the in-memory map holds. *)
Theorem X18_list_rejects_invalid_address
  (isAddress : string -> bool) (c : option SmartGuardContract)
  (dateNow : nat -> Z) (userAddress : string) (db : JS.Map Delegation) :
  isAddress userAddress = false ->
  let result := DelegationRoute.get isAddress c dateNow userAddress db in
  let walletResponse :=
    WalletRoute.getDelegations isAddress c dateNow userAddress in
  DelegationRoute.l_status (fst (fst result)) = 400
  /\ DelegationRoute.l_success (fst (fst result)) = false
  /\ DelegationRoute.l_delegations (fst (fst result)) = []
  /\ snd (fst result) = db
  /\ snd result = []
  /\ WalletRoute.status walletResponse = 400
  /\ WalletRoute.success walletResponse = false
  /\ WalletRoute.delegations walletResponse = [].
Proof.
  intros Hinvalid result walletResponse. subst result walletResponse.
  unfold DelegationRoute.get, WalletRoute.getDelegations. rewrite Hinvalid.
  cbn. auto 10.
Qed.

Lemma X18_list_rejects_invalid_address_witness :
  let result :=
    DelegationRoute.get addressShape
      (Some (DelegationExamples.liveContract [DelegationExamples.inactivePlan]))
      (DelegationExamples.clockAt 1000500) "alice"
      [("alice-vault", DelegationExamples.oneHour)] in
  addressShape "alice" = false
  /\ DelegationRoute.l_status (fst (fst result)) = 400
  /\ snd result = [].
Proof.
  intros result. split; [reflexivity |].
  destruct (X18_list_rejects_invalid_address addressShape
              (Some (DelegationExamples.liveContract
                       [DelegationExamples.inactivePlan]))
              (DelegationExamples.clockAt 1000500) "alice"
              [("alice-vault", DelegationExamples.oneHour)] eq_refl)
    as (Hstatus & _ & _ & _ & Hlog & _).
  split; assumption.
Defined.

(* ===================================================================== *)
(** ** routes/risk.js *)

(** X19. For a valid address whose balance and transaction count can be
    read, the score route answers 200 with a score in [0, 100]: the sum,
    capped at 100, of 20 for a balance above 10, 15 for fewer than three
    transactions, 10 for a contract, 5 per active delegation and 10 for a
    risky interaction.  A failing delegation read counts as no delegation;
    twenty delegations or more give 100 and High. *)
Theorem X19_route_score_capped_sum
  (isAddress : string -> bool) (parseFloatEther : Z -> Q)
  (publicClient : Provider) (smartGuardContract : option SmartGuardContract)
  (random : Q) (address : string) (balance txCount : Z) :
  isAddress address = true ->
  getBalance publicClient address = Ok balance ->
  getTransactionCount publicClient address = Ok txCount ->
  let response :=
    RiskRoute.getScore isAddress parseFloatEther publicClient
      smartGuardContract random address in
  let n :=
    Z.of_nat (List.length (countedDelegations smartGuardContract address)) in
  exists score,
    RiskRoute.s_status response = 200
    /\ RiskRoute.s_success response = true
    /\ RiskRoute.s_riskScore response = Some score
    /\ RiskRoute.s_riskLevel response = Some (RiskRoute.getRiskLevel score)
    /\ 0 <= score <= 100
    /\ score
       = Z.min 100
           ((if JS.Qltb 10 (parseFloatEther balance) then 20 else 0)
            + (if txCount <? 3 then 15 else 0)
            + (if RiskRoute.isContractAddress publicClient address
               then 10 else 0)
            + 5 * n
            + (if JS.Qltb random RiskRoute.double_0_2 then 10 else 0))
    /\ (20 <= n -> score = 100)
    /\ (List.length (RiskRoute.s_reasons response) <= 5)%nat.
Proof.
  intros Hvalid Hbal Htx response n. subst response n.
  unfold RiskRoute.getScore, countedDelegations, remoteRead,
    RiskRoute.checkRiskyInteractions.
  rewrite Hvalid, Hbal, Htx. cbn [negb].
  generalize (RiskRoute.isContractAddress publicClient address).
  intros isContract.
  set (delegations :=
         match smartGuardContract with
         | Some c =>
             match read_getActiveDelegations c address with
             | Ok plans => plans
             | Err _ => []
             end
         | None => []
         end).
  assert (Hsame :
    match
      match smartGuardContract with
      | Some c => read_getActiveDelegations c address
      | None => Err "Contract not available"
      end
    with
    | Ok plans => plans
    | Err _ => []
    end = delegations).
  { subst delegations. destruct smartGuardContract as [c |]; reflexivity. }
  rewrite Hsame. clear Hsame. clearbody delegations.
  pose proof (Nat2Z.is_nonneg (List.length delegations)) as Hn.
  generalize dependent (Z.of_nat (List.length delegations)). intros n Hn.
  destruct (JS.Qltb random RiskRoute.double_0_2);
    [ change (Z.of_nat
                (List.length ([] ++ firstn 1 RiskRoute.RISKY_ADDRESSES)))
        with 1;
      change (1 >? 0) with true
    | change (Z.of_nat (List.length (@nil string))) with 0;
      change (0 >? 0) with false ];
    destruct (JS.Qltb 10 (parseFloatEther balance)), (txCount <? 3),
      isContract, (Z.gtb_spec n 0);
    cbn [RiskRoute.s_status RiskRoute.s_success RiskRoute.s_riskScore
         RiskRoute.s_riskLevel RiskRoute.s_reasons app List.length];
    (eexists; repeat split; try reflexivity; try lia).
Qed.

Lemma X19_route_score_capped_sum_witness :
  let response :=
    RiskRoute.getScore addressShape exactEther
      (Examples.chain Examples.twentyEther 0 "0x6080")
      (Some (DelegationExamples.liveContract
               [DelegationExamples.inactivePlan; DelegationExamples.inactivePlan]))
      (1 # 10)%Q Examples.plainAddress in
  addressShape Examples.plainAddress = true
  /\ RiskRoute.s_riskScore response = Some 65
  /\ RiskRoute.s_riskLevel response = Some Medium.
Proof.
  intros response. split; [reflexivity |].
  destruct (X19_route_score_capped_sum addressShape exactEther
              (Examples.chain Examples.twentyEther 0 "0x6080")
              (Some (DelegationExamples.liveContract
                       [DelegationExamples.inactivePlan;
                        DelegationExamples.inactivePlan]))
              (1 # 10)%Q Examples.plainAddress Examples.twentyEther 0
              eq_refl eq_refl eq_refl)
    as (score & _ & _ & Hscore & Hlevel & _ & Hsum & _).
  fold response in Hscore, Hlevel. rewrite Hscore, Hlevel, Hsum.
  split; reflexivity.
Defined.

(** X20. The transaction route on a request with a truthy [from] and a
    non-empty string [to].  When [value] is falsy or [BigInt] converts it,
    the route answers 200 with a score in [0, 100], and [shouldProceed] is
    false exactly when the lower-cased recipient is in [RISKY_ADDRESSES]: a
    flagged recipient scores at least 80 (High) and any other at most 35.
    When [BigInt(value)] throws, the route answers 500 without a score; so
    it does when [to] is a truthy value that is not a string. *)
Theorem X20_route_blocks_flagged_recipient
  (parseFloatEther : Z -> Q) (formatEther : Z -> string)
  (BigInt : JS.Json -> Result Z) (publicClient : Provider)
  (from : JS.Json) (to : string) (value data : option JS.Json) :
  JS.truthyJson from = true ->
  to <> "" ->
  let request (recipient : JS.Json) :=
    {| RiskRoute.r_from := Some from; RiskRoute.r_to := Some recipient;
       RiskRoute.r_value := value; RiskRoute.r_data := data |} in
  let response :=
    RiskRoute.analyzeTransaction parseFloatEther formatEther BigInt
      publicClient (request (JS.JString to)) in
  let flagged :=
    JS.arrayIncludes RiskRoute.RISKY_ADDRESSES (JS.toLowerCase to) in
  (forall wei,
      RiskRoute.convertedValue BigInt value = Ok wei ->
      exists score,
        RiskRoute.x_status response = 200
        /\ RiskRoute.x_riskScore response = Some score
        /\ RiskRoute.x_riskLevel response
           = Some (RiskRoute.getRiskLevel score)
        /\ RiskRoute.x_shouldProceed response = Some (negb flagged)
        /\ 0 <= score <= 100
        /\ (flagged = true ->
            80 <= score /\ RiskRoute.getRiskLevel score = High)
        /\ (flagged = false ->
            score <= 35 /\ RiskRoute.getRiskLevel score <> High))
  /\ (forall m,
        RiskRoute.convertedValue BigInt value = Err m ->
        RiskRoute.x_status response = 500
        /\ RiskRoute.x_success response = false
        /\ RiskRoute.x_riskScore response = None
        /\ RiskRoute.x_shouldProceed response = None)
  /\ (forall recipient,
        JS.truthyJson recipient = true ->
        (forall s, recipient <> JS.JString s) ->
        let refused :=
          RiskRoute.analyzeTransaction parseFloatEther formatEther BigInt
            publicClient (request recipient) in
        RiskRoute.x_status refused = 500
        /\ RiskRoute.x_success refused = false
        /\ RiskRoute.x_riskScore refused = None).
Proof.
  intros Hfrom Hto request response flagged. subst request response flagged.
  assert (Htruthy : JS.truthyJson (JS.JString to) = true).
  { cbn. apply String.eqb_neq in Hto. now rewrite Hto. }
  unfold RiskRoute.analyzeTransaction.
  cbn [RiskRoute.r_from RiskRoute.r_to RiskRoute.r_value RiskRoute.r_data].
  rewrite Hfrom, Htruthy. cbn [negb orb].
  split; [| split].
  - intros wei ->.
    generalize (RiskRoute.isContractAddress publicClient to
                && JS.truthyField data
                && match data with
                   | Some d => JS.jsonNe d "0x"
                   | None => true
                   end).
    intros interaction.
    destruct (JS.arrayIncludes RiskRoute.RISKY_ADDRESSES (JS.toLowerCase to)),
      wei as [v |], interaction;
      try destruct (JS.Qltb 1 (parseFloatEther v));
      (eexists; repeat split; try reflexivity; try discriminate;
       cbn; try lia; try discriminate).
  - intros m ->. repeat split.
  - intros recipient Hrecipient Hother. rewrite Hrecipient. cbn [negb orb].
    destruct recipient; try (repeat split; fail).
    exfalso. eapply Hother. reflexivity.
Qed.

(** A flagged recipient, written in mixed case, without value: 80 and not
    to proceed.  The same request with the value ["0.5"], which [BigInt]
    refuses: 500. *)
Lemma X20_route_blocks_flagged_recipient_witness :
  let BigInt (v : JS.Json) : Result Z :=
    match v with
    | JS.JString "0.5" => Err "Cannot convert 0.5 to a BigInt"
    | _ => Ok 0
    end in
  let request (value : option JS.Json) :=
    {| RiskRoute.r_from := Some (JS.JString Examples.plainAddress);
       RiskRoute.r_to :=
         Some (JS.JString "0x000000000000000000000000000000000000dEaD");
       RiskRoute.r_value := value; RiskRoute.r_data := None |} in
  let route :=
    RiskRoute.analyzeTransaction exactEther (fun _ => "0") BigInt
      (Examples.noCode 0 0) in
  JS.truthyJson (JS.JString Examples.plainAddress) = true
  /\ RiskRoute.x_riskScore (route (request None)) = Some 80
  /\ RiskRoute.x_shouldProceed (route (request None)) = Some false
  /\ RiskRoute.x_status (route (request (Some (JS.JString "0.5")))) = 500.
Proof.
  intros BigInt request route. split; [reflexivity |].
  destruct (X20_route_blocks_flagged_recipient exactEther (fun _ => "0")
              BigInt (Examples.noCode 0 0) (JS.JString Examples.plainAddress)
              "0x000000000000000000000000000000000000dEaD" None None
              eq_refl) as (Hok & _); [discriminate |].
  destruct (Hok None eq_refl) as (score & _ & Hscore & _ & Hproceed & _).
  destruct (X20_route_blocks_flagged_recipient exactEther (fun _ => "0")
              BigInt (Examples.noCode 0 0) (JS.JString Examples.plainAddress)
              "0x000000000000000000000000000000000000dEaD"
              (Some (JS.JString "0.5")) None eq_refl) as (_ & Hthrows & _);
    [discriminate |].
  destruct (Hthrows _ eq_refl) as (Hstatus & _).
  split; [reflexivity |]. split; [exact Hproceed | exact Hstatus].
Defined.

(* ===================================================================== *)
(** ** routes/threat.js and routes/automation.js *)

(** X21. The threat check answers for a valid address as follows.  Without
    a contract handle it answers 200 with [isThreat: false].  With one it
    reports the registry's own verdict: [isThreat] is true exactly when
    [knownThreats] returned true, the advice is to avoid the contract
    exactly then, and the reason is read only then, a failing read leaving
    it empty.  A failing [knownThreats] read gives 500, not a verdict. *)
Theorem X21_threat_check_verdict
  (isAddress : string -> bool) (c : ThreatRoute.ThreatRegistry)
  (contractAddress : string) :
  isAddress contractAddress = true ->
  let unset := ThreatRoute.check isAddress None contractAddress in
  let response := ThreatRoute.check isAddress (Some c) contractAddress in
  (ThreatRoute.k_status unset = 200
   /\ ThreatRoute.k_isThreat unset = Some false)
  /\ (forall isThreat,
        ThreatRoute.read_knownThreats c contractAddress = Ok isThreat ->
        ThreatRoute.k_status response = 200
        /\ ThreatRoute.k_isThreat response = Some isThreat
        /\ (ThreatRoute.k_recommendation response
            = Some "AVOID - Known malicious contract"
            <-> isThreat = true)
        /\ (isThreat = false -> ThreatRoute.k_reason response = Some "")
        /\ (isThreat = true ->
            ThreatRoute.k_reason response
            = Some match ThreatRoute.read_threatReasons c contractAddress with
                   | Ok r => r
                   | Err _ => ""
                   end))
  /\ (forall m,
        ThreatRoute.read_knownThreats c contractAddress = Err m ->
        ThreatRoute.k_status response = 500
        /\ ThreatRoute.k_success response = false
        /\ ThreatRoute.k_isThreat response = None).
Proof.
  intros Hvalid unset response. subst unset response.
  unfold ThreatRoute.check. rewrite Hvalid. cbn [negb].
  split; [split; reflexivity |]. split.
  - intros isThreat ->. destruct isThreat; cbn;
      repeat split; intros; try discriminate; try reflexivity.
  - intros m ->. repeat split.
Qed.

Lemma X21_threat_check_verdict_witness :
  let registry :=
    {| ThreatRoute.read_knownThreats := fun _ => Ok true;
       ThreatRoute.read_threatReasons := fun _ => Err "timeout";
       ThreatRoute.write_reportThreat := fun _ _ => Err "reverted" |} in
  let response :=
    ThreatRoute.check addressShape (Some registry) Examples.deadAddress in
  addressShape Examples.deadAddress = true
  /\ ThreatRoute.k_isThreat response = Some true
  /\ ThreatRoute.k_reason response = Some "".
Proof.
  intros registry response. split; [reflexivity |].
  destruct (X21_threat_check_verdict addressShape registry
              Examples.deadAddress eq_refl) as (_ & Hverdict & _).
  destruct (Hverdict true eq_refl) as (_ & Hthreat & _ & _ & Hreason).
  split; [exact Hthreat | exact (Hreason eq_refl)].
Defined.

(** X22. A threat report reaches the remote contract only when it carries a
    contract address and a reason, the address is valid, and both the
    contract and the wallet client are set; then exactly one [reportThreat]
    is sent, and the answer is a success exactly when that write and its
    confirmation both succeed.  Every other request is refused without a
    write. *)
Theorem X22_threat_report_writes_once
  (isAddress : string -> bool)
  (smartGuardContract : option ThreatRoute.ThreatRegistry)
  (walletClient : bool) (waitForTransactionReceipt : string -> Result Z)
  (req : ThreatRoute.ReportRequest) :
  let result :=
    ThreatRoute.report isAddress smartGuardContract walletClient
      waitForTransactionReceipt req in
  let contractAddress := interpolate (ThreatRoute.q_contractAddress req) in
  let reason := interpolate (ThreatRoute.q_reason req) in
  let accepted :=
    JS.truthy (ThreatRoute.q_contractAddress req)
    && JS.truthy (ThreatRoute.q_reason req)
    && isAddress contractAddress
    && match smartGuardContract with Some _ => walletClient | None => false end
  in
  snd result
  = (if accepted
     then [ThreatRoute.ReportThreatSent contractAddress reason] else [])
  /\ (ThreatRoute.p_success (fst result) = true
      <-> accepted = true
          /\ exists c hash blockNumber,
               smartGuardContract = Some c
               /\ ThreatRoute.write_reportThreat c contractAddress reason
                  = Ok hash
               /\ waitForTransactionReceipt hash = Ok blockNumber
               /\ ThreatRoute.p_transactionHash (fst result) = Some hash)
  /\ (ThreatRoute.p_success (fst result) = true
      <-> ThreatRoute.p_status (fst result) = 200).
Proof.
  intros result contractAddress reason accepted.
  subst result accepted. unfold ThreatRoute.report.
  fold contractAddress. fold reason.
  destruct (JS.truthy (ThreatRoute.q_contractAddress req)),
    (JS.truthy (ThreatRoute.q_reason req)); cbn [negb orb andb];
    try (cbn; repeat split; intros; try discriminate;
         intuition discriminate).
  destruct (isAddress contractAddress); cbn [negb andb];
    try (cbn; repeat split; intros; try discriminate;
         intuition discriminate).
  destruct smartGuardContract as [c |];
    [destruct walletClient |];
    try (cbn; repeat split; intros; try discriminate;
         intuition discriminate).
  destruct (ThreatRoute.write_reportThreat c contractAddress reason)
    as [hash | m] eqn:Hwrite;
    [destruct (waitForTransactionReceipt hash) as [blockNumber | m] eqn:Hwait |];
    cbn; repeat split; intros; try discriminate; try reflexivity.
  - exists c, hash, blockNumber. auto.
  - destruct H as (_ & c' & hash' & bn & Hc & Hw & Hwt & _).
    injection Hc as <-. rewrite Hwrite in Hw. injection Hw as <-.
    rewrite Hwait in Hwt. discriminate.
  - destruct H as (_ & c' & hash' & bn & Hc & Hw & _).
    injection Hc as <-. rewrite Hwrite in Hw. discriminate.
Qed.

Lemma revokeLoop_spec (isAddress : JS.Json -> Result bool)
  (cleanupExpired : option (JS.Json -> Result string))
  (waitForTransactionReceipt : string -> Result Z) (wallets : list JS.Json) :
  (forall item, In item wallets -> exists valid, isAddress item = Ok valid) ->
  forall results,
    AutomationRoute.revokeLoop isAddress cleanupExpired
      waitForTransactionReceipt wallets results
    = Ok (results
          ++ match cleanupExpired with
             | Some cleanup =>
                 map (AutomationRoute.cleanupEntry waitForTransactionReceipt
                        cleanup)
                   (filter (AutomationRoute.accepted isAddress) wallets)
             | None => []
             end).
Proof.
  induction wallets as [| w rest IH]; intros Hanswers results;
    cbn [AutomationRoute.revokeLoop filter map].
  - destruct cleanupExpired; now rewrite app_nil_r.
  - destruct (Hanswers w (or_introl eq_refl)) as (valid & Hw).
    unfold AutomationRoute.accepted at 1. rewrite Hw. cbn [bind].
    rewrite IH by (intros item Hin; apply Hanswers; now right).
    destruct cleanupExpired as [cleanup |]; [| reflexivity].
    destruct valid; cbn [map]; [| reflexivity].
    now rewrite <- app_assoc.
Qed.

Lemma revokeLoop_throws (isAddress : JS.Json -> Result bool)
  (cleanupExpired : option (JS.Json -> Result string))
  (waitForTransactionReceipt : string -> Result Z) (wallets : list JS.Json)
  (item : JS.Json) (m : string) :
  In item wallets ->
  isAddress item = Err m ->
  forall results,
    exists m',
      AutomationRoute.revokeLoop isAddress cleanupExpired
        waitForTransactionReceipt wallets results = Err m'.
Proof.
  induction wallets as [| w rest IH]; intros Hin Hthrows results;
    [destruct Hin |].
  cbn [AutomationRoute.revokeLoop].
  destruct (isAddress w) as [valid | m'] eqn:Hw; cbn [bind];
    [| now exists m'].
  destruct Hin as [-> | Hin]; [congruence |]. now apply IH.
Qed.

(** X23. The batch cleanup of expired delegations, with the wallet client
    set.  When [wallets] is absent, an array or a string and [isAddress]
    answers on each of its items, the route answers 200 with
    [success: true] whatever happens to the single wallets: the results hold
    one entry per item that [isAddress] accepts, in request order, each a
    success exactly when its own [cleanupExpired] write and confirmation
    succeeded, so a failure for one wallet does not stop the later ones;
    other items get no entry, and without a contract there are no entries at
    all.  When [wallets] is any other value, which cannot be iterated, or
    when [isAddress] throws on an item, the route answers 500 and reports no
    results. *)
Theorem X23_batch_cleanup_per_wallet
  (isAddress : JS.Json -> Result bool)
  (cleanupExpired : option (JS.Json -> Result string))
  (waitForTransactionReceipt : string -> Result Z)
  (wallets : option JS.Json) :
  let response :=
    AutomationRoute.revokeExpired isAddress cleanupExpired
      waitForTransactionReceipt true wallets in
  let sent := AutomationRoute.walletsOf wallets in
  (forall items,
      JS.iterate sent = Some items ->
      (forall item, In item items -> exists valid, isAddress item = Ok valid) ->
      AutomationRoute.b_status response = 200
      /\ AutomationRoute.b_success response = true
      /\ AutomationRoute.b_results response
         = match cleanupExpired with
           | Some cleanup =>
               map (AutomationRoute.cleanupEntry waitForTransactionReceipt
                      cleanup)
                 (filter (AutomationRoute.accepted isAddress) items)
           | None => []
           end
      /\ (List.length (AutomationRoute.b_results response)
          <= List.length items)%nat
      /\ (forall cleanup,
            cleanupExpired = Some cleanup ->
            map AutomationRoute.e_wallet (AutomationRoute.b_results response)
            = filter (AutomationRoute.accepted isAddress) items)
      /\ (forall entry,
            In entry (AutomationRoute.b_results response) ->
            isAddress (AutomationRoute.e_wallet entry) = Ok true
            /\ (AutomationRoute.e_success entry = true
                <-> exists cleanup hash receipt,
                      cleanupExpired = Some cleanup
                      /\ cleanup (AutomationRoute.e_wallet entry) = Ok hash
                      /\ waitForTransactionReceipt hash = Ok receipt)))
  /\ (JS.iterate sent = None ->
      AutomationRoute.b_status response = 500
      /\ AutomationRoute.b_success response = false
      /\ AutomationRoute.b_results response = [])
  /\ (forall items item m,
        JS.iterate sent = Some items ->
        In item items ->
        isAddress item = Err m ->
        AutomationRoute.b_status response = 500
        /\ AutomationRoute.b_success response = false
        /\ AutomationRoute.b_results response = []).
Proof.
  intros response sent. subst response sent.
  unfold AutomationRoute.revokeExpired. cbn [negb].
  split; [| split].
  - intros items -> Hanswers.
    rewrite (revokeLoop_spec isAddress cleanupExpired
               waitForTransactionReceipt items Hanswers []).
    cbn [app AutomationRoute.b_status AutomationRoute.b_success
         AutomationRoute.b_results].
    split; [reflexivity |]. split; [reflexivity |]. split; [reflexivity |].
    split; [| split].
    + destruct cleanupExpired; cbn [List.length]; [| lia].
      rewrite length_map. apply filter_length_le.
    + intros cleanup ->. rewrite map_map.
      rewrite <- (map_id (filter (AutomationRoute.accepted isAddress) items))
        at 2.
      apply map_ext. intros w. unfold AutomationRoute.cleanupEntry.
      destruct (cleanup w); [destruct (waitForTransactionReceipt _) |];
        reflexivity.
    + intros entry Hin.
      destruct cleanupExpired as [cleanup |]; [| destruct Hin].
      apply in_map_iff in Hin. destruct Hin as (w & <- & Hw).
      apply filter_In in Hw. destruct Hw as (_ & Hvalid).
      assert (Hok : isAddress w = Ok true).
      { unfold AutomationRoute.accepted in Hvalid.
        destruct (isAddress w) as [valid |]; [now subst | discriminate]. }
      unfold AutomationRoute.cleanupEntry.
      destruct (cleanup w) as [hash | m] eqn:Hclean;
        [destruct (waitForTransactionReceipt hash) as [receipt | m] eqn:Hwait
        |];
        cbn [AutomationRoute.e_wallet AutomationRoute.e_success];
        (split; [exact Hok |]); split; intros H; try discriminate;
        try reflexivity.
      * exists cleanup, hash, receipt. auto.
      * destruct H as (cl & h & r & Hcl & Hc & Hwt). injection Hcl as <-.
        rewrite Hclean in Hc. injection Hc as <-. rewrite Hwait in Hwt.
        discriminate.
      * destruct H as (cl & h & r & Hcl & Hc & _). injection Hcl as <-.
        rewrite Hclean in Hc. discriminate.
  - intros ->. repeat split.
  - intros items item m -> Hin Hthrows.
    destruct (revokeLoop_throws isAddress cleanupExpired
                waitForTransactionReceipt items item m Hin Hthrows [])
      as (m' & ->).
    repeat split.
Qed.

(* ===================================================================== *)
(** ** services/revokeLogic.js and services/scheduler.js *)

Lemma executeRevoke_writes
  (isAddress : string -> bool) (formatUnits18 : Z -> string) (wallet : bool)
  (client : RevokeLogic.Erc20Client) (tokenAddress spender userWallet : string) :
  let result :=
    RevokeLogic.executeRevoke isAddress formatUnits18 wallet client
      tokenAddress spender userWallet in
  snd result
  = (if wallet && isAddress tokenAddress && isAddress spender
        && isAddress userWallet
        && match RevokeLogic.read_allowance client tokenAddress userWallet
                   spender with
           | Ok currentAllowance => currentAllowance >? 0
           | Err _ => false
           end
     then [RevokeLogic.ApproveSent tokenAddress spender 0] else []).
Proof.
  intros result. subst result. unfold RevokeLogic.executeRevoke.
  destruct wallet, (isAddress tokenAddress), (isAddress spender),
    (isAddress userWallet); cbn [negb orb andb]; try reflexivity.
  destruct (RevokeLogic.read_allowance client tokenAddress userWallet spender)
    as [a | m]; [| reflexivity].
  destruct (a >? 0); [| reflexivity].
  destruct (RevokeLogic.write_approve client tokenAddress spender 0)
    as [hash | m]; [| reflexivity].
  destruct (RevokeLogic.waitForTransactionReceipt client hash); reflexivity.
Qed.

(** X24. [executeRevoke] sends at most one transaction, [approve] of the
    spender for the value 0 on the given token, and sends it exactly when
    the wallet is configured, the three addresses are valid and the current
    allowance reads as positive.  Every result it returns has
    [success: true] and a new allowance of "0"; the result carries no
    transaction hash exactly when nothing was sent, with the message
    "No allowance to revoke". *)
Theorem X24_executeRevoke_approves_zero_once
  (isAddress : string -> bool) (formatUnits18 : Z -> string) (wallet : bool)
  (client : RevokeLogic.Erc20Client) (tokenAddress spender userWallet : string) :
  let result :=
    RevokeLogic.executeRevoke isAddress formatUnits18 wallet client
      tokenAddress spender userWallet in
  snd result
  = (if wallet && isAddress tokenAddress && isAddress spender
        && isAddress userWallet
        && match RevokeLogic.read_allowance client tokenAddress userWallet
                   spender with
           | Ok currentAllowance => currentAllowance >? 0
           | Err _ => false
           end
     then [RevokeLogic.ApproveSent tokenAddress spender 0] else [])
  /\ (forall r,
        fst result = Ok r ->
        RevokeLogic.rr_success r = true
        /\ RevokeLogic.rr_newAllowance r = "0"
        /\ RevokeLogic.rr_token r = tokenAddress
        /\ RevokeLogic.rr_spender r = spender
        /\ (RevokeLogic.rr_transactionHash r = None <-> snd result = [])
        /\ (RevokeLogic.rr_transactionHash r = None
            <-> RevokeLogic.rr_message r = Some "No allowance to revoke"))
  /\ (forall m, fst result = Err m -> m <> "").
Proof.
  intros result. split; [apply executeRevoke_writes |].
  subst result. unfold RevokeLogic.executeRevoke, RevokeLogic.rethrown.
  destruct wallet, (isAddress tokenAddress), (isAddress spender),
    (isAddress userWallet); cbn [negb orb andb fst snd];
    try (split; [intros r H; discriminate
                | intros m H; injection H as <-; discriminate]).
  destruct (RevokeLogic.read_allowance client tokenAddress userWallet spender)
    as [a | m0]; [destruct (a >? 0) |];
    [ destruct (RevokeLogic.write_approve client tokenAddress spender 0)
        as [hash | m1];
      [destruct (RevokeLogic.waitForTransactionReceipt client hash)
         as [blockNumber | m2] |]
    | | ];
    cbn [fst snd]; split;
    try (intros r H; injection H as <-; cbn;
         repeat split; intros; try discriminate; reflexivity);
    try (intros r H; discriminate);
    try (intros m H; discriminate);
    intros m H; injection H as <-;
    match goal with
    | |- (if (?x =? "")%string then _ else _) <> _ =>
        destruct (String.eqb_spec x ""); [discriminate | assumption]
    end.
Qed.

Lemma batchLoop_spec
  (isAddress : string -> bool) (formatUnits18 : Z -> string) (wallet : bool)
  (client : RevokeLogic.Erc20Client)
  (revokeRequests : list RevokeLogic.RevokeRequest) :
  forall results writes,
    let out :=
      RevokeLogic.batchLoop isAddress formatUnits18 wallet client
        revokeRequests results writes in
    map RevokeLogic.br_requestId (fst out)
    = map RevokeLogic.br_requestId results
      ++ map RevokeLogic.rq_id revokeRequests
    /\ (forall w, In w (snd out) ->
          In w writes
          \/ exists request,
               In request revokeRequests
               /\ w = RevokeLogic.ApproveSent
                        (RevokeLogic.rq_tokenAddress request)
                        (RevokeLogic.rq_spender request) 0).
Proof.
  induction revokeRequests as [| request rest IH]; intros results writes;
    cbn [RevokeLogic.batchLoop].
  - cbn. split; [now rewrite app_nil_r | auto].
  - pose proof (executeRevoke_writes isAddress formatUnits18 wallet client
                  (RevokeLogic.rq_tokenAddress request)
                  (RevokeLogic.rq_spender request)
                  (RevokeLogic.rq_userWallet request)) as Hsent.
    cbv zeta in Hsent.
    destruct (RevokeLogic.executeRevoke isAddress formatUnits18 wallet client
                (RevokeLogic.rq_tokenAddress request)
                (RevokeLogic.rq_spender request)
                (RevokeLogic.rq_userWallet request)) as [outcome sent].
    cbn [snd] in Hsent.
    match goal with
    | |- context [RevokeLogic.batchLoop _ _ _ _ rest (results ++ [?e]) _] =>
        specialize (IH (results ++ [e]) (writes ++ sent));
        assert (Hid : RevokeLogic.br_requestId e = RevokeLogic.rq_id request)
          by (destruct outcome; reflexivity);
        generalize dependent e; intros entry IH Hid
    end.
    cbv zeta in IH. destruct IH as (Hids & Hwrites).
    split.
    + rewrite Hids, map_app. cbn [map]. rewrite Hid, <- app_assoc.
      reflexivity.
    + intros w Hin. destruct (Hwrites w Hin) as [Hold | (rq & Hrq & ->)].
      * apply in_app_or in Hold. destruct Hold as [Hold | Hnew]; [now left |].
        right. exists request. split; [now left |].
        rewrite Hsent in Hnew.
        match type of Hnew with
        | In _ (if ?c then _ else _) => destruct c
        end; [destruct Hnew as [<- | []]; reflexivity | destruct Hnew].
      * right. exists rq. split; [now right | reflexivity].
Qed.

Lemma countWhere_partition (l : list RevokeLogic.BatchResult) :
  RevokeLogic.countWhere RevokeLogic.br_success l
  + RevokeLogic.countWhere (fun r => negb (RevokeLogic.br_success r)) l
  = Z.of_nat (List.length l).
Proof.
  unfold RevokeLogic.countWhere. induction l as [| r rest IH]; [reflexivity |].
  cbn [filter List.length]. destruct (RevokeLogic.br_success r);
    cbn [negb List.length]; lia.
Qed.

(** X25. With the wallet configured, [executeBatchRevoke] never throws: it
    returns one result per request, in request order and under the
    request's id, whether the single revokes succeed or fail; [total] is
    the number of requests and [successful] and [failed] add up to it.
    Every transaction it sends is an [approve] of value 0 for the token and
    spender of one of the requests.  Without the wallet it throws before
    anything is sent. *)
Theorem X25_batch_revoke_accounts_for_every_request
  (isAddress : string -> bool) (formatUnits18 : Z -> string)
  (client : RevokeLogic.Erc20Client)
  (revokeRequests : list RevokeLogic.RevokeRequest) :
  (exists summary,
      fst (RevokeLogic.executeBatchRevoke isAddress formatUnits18 true client
             revokeRequests) = Ok summary
      /\ RevokeLogic.bs_success summary = true
      /\ map RevokeLogic.br_requestId (RevokeLogic.bs_results summary)
         = map RevokeLogic.rq_id revokeRequests
      /\ RevokeLogic.bs_total summary
         = Z.of_nat (List.length (RevokeLogic.bs_results summary))
      /\ RevokeLogic.bs_successful summary + RevokeLogic.bs_failed summary
         = RevokeLogic.bs_total summary)
  /\ (forall w,
        In w (snd (RevokeLogic.executeBatchRevoke isAddress formatUnits18 true
                     client revokeRequests)) ->
        exists request,
          In request revokeRequests
          /\ w = RevokeLogic.ApproveSent
                   (RevokeLogic.rq_tokenAddress request)
                   (RevokeLogic.rq_spender request) 0)
  /\ RevokeLogic.executeBatchRevoke isAddress formatUnits18 false client
       revokeRequests
     = (Err "Backend wallet not configured", []).
Proof.
  unfold RevokeLogic.executeBatchRevoke. cbn [negb].
  pose proof (batchLoop_spec isAddress formatUnits18 true client
                revokeRequests [] []) as Hloop.
  cbv zeta in Hloop.
  destruct (RevokeLogic.batchLoop isAddress formatUnits18 true client
              revokeRequests [] []) as [results writes].
  cbn [fst snd map app] in *. destruct Hloop as (Hids & Hwrites).
  assert (Hlen : List.length results = List.length revokeRequests).
  { rewrite <- (length_map RevokeLogic.br_requestId results), Hids.
    apply length_map. }
  split; [| split; [| reflexivity]].
  - eexists. split; [reflexivity |].
    cbn [RevokeLogic.bs_success RevokeLogic.bs_results RevokeLogic.bs_total
         RevokeLogic.bs_successful RevokeLogic.bs_failed].
    split; [reflexivity |]. split; [exact Hids |].
    split; [now rewrite Hlen |].
    rewrite countWhere_partition. now rewrite Hlen.
  - intros w Hin. destruct (Hwrites w Hin) as [[] | Hrq]. exact Hrq.
Qed.

Lemma mapDelete_mapSet_absent {V : Type} (m : JS.Map V) (k : string) (v : V) :
  JS.mapHas m k = false -> JS.mapDelete (JS.mapSet m k v) k = m.
Proof.
  unfold JS.mapHas, JS.mapDelete.
  induction m as [| [k' v'] rest IH]; cbn; intros Habsent.
  - now rewrite String.eqb_refl.
  - destruct (k' =? k)%string eqn:Hk; [discriminate |].
    cbn. rewrite Hk. cbn. f_equal. apply IH.
    destruct (JS.mapGet rest k); [discriminate | reflexivity].
Qed.

(** X26. The task registry: removing a task returns true exactly when the
    id is registered, stops the registered handle and takes the id off the
    list of scheduled tasks, so that a second removal returns false and
    stops nothing.  Scheduling a task and removing it stops the handle just
    created; if the id was not registered before, the registry is back as
    it was.  A schedule that [cron.schedule] refuses registers nothing. *)
Theorem X26_scheduler_registry
  (Task : Type) (cronSchedule : string -> Result Task)
  (taskId schedule : string) (scheduledTasks : JS.Map Task) :
  let removed := Scheduler.removeScheduledTask Task taskId scheduledTasks in
  let again :=
    Scheduler.removeScheduledTask Task taskId (snd (fst removed)) in
  let scheduled :=
    Scheduler.scheduleTask Task cronSchedule taskId schedule scheduledTasks in
  (fst (fst removed) = JS.mapHas scheduledTasks taskId)
  /\ ~ In (taskId, "active")
         (Scheduler.getScheduledTasks Task (snd (fst removed)))
  /\ (fst (fst removed) = false ->
      snd (fst removed) = scheduledTasks /\ snd removed = [])
  /\ again = (false, snd (fst removed), [])
  /\ (forall task,
        cronSchedule schedule = Ok task ->
        fst scheduled = Ok taskId
        /\ In (taskId, "active")
             (Scheduler.getScheduledTasks Task (snd scheduled))
        /\ fst (Scheduler.removeScheduledTask Task taskId (snd scheduled))
           = (true, JS.mapDelete (snd scheduled) taskId)
        /\ snd (Scheduler.removeScheduledTask Task taskId (snd scheduled))
           = [Scheduler.TaskStopped Task task]
        /\ (JS.mapHas scheduledTasks taskId = false ->
            JS.mapDelete (snd scheduled) taskId = scheduledTasks))
  /\ (forall m,
        cronSchedule schedule = Err m ->
        scheduled = (Err m, scheduledTasks)).
Proof.
  intros removed again scheduled. subst again removed scheduled.
  unfold Scheduler.removeScheduledTask, Scheduler.scheduleTask,
    Scheduler.getScheduledTasks.
  assert (Hgone :
    ~ In (taskId, "active")
        (map (fun id : string => (id, "active"))
           (map fst (JS.mapDelete scheduledTasks taskId)))).
  { intros Hin. apply in_map_iff in Hin. destruct Hin as (id & Heq & Hin).
    injection Heq as ->. apply mapHas_In_keys in Hin.
    rewrite mapHas_mapDelete in Hin. discriminate. }
  unfold JS.mapHas.
  destruct (JS.mapGet scheduledTasks taskId) as [task0 |] eqn:Hget;
    cbn [fst snd].
  - split; [reflexivity |]. split; [exact Hgone |].
    split; [discriminate |]. split.
    + now rewrite mapGet_mapDelete.
    + split.
      * intros task ->. cbn [fst snd]. rewrite mapGet_mapSet. cbn [fst snd].
        repeat split; try reflexivity.
        -- apply in_map_iff. exists taskId. split; [reflexivity |].
           apply mapHas_In_keys. unfold JS.mapHas. now rewrite mapGet_mapSet.
        -- discriminate.
      * intros m ->. reflexivity.
  - split; [reflexivity |]. split.
    + intros Hin. apply in_map_iff in Hin. destruct Hin as (id & Heq & Hin).
      injection Heq as ->. apply mapHas_In_keys in Hin.
      unfold JS.mapHas in Hin. rewrite Hget in Hin. discriminate.
    + split; [auto |]. split; [now rewrite Hget |]. split.
      * intros task ->. cbn [fst snd]. rewrite mapGet_mapSet. cbn [fst snd].
        repeat split; try reflexivity.
        -- apply in_map_iff. exists taskId. split; [reflexivity |].
           apply mapHas_In_keys. unfold JS.mapHas. now rewrite mapGet_mapSet.
        -- intros _. apply mapDelete_mapSet_absent. unfold JS.mapHas.
           now rewrite Hget.
      * intros m ->. reflexivity.
Qed.

(* ===================================================================== *)
(** ** The expiry boundary across the modules *)

Lemma timeUntil_expired_iff (timestamp dateNow : Z) :
  HelperFunctions.timeUntil timestamp dateNow = "Expired"
  <-> timestamp <= dateNow / 1000.
Proof.
  unfold HelperFunctions.timeUntil.
  destruct (Z.leb_spec (timestamp - dateNow / 1000) 0) as [Hle | Hgt].
  - split; [lia | reflexivity].
  - split; [| lia]. intros Hexpired. exfalso. revert Hexpired.
    set (diff := timestamp - dateNow / 1000) in *.
    assert (0 <= diff / (24 * 60 * 60)) by (apply Z.div_pos; lia).
    assert (0 <= diff mod (24 * 60 * 60) / (60 * 60))
      by (apply Z.div_pos; [apply Z.mod_pos_bound |]; lia).
    assert (0 <= diff mod (60 * 60) / 60)
      by (apply Z.div_pos; [apply Z.mod_pos_bound |]; lia).
    destruct (diff / (24 * 60 * 60) >? 0);
      [| destruct (diff mod (24 * 60 * 60) / (60 * 60) >? 0)];
      apply numberToString_not_Expired; assumption.
Qed.

(** X27. The modules agree on when a delegation has expired.  Read at the
    same clock, a timestamp is "Expired" for [timeUntil], Expired in the
    views of both list routes and of the in-memory scan, and refused by
    [validateDelegationParams] as not being in the future, in exactly the
    same case: when it is not after the current second. *)
Theorem X27_expiry_boundary_agrees
  (isAddress : string -> bool) (user contract : string)
  (expiresAt dateNow : Z) (plan : Plan) (delegation : Delegation) :
  p_expiresAt plan = expiresAt ->
  d_expiresAt delegation = expiresAt ->
  let expired := expiresAt <= dateNow / 1000 in
  (HelperFunctions.timeUntil expiresAt dateNow = "Expired" <-> expired)
  /\ (v_status (DelegationRoute.planView dateNow plan) = Expired <-> expired)
  /\ (v_status (WalletRoute.delegationView dateNow plan) = Expired
      <-> expired)
  /\ (v_status (DelegationRoute.memoryView (dateNow / 1000) delegation)
      = Expired <-> expired)
  /\ (In "Expiration must be in the future"
        (Helpers.validateDelegationParams isAddress user contract expiresAt
           dateNow) <-> expired)
  /\ (v_expiresIn (DelegationRoute.planView dateNow plan) = "Expired"
      <-> expired).
Proof.
  intros Hplan Hdelegation expired. subst expired.
  split; [apply timeUntil_expired_iff |].
  split; [rewrite <- Hplan; apply planView_status |].
  split; [rewrite <- Hplan; apply delegationView_status |].
  split; [rewrite <- Hdelegation; apply memoryView_status |].
  split.
  - unfold Helpers.validateDelegationParams, Helpers.isValidAddress.
    change (JS.numberToString
              (Constants.MAX_DELEGATION_DURATION / (24 * 60 * 60)))
      with "30".
    destruct (isAddress user), (isAddress contract);
      destruct (Z.leb_spec expiresAt (dateNow / 1000));
      destruct (expiresAt >? dateNow / 1000 + Constants.MAX_DELEGATION_DURATION);
      cbn [negb app In]; split; intros; try lia; try tauto;
      repeat match goal with
             | H : _ \/ _ |- _ => destruct H
             | H : False |- _ => destruct H
             | H : _ = _ |- _ => discriminate H
             end.
  - unfold DelegationRoute.planView. cbn [v_expiresIn]. rewrite Hplan.
    destruct (Z.gtb_spec (expiresAt - dateNow / 1000) 0) as [Hgt | Hle].
    + split; [| lia]. intros Hexpired. exfalso. revert Hexpired.
      apply numberToString_not_Expired. apply Z.div_pos; lia.
    + split; [lia | reflexivity].
Qed.

Lemma X27_expiry_boundary_agrees_witness :
  HelperFunctions.timeUntil 4600 4600999 = "Expired"
  /\ v_status (DelegationRoute.planView 4600999 DelegationExamples.inactivePlan)
     = Expired
  /\ v_status (DelegationRoute.memoryView 4600 DelegationExamples.oneHour)
     = Expired.
Proof.
  destruct (X27_expiry_boundary_agrees addressShape DelegationExamples.alice
              DelegationExamples.vault 4600 4600999
              DelegationExamples.inactivePlan DelegationExamples.oneHour
              eq_refl eq_refl) as (Htime & Hplan & _ & Hmemory & _).
  split; [apply Htime; vm_compute; discriminate |].
  split; [apply Hplan; vm_compute; discriminate |].
  apply Hmemory. vm_compute. discriminate.
Defined.

(* ===================================================================== *)
(** ** routes/dca.js *)

Lemma planGet_planSet (m : DcaRoute.PlanMap) (id : Z) (plan : DcaRoute.DcaPlan) :
  DcaRoute.planGet (DcaRoute.planSet m id plan) id = Some plan.
Proof.
  induction m as [| [id' plan'] rest IH]; cbn.
  - now rewrite Z.eqb_refl.
  - destruct (id' =? id) eqn:Hid; cbn; [now rewrite Z.eqb_refl |].
    now rewrite Hid.
Qed.

Lemma planGet_planSet_other (m : DcaRoute.PlanMap) (id other : Z)
  (plan : DcaRoute.DcaPlan) :
  other <> id ->
  DcaRoute.planGet (DcaRoute.planSet m id plan) other = DcaRoute.planGet m other.
Proof.
  intros Hne. induction m as [| [id' plan'] rest IH]; cbn.
  - destruct (Z.eqb_spec id other); [congruence | reflexivity].
  - destruct (Z.eqb_spec id' id) as [-> | Hid]; cbn.
    + destruct (Z.eqb_spec id other); [congruence | reflexivity].
    + destruct (id' =? other); [reflexivity | exact IH].
Qed.

Lemma planSet_same (m : DcaRoute.PlanMap) (id : Z) (plan : DcaRoute.DcaPlan) :
  DcaRoute.planGet m id = Some plan -> DcaRoute.planSet m id plan = m.
Proof.
  induction m as [| [id' plan'] rest IH]; cbn; [discriminate |].
  destruct (Z.eqb_spec id' id) as [-> | Hid].
  - intros H. injection H as ->. reflexivity.
  - intros H. now rewrite IH.
Qed.

Lemma execute_active
  (parseInt : string -> option Z) (formatEther : Z -> string)
  (isoOfSeconds : Z -> string)
  (simulatedFigures : DcaRoute.DcaPlan -> string * string)
  (smartGuardContract : option DcaRoute.DcaContract)
  (waitForTransactionReceipt : string -> Result Z)
  (dateNow : Z) (isoNow rawId : string) (db : DcaRoute.PlanMap) (id : Z)
  (plan : DcaRoute.DcaPlan) :
  parseInt rawId = Some id ->
  DcaRoute.planGet db id = Some plan ->
  DcaRoute.dp_isActive plan = true ->
  let result :=
    DcaRoute.execute parseInt formatEther isoOfSeconds simulatedFigures
      smartGuardContract waitForTransactionReceipt dateNow isoNow rawId db in
  let valid :=
    DcaRoute.validDate
      (DcaRoute.dp_nextExecution (DcaRoute.updated dateNow plan)) in
  snd result = DcaRoute.planSet db id (DcaRoute.updated dateNow plan)
  /\ DcaRoute.status (fst result) = (if valid then 200 else 500)
  /\ DcaRoute.success (fst result) = valid.
Proof.
  intros Hid Hget Hactive result valid. subst result valid.
  unfold DcaRoute.execute. rewrite Hid, Hget, Hactive. cbn [negb].
  destruct (simulatedFigures plan) as [amount price].
  unfold DcaRoute.toISOString.
  destruct (DcaRoute.dp_nextExecution (DcaRoute.updated dateNow plan))
    as [seconds |]; [| repeat split].
  destruct (DcaRoute.validDate (Some seconds)); repeat split.
Qed.

(** X28. Executing a stored, active plan adds one [amountPerInterval] to
    its [totalSpent], moves [nextExecution] one interval past the current
    second and leaves the plan active exactly when the new [totalSpent] is
    still below [maxTotalAmount], whatever the remote contract does, and no
    other plan changes.  The answer is 200 when the new [nextExecution] is a
    valid date; when it is not (the interval is not finite, or too large),
    the answer is 500 although the plan has been updated.  An inactive plan
    is refused with 400 and an unknown id with 404, both without any
    change. *)
Theorem X28_dca_execute_transition
  (parseInt : string -> option Z) (formatEther : Z -> string)
  (isoOfSeconds : Z -> string)
  (simulatedFigures : DcaRoute.DcaPlan -> string * string)
  (smartGuardContract : option DcaRoute.DcaContract)
  (waitForTransactionReceipt : string -> Result Z)
  (dateNow : Z) (isoNow rawId : string) (db : DcaRoute.PlanMap) (id : Z) :
  parseInt rawId = Some id ->
  let result :=
    DcaRoute.execute parseInt formatEther isoOfSeconds simulatedFigures
      smartGuardContract waitForTransactionReceipt dateNow isoNow rawId db in
  (DcaRoute.planGet db id = None ->
   DcaRoute.status (fst result) = 404 /\ snd result = db)
  /\ (forall plan,
        DcaRoute.planGet db id = Some plan ->
        DcaRoute.dp_isActive plan = false ->
        DcaRoute.status (fst result) = 400
        /\ DcaRoute.success (fst result) = false
        /\ snd result = db)
  /\ (forall plan,
        DcaRoute.planGet db id = Some plan ->
        DcaRoute.dp_isActive plan = true ->
        (forall other, other <> id ->
           DcaRoute.planGet (snd result) other = DcaRoute.planGet db other)
        /\ exists plan',
             DcaRoute.planGet (snd result) id = Some plan'
             /\ DcaRoute.dp_totalSpent plan'
                = DcaRoute.dp_totalSpent plan
                  + DcaRoute.dp_amountPerInterval plan
             /\ DcaRoute.dp_nextExecution plan'
                = option_map (Z.add (dateNow / 1000))
                    (DcaRoute.dp_interval plan)
             /\ DcaRoute.dp_maxTotalAmount plan'
                = DcaRoute.dp_maxTotalAmount plan
             /\ DcaRoute.dp_amountPerInterval plan'
                = DcaRoute.dp_amountPerInterval plan
             /\ (DcaRoute.dp_isActive plan' = true
                 <-> DcaRoute.dp_totalSpent plan'
                     < DcaRoute.dp_maxTotalAmount plan')
             /\ (DcaRoute.validDate (DcaRoute.dp_nextExecution plan') = true ->
                 DcaRoute.status (fst result) = 200
                 /\ DcaRoute.success (fst result) = true)
             /\ (DcaRoute.validDate (DcaRoute.dp_nextExecution plan') = false ->
                 DcaRoute.status (fst result) = 500
                 /\ DcaRoute.success (fst result) = false)
             /\ (DcaRoute.validDate (DcaRoute.dp_nextExecution plan') = true
                 <-> exists interval,
                       DcaRoute.dp_interval plan = Some interval
                       /\ Z.abs (dateNow / 1000 + interval) <= 8640000000000)).
Proof.
  intros Hid result.
  split; [| split].
  - intros Hnone. subst result. unfold DcaRoute.execute.
    rewrite Hid, Hnone. split; reflexivity.
  - intros plan Hget Hinactive. subst result. unfold DcaRoute.execute.
    rewrite Hid, Hget, Hinactive. repeat split.
  - intros plan Hget Hactive.
    destruct (execute_active parseInt formatEther isoOfSeconds
                simulatedFigures smartGuardContract waitForTransactionReceipt
                dateNow isoNow rawId db id plan Hid Hget Hactive)
      as (Hdb & Hstatus & Hsuccess).
    fold result in Hdb, Hstatus, Hsuccess. rewrite Hdb, Hstatus, Hsuccess.
    split; [intros other Hother; now apply planGet_planSet_other |].
    exists (DcaRoute.updated dateNow plan).
    split; [apply planGet_planSet |].
    do 4 (split; [reflexivity |]).
    split.
    { cbn [DcaRoute.updated DcaRoute.dp_isActive DcaRoute.dp_totalSpent
           DcaRoute.dp_maxTotalAmount]. rewrite Hactive.
      destruct (Z.geb_spec
                  (DcaRoute.dp_totalSpent plan
                   + DcaRoute.dp_amountPerInterval plan)
                  (DcaRoute.dp_maxTotalAmount plan));
        split; intros; try discriminate; try lia; reflexivity. }
    split; [intros ->; split; reflexivity |].
    split; [intros ->; split; reflexivity |].
    cbn [DcaRoute.updated DcaRoute.dp_nextExecution].
    destruct (DcaRoute.dp_interval plan) as [interval |];
      cbn [option_map DcaRoute.validDate].
    + rewrite Z.leb_le. split.
      * intros Hle. exists interval. split; [reflexivity | lia].
      * intros (i & Hi & Hle). injection Hi as <-. lia.
    + split; [discriminate | intros (i & Hi & _); discriminate].
Qed.

(** A plan of 3 units per interval capped at 5: the first execution leaves
    it active with 3 spent, the second deactivates it with 6 spent, the
    third is refused.  The same plan stored with an interval that is not a
    number is updated by an execution that answers 500. *)
Lemma X28_dca_execute_transition_witness :
  let parse := fun _ : string => Some 1 in
  let run :=
    DcaRoute.execute parse (fun _ => "3") (fun _ => "t") (fun _ => ("1", "1"))
      None (fun _ => Ok 1) 1000500 "now" "1" in
  let plan (interval : option Z) :=
    {| DcaRoute.dp_id := 1; DcaRoute.dp_userAddress := Examples.plainAddress;
       DcaRoute.dp_tokenAddress := Examples.deadAddress;
       DcaRoute.dp_amountPerInterval := 3; DcaRoute.dp_interval := interval;
       DcaRoute.dp_maxTotalAmount := 5; DcaRoute.dp_totalSpent := 0;
       DcaRoute.dp_nextExecution := interval; DcaRoute.dp_createdAt := 0;
       DcaRoute.dp_isActive := true; DcaRoute.dp_description := "";
       DcaRoute.dp_dexRouter := "" |} in
  let db1 := snd (run [(1, plan (Some 60))]) in
  let db2 := snd (run db1) in
  let failed := run [(1, plan None)] in
  parse "1" = Some 1
  /\ DcaRoute.status (fst (run [(1, plan (Some 60))])) = 200
  /\ option_map DcaRoute.dp_totalSpent (DcaRoute.planGet db1 1) = Some 3
  /\ option_map DcaRoute.dp_isActive (DcaRoute.planGet db1 1) = Some true
  /\ option_map DcaRoute.dp_totalSpent (DcaRoute.planGet db2 1) = Some 6
  /\ option_map DcaRoute.dp_isActive (DcaRoute.planGet db2 1) = Some false
  /\ DcaRoute.status (fst failed) = 500
  /\ option_map DcaRoute.dp_totalSpent (DcaRoute.planGet (snd failed) 1)
     = Some 3
  /\ DcaRoute.status (fst (run db2)) = 400.
Proof.
  intros parse run plan db1 db2 failed. split; [reflexivity |].
  destruct (X28_dca_execute_transition parse (fun _ => "3") (fun _ => "t")
              (fun _ => ("1", "1")) None (fun _ => Ok 1) 1000500 "now" "1"
              db2 1 eq_refl) as (_ & Hinactive & _).
  destruct (Hinactive _ eq_refl eq_refl) as (Hstatus & _).
  do 7 (split; [reflexivity |]). exact Hstatus.
Defined.

Lemma cancel_stored
  (parseInt : string -> option Z) (c : option DcaRoute.DcaContract)
  (rawId : string) (db : DcaRoute.PlanMap) (id : Z) (plan : DcaRoute.DcaPlan) :
  parseInt rawId = Some id ->
  DcaRoute.planGet db id = Some plan ->
  exists plan',
    DcaRoute.cancel parseInt c rawId db
    = ({| DcaRoute.status := 200; DcaRoute.success := true;
          DcaRoute.message := "DCA plan cancelled successfully";
          DcaRoute.execution := None; DcaRoute.dcaId := Some id |},
       DcaRoute.planSet db id plan')
    /\ DcaRoute.dp_isActive plan' = false
    /\ DcaRoute.dp_totalSpent plan' = DcaRoute.dp_totalSpent plan
    /\ DcaRoute.dp_maxTotalAmount plan' = DcaRoute.dp_maxTotalAmount plan
    /\ DcaRoute.dp_nextExecution plan' = DcaRoute.dp_nextExecution plan
    /\ (DcaRoute.dp_isActive plan = false -> plan' = plan).
Proof.
  intros Hid Hget. unfold DcaRoute.cancel. rewrite Hid, Hget.
  eexists. split; [reflexivity |]. cbn. repeat split.
  intros Hinactive. destruct plan. cbn in *. now subst.
Qed.

(** X29. Cancelling a stored plan answers 200 and clears its [isActive]
    flag, leaving its other fields and every other plan as they were,
    whatever the remote contract does.  After it an execution of the plan
    is refused with 400 and changes nothing, and a second cancellation
    answers 200 again and leaves the map as the first one left it.  An
    unknown id is answered 404 without any change. *)
Theorem X29_dca_cancel_is_final
  (parseInt : string -> option Z) (formatEther : Z -> string)
  (isoOfSeconds : Z -> string)
  (simulatedFigures : DcaRoute.DcaPlan -> string * string)
  (contract1 contract2 : option DcaRoute.DcaContract)
  (waitForTransactionReceipt : string -> Result Z)
  (dateNow : Z) (isoNow rawId : string) (db : DcaRoute.PlanMap) (id : Z) :
  parseInt rawId = Some id ->
  let cancelled := DcaRoute.cancel parseInt contract1 rawId db in
  let again := DcaRoute.cancel parseInt contract2 rawId (snd cancelled) in
  let executed :=
    DcaRoute.execute parseInt formatEther isoOfSeconds simulatedFigures
      contract2 waitForTransactionReceipt dateNow isoNow rawId
      (snd cancelled) in
  (DcaRoute.planGet db id = None ->
   DcaRoute.status (fst cancelled) = 404 /\ snd cancelled = db)
  /\ (forall plan,
        DcaRoute.planGet db id = Some plan ->
        DcaRoute.status (fst cancelled) = 200
        /\ DcaRoute.success (fst cancelled) = true
        /\ (forall other, other <> id ->
              DcaRoute.planGet (snd cancelled) other
              = DcaRoute.planGet db other)
        /\ (exists plan',
              DcaRoute.planGet (snd cancelled) id = Some plan'
              /\ DcaRoute.dp_isActive plan' = false
              /\ DcaRoute.dp_totalSpent plan' = DcaRoute.dp_totalSpent plan
              /\ DcaRoute.dp_maxTotalAmount plan'
                 = DcaRoute.dp_maxTotalAmount plan
              /\ DcaRoute.dp_nextExecution plan'
                 = DcaRoute.dp_nextExecution plan)
        /\ DcaRoute.status (fst executed) = 400
        /\ snd executed = snd cancelled
        /\ DcaRoute.status (fst again) = 200
        /\ snd again = snd cancelled).
Proof.
  intros Hid cancelled again executed.
  split.
  - intros Hnone. subst cancelled. unfold DcaRoute.cancel.
    rewrite Hid, Hnone. split; reflexivity.
  - intros plan Hget.
    destruct (cancel_stored parseInt contract1 rawId db id plan Hid Hget)
      as (plan' & Hcancel & Hinactive & Hspent & Hmax & Hnext & _).
    assert (Hstored : DcaRoute.planGet (snd cancelled) id = Some plan').
    { subst cancelled. rewrite Hcancel. apply planGet_planSet. }
    destruct (cancel_stored parseInt contract2 rawId (snd cancelled) id plan'
                Hid Hstored) as (plan'' & Hagain & _ & _ & _ & _ & Hsame).
    rewrite (Hsame Hinactive) in Hagain.
    subst again executed. rewrite Hagain.
    unfold DcaRoute.execute. rewrite Hid, Hstored, Hinactive.
    subst cancelled. rewrite Hcancel in *.
    cbn [fst snd DcaRoute.status DcaRoute.success negb] in *.
    repeat split.
    + intros other Hother. now apply planGet_planSet_other.
    + exists plan'. auto.
    + now apply planSet_same.
Qed.

(** Cancelling an active plan, then trying to execute it. *)
Lemma X29_dca_cancel_is_final_witness :
  let parse := fun _ : string => Some 1 in
  let plan :=
    {| DcaRoute.dp_id := 1; DcaRoute.dp_userAddress := Examples.plainAddress;
       DcaRoute.dp_tokenAddress := Examples.deadAddress;
       DcaRoute.dp_amountPerInterval := 3; DcaRoute.dp_interval := Some 60;
       DcaRoute.dp_maxTotalAmount := 5; DcaRoute.dp_totalSpent := 0;
       DcaRoute.dp_nextExecution := Some 0; DcaRoute.dp_createdAt := 0;
       DcaRoute.dp_isActive := true; DcaRoute.dp_description := "";
       DcaRoute.dp_dexRouter := "" |} in
  let cancelled := DcaRoute.cancel parse None "1" [(1, plan)] in
  parse "1" = Some 1
  /\ DcaRoute.status (fst cancelled) = 200
  /\ DcaRoute.status
       (fst (DcaRoute.execute parse (fun _ => "3") (fun _ => "t")
               (fun _ => ("1", "1")) None (fun _ => Ok 1) 1000500 "now" "1"
               (snd cancelled))) = 400.
Proof.
  intros parse plan cancelled. split; [reflexivity |].
  destruct (X29_dca_cancel_is_final parse (fun _ => "3") (fun _ => "t")
              (fun _ => ("1", "1")) None None (fun _ => Ok 1) 1000500 "now"
              "1" [(1, plan)] 1 eq_refl) as (_ & Hstored).
  destruct (Hstored plan eq_refl) as (Hstatus & _ & _ & _ & Hexecute & _).
  split; [exact Hstatus | exact Hexecute].
Defined.
